(** * K-NET / KiK-net ASCII reader (obspy.io.nied.knet)

    A shallow embedding of [obspy/io/nied/knet.py] and the properties of
    its format sniffer, header parser and decoder.

    Python values are modelled as follows.
    - [str] is a list of Unicode code points ([N]); [bytes] is a list of
      [byte].  [bytes.decode()] is strict UTF-8.
    - Exceptions are an error monad [result]; the exception classes the
      module can raise are the constructors of [exn].
    - [dict] objects are [gmap]s with string keys.
    - [float] is an interface ([PyFloat]): the module only parses floats
      and multiplies / divides them, so the development is parametric in
      the floating-point arithmetic.  A binary64 instance is given for the
      worked examples. *)

From Stdlib Require Import ZArith NArith Ascii String Strings.Byte SpecFloat.
From stdpp Require Import base option list gmap strings.

Local Open Scope Z_scope.

(** ** Text and bytes *)

Abbreviation str := (list N).
Abbreviation bytes := (list byte).

(** A [str] literal, written as an ASCII string. *)
Definition u (s : string) : str :=
  (fun a => N_of_ascii a) <$> list_ascii_of_string s.

(** A [bytes] literal. *)
Definition b (s : string) : bytes := list_byte_of_string s.

(** ** Exceptions *)

Inductive exn : Type :=
| KNETException (msg : str)
| IndexError
| ValueError
| KeyError
| TypeError
| ZeroDivisionError
| UnicodeDecodeError.

Inductive result (A : Type) : Type :=
| Ok (a : A)
| Raise (e : exn).
Arguments Ok {A} a.
Arguments Raise {A} e.

#[export] Instance result_ret : MRet result := fun A a => Ok a.
#[export] Instance result_bind : MBind result := fun A B f m =>
  match m with
  | Ok a => f a
  | Raise e => Raise e
  end.

(** [o] or raise [e]. *)
Definition or_raise {A} (e : exn) (o : option A) : result A :=
  match o with
  | Some a => Ok a
  | None => Raise e
  end.

(** [l[i]] on a Python list: [IndexError] when out of range. *)
Definition getitem {A} (l : list A) (i : nat) : result A :=
  or_raise IndexError (l !! i).

(** ** Builtin string operations *)

(** [Py_UNICODE_ISSPACE]: the characters [str.split()] and [str.strip()]
    treat as whitespace. *)
Definition isspace (c : N) : bool :=
  ((9 <=? c) && (c <=? 13) || (28 <=? c) && (c <=? 32)
   || (c =? 133) || (c =? 160) || (c =? 5760)
   || (8192 <=? c) && (c <=? 8202)
   || (c =? 8232) || (c =? 8233) || (c =? 8239) || (c =? 8287)
   || (c =? 12288))%N.

(** [Py_ISSPACE]: whitespace for [bytes.split()] and [bytes.strip()]. *)
Definition isspace_byte (c : byte) : bool :=
  let n := Byte.to_N c in ((9 <=? n) && (n <=? 13) || (n =? 32))%N.

Definition is_nil {A} (l : list A) : bool :=
  match l with
  | [] => true
  | _ => false
  end.

(** [s.split()] with no separator: the maximal runs of non-whitespace.
    [cur] is the token being scanned, most recent character first. *)
Fixpoint split_go {A} (sp : A -> bool) (s cur : list A) : list (list A) :=
  match s with
  | [] => if is_nil cur then [] else [reverse cur]
  | c :: s' =>
      if sp c
      then (if is_nil cur then split_go sp s' []
            else reverse cur :: split_go sp s' [])
      else split_go sp s' (c :: cur)
  end.

Definition split_ws {A} (sp : A -> bool) (s : list A) : list (list A) :=
  split_go sp s [].

Definition str_split (s : str) : list str := split_ws isspace s.
Definition bytes_split (s : bytes) : list bytes := split_ws isspace_byte s.

Fixpoint drop_while {A} (p : A -> bool) (s : list A) : list A :=
  match s with
  | [] => []
  | c :: s' => if p c then drop_while p s' else s
  end.

Fixpoint take_while {A} (p : A -> bool) (s : list A) : list A :=
  match s with
  | [] => []
  | c :: s' => if p c then c :: take_while p s' else []
  end.

(** [s.strip()]: whitespace removed at both ends. *)
Definition strip_ws {A} (sp : A -> bool) (s : list A) : list A :=
  reverse (drop_while sp (reverse (drop_while sp s))).

Definition str_strip (s : str) : str := strip_ws isspace s.
Definition bytes_strip (s : bytes) : bytes := strip_ws isspace_byte s.

(** [line.startswith(name)]. *)
Fixpoint startswith (name line : str) : bool :=
  match name, line with
  | [], _ => true
  | _ :: _, [] => false
  | a :: name', c :: line' => (a =? c)%N && startswith name' line'
  end.

(** [s.replace(c, '')] for a one-character [c]. *)
Definition remove_char (c : N) (s : str) : str :=
  filter (fun x => x <> c) s.

(** [s.split(sep)] for a one-character separator: every separator cuts,
    empty pieces are kept, and the result is never empty. *)
Fixpoint split_on (sep : N) (s : str) : list str :=
  match s with
  | [] => [[]]
  | c :: s' =>
      if (c =? sep)%N then [] :: split_on sep s'
      else match split_on sep s' with
           | p :: ps => (c :: p) :: ps
           | [] => [[c]]
           end
  end.

(** [sep.join(l)]. *)
Fixpoint str_join (sep : str) (l : list str) : str :=
  match l with
  | [] => []
  | [x] => x
  | x :: l' => x ++ sep ++ str_join sep l'
  end.

(** Slices [s[-n:]] and [s[:-n]] for [n > 0]. *)
Definition slice_last (n : nat) (s : str) : str := drop (length s - n) s.
Definition slice_but_last (n : nat) (s : str) : str := take (length s - n) s.

(** ** Numbers *)

Definition is_digit (c : N) : bool := ((48 <=? c) && (c <=? 57))%N.

(** [re.search('[0-9]*', s).group()]: the pattern matches at position 0,
    possibly the empty string, so the group is the leading digit run. *)
Definition leading_digits (s : str) : str := take_while is_digit s.

Definition digits_value (ds : str) : Z :=
  foldl (fun acc c => 10 * acc + (Z.of_N c - 48)) 0 ds.

(** [int(s)] on a run of ASCII digits; [int('')] raises [ValueError].
    Integers are unbounded. *)
Definition int_of_digits (ds : str) : result Z :=
  if is_nil ds then Raise ValueError
  else if forallb is_digit ds then Ok (digits_value ds)
  else Raise ValueError.

(** ['%d' % n] for a length. *)
Fixpoint decimal_go (fuel : nat) (n : N) (acc : str) : str :=
  match fuel with
  | O => acc
  | S fuel' =>
      let acc' := (48 + n mod 10)%N :: acc in
      if (n <? 10)%N then acc' else decimal_go fuel' (n / 10)%N acc'
  end.

Definition format_d (n : nat) : str := decimal_go (S n) (N.of_nat n) [].

(** ** [bytes.decode()]: strict UTF-8 *)

Definition is_cont (c : byte) : bool :=
  let n := Byte.to_N c in ((128 <=? n) && (n <=? 191))%N.

Definition cont_bits (c : byte) : N := (Byte.to_N c - 128)%N.

(** The decoder rejects stray continuation bytes, overlong forms,
    surrogates and code points above U+10FFFF. *)
Fixpoint utf8_decode (s : bytes) : option str :=
  match s with
  | [] => Some []
  | c0 :: r0 =>
      let n0 := Byte.to_N c0 in
      if (n0 <? 128)%N then cons n0 <$> utf8_decode r0
      else if ((194 <=? n0) && (n0 <=? 223))%N then
        match r0 with
        | c1 :: r1 =>
            if is_cont c1
            then cons ((n0 - 192) * 64 + cont_bits c1)%N <$> utf8_decode r1
            else None
        | _ => None
        end
      else if ((224 <=? n0) && (n0 <=? 239))%N then
        match r0 with
        | c1 :: c2 :: r2 =>
            let n1 := Byte.to_N c1 in
            let lo := if (n0 =? 224)%N then 160%N else 128%N in
            let hi := if (n0 =? 237)%N then 159%N else 191%N in
            if ((lo <=? n1) && (n1 <=? hi))%N && is_cont c2
            then cons (((n0 - 224) * 64 + cont_bits c1) * 64 + cont_bits c2)%N
                   <$> utf8_decode r2
            else None
        | _ => None
        end
      else if ((240 <=? n0) && (n0 <=? 244))%N then
        match r0 with
        | c1 :: c2 :: c3 :: r3 =>
            let n1 := Byte.to_N c1 in
            let lo := if (n0 =? 240)%N then 144%N else 128%N in
            let hi := if (n0 =? 244)%N then 143%N else 191%N in
            if ((lo <=? n1) && (n1 <=? hi))%N && is_cont c2 && is_cont c3
            then cons ((((n0 - 240) * 64 + cont_bits c1) * 64
                        + cont_bits c2) * 64 + cont_bits c3)%N
                   <$> utf8_decode r3
            else None
        | _ => None
        end
      else None
  end.

Definition bytes_decode (s : bytes) : result str :=
  or_raise UnicodeDecodeError (utf8_decode s).

(** ** Floating point *)

(** What the module needs of Python's [float]: the constructor on [str]
    and on [bytes] ([None] is [ValueError]), multiplication, true division
    ([None] is [ZeroDivisionError]) and the literal [0.01]. *)
Class PyFloat := {
  float : Type;
  float_of_str : str -> option float;
  float_of_bytes : bytes -> option float;
  float_mul : float -> float -> float;
  float_div : float -> float -> option float;
  float_0_01 : float
}.

(** ** UTCDateTime *)

(** Modelled from the spec: [obspy.UTCDateTime] is not part of this
    module.  The spec describes it as an absolute UTC timestamp; here it is
    the number of seconds since 1970-01-01T00:00:00. *)
Record UTCDateTime : Type := { timestamp : Z }.

(** [dt - seconds]. *)
Definition utc_sub (dt : UTCDateTime) (seconds : Z) : UTCDateTime :=
  {| timestamp := timestamp dt - seconds |}.

Definition is_leap (y : Z) : bool :=
  (y mod 4 =? 0) && (negb (y mod 100 =? 0) || (y mod 400 =? 0)).

Definition days_in_month (y m : Z) : Z :=
  if m =? 2 then (if is_leap y then 29 else 28)
  else if (m =? 4) || (m =? 6) || (m =? 9) || (m =? 11) then 30
  else 31.

(** Days from 1970-01-01 to the proleptic Gregorian date [y]-[m]-[d]. *)
Definition days_from_civil (y m d : Z) : Z :=
  let y' := if m <=? 2 then y - 1 else y in
  let era := y' / 400 in
  let yoe := y' - era * 400 in
  let doy := (153 * (if 2 <? m then m - 3 else m + 9) + 2) / 5 + d - 1 in
  let doe := yoe * 365 + yoe / 4 - yoe / 100 + doy in
  era * 146097 + doe - 719468.

Definition all_digits (s : str) : option Z :=
  if forallb is_digit s then Some (digits_value s) else None.

(** Modelled from the spec: [UTCDateTime.strptime(dt, '%Y/%m/%d %H:%M:%S')]
    parses [YYYY/MM/DD HH:MM:SS] in a fixed calendar; anything else is a
    [ValueError]. *)
Definition strptime (dt : str) : result UTCDateTime :=
  or_raise ValueError
    (match dt with
     | [y1; y2; y3; y4; s1; m1; m2; s2; d1; d2; sp; h1; h2; c1; mi1; mi2; c2;
        se1; se2] =>
         if ((s1 =? 47) && (s2 =? 47) && (sp =? 32)
             && (c1 =? 58) && (c2 =? 58))%N then
           y ← all_digits [y1; y2; y3; y4];
           m ← all_digits [m1; m2];
           d ← all_digits [d1; d2];
           h ← all_digits [h1; h2];
           mi ← all_digits [mi1; mi2];
           se ← all_digits [se1; se2];
           if (1 <=? y) && (1 <=? m) && (m <=? 12)
              && (1 <=? d) && (d <=? days_in_month y m)
              && (h <=? 23) && (mi <=? 59) && (se <=? 59)
           then Some {| timestamp :=
                          days_from_civil y m d * 86400
                          + h * 3600 + mi * 60 + se |}
           else None
         else None
     | _ => None
     end).

(** ** The format sniffer *)

(** The text layer ([io.TextIOWrapper]) as the sniffer uses it:
    [text_read e content n] is what [read(n)] returns on a text stream of
    encoding [e] over the bytes [content], at most [n] decoded characters,
    or [None] when decoding raises a [UnicodeError]. *)
Class TextLayer := {
  encoding : Type;
  getpreferredencoding : encoding;
  text_read : encoding -> bytes -> nat -> option str
}.

Section Sniffer.
Context `{TextLayer}.

(** A file-like object as the sniffer receives it: a binary stream, or a
    text stream that already carries its own encoding.  The content is what
    is left to read from the current position. *)
Inductive stream : Type :=
| BytesIO (content : bytes)
| TextIO (enc : encoding) (content : bytes).

(** Modelled from the spec: [_text_buffer_wrapper] lives in
    [obspy.core.util.misc].  It wraps a binary stream into a text stream of
    the given encoding and leaves a text stream untouched (the docstring:
    the given setting is ignored if the input is already a text stream). *)
Definition _text_buffer_wrapper (buf : stream) (enc : encoding) : stream :=
  match buf with
  | BytesIO content => TextIO enc content
  | TextIO _ _ => buf
  end.

(** [buf.read(n)]; only text streams are read here. *)
Definition stream_read (buf : stream) (n : nat) : result str :=
  match buf with
  | TextIO e content => or_raise UnicodeDecodeError (text_read e content n)
  | BytesIO _ => Raise TypeError
  end.

(** [if encoding is None: encoding = locale.getpreferredencoding()]. *)
Definition chosen (enc : option encoding) : encoding :=
  match enc with
  | None => getpreferredencoding
  | Some e => e
  end.

Definition _internal_is_knet_ascii (buf : stream) (enc : option encoding)
  : result bool :=
  let enc := chosen enc in
  let buf := _text_buffer_wrapper buf enc in
  match stream_read buf 11 with
  | Raise UnicodeDecodeError => Ok false
  | Raise e => Raise e
  | Ok first_string =>
      (* File has less than 11 characters *)
      if negb (length first_string =? 11)%nat then Ok false
      else if bool_decide (first_string = u "Origin Time") then Ok true
      else Ok false
  end.

Definition _is_knet_ascii (filename_or_buf : stream) (enc : option encoding)
  : result bool :=
  _internal_is_knet_ascii filename_or_buf enc.

(** The first [n] decoded characters of a stream under [enc], if they
    decode: the encoding in force is the stream's own when it has one. *)
Definition first_chars (buf : stream) (enc : encoding) (n : nat)
  : option str :=
  match buf with
  | BytesIO content => text_read enc content n
  | TextIO e content => text_read e content n
  end.

End Sniffer.

(** ** The header *)

Section Reader.
Context `{PyFloat}.

(** Values stored in the header dictionary. *)
Inductive atom : Type :=
| VTime (t : UTCDateTime)
| VFloat (f : float)
| VInt (n : Z)
| VStr (s : str).

Inductive value : Type :=
| Leaf (a : atom)
| Nested (d : gmap string atom).

Abbreviation dict := (gmap string value).

(** [hdrdict['knet'][k] = v]. *)
Definition set_knet (k : string) (v : atom) (hdrdict : dict) : result dict :=
  match hdrdict !! "knet"%string with
  | Some (Nested knet) =>
      Ok (<["knet"%string := Nested (<[k := v]> knet)]> hdrdict)
  | Some (Leaf _) => Raise TypeError
  | None => Raise KeyError
  end.

(** [hdrdict[k] = v]. *)
Definition set_key (k : string) (v : atom) (hdrdict : dict) : dict :=
  <[k := Leaf v]> hdrdict.

(** Reading back: [hdrdict[k]] and [hdrdict['knet'][k]]. *)
Definition get_key (hdrdict : dict) (k : string) : option atom :=
  match hdrdict !! k with
  | Some (Leaf a) => Some a
  | _ => None
  end.

Definition get_knet (hdrdict : dict) (k : string) : option atom :=
  match hdrdict !! "knet"%string with
  | Some (Nested knet) => knet !! k
  | _ => None
  end.

(** The places a header block writes to: a key of [hdrdict] other than
    ['knet'], or a key of [hdrdict['knet']]. *)
Inductive slot : Type :=
| Top (k : string)
| Knet (k : string).

#[export] Instance slot_eq_dec : EqDecision slot.
Proof. solve_decision. Defined.

Definition read_slot (hdrdict : dict) (s : slot) : option atom :=
  match s with
  | Top k => get_key hdrdict k
  | Knet k => get_knet hdrdict k
  end.

(** [float(s)]. *)
Definition pyfloat (s : str) : result float :=
  or_raise ValueError (float_of_str s).

Definition _prep_hdr_line (name line : str) : result (list str) :=
  if negb (startswith name line)
  then Raise (KNETException
                (u "Expected line to start with " ++ name
                 ++ u " but got " ++ line ++ u " "))
  else Ok (str_split line).

Definition hdrnames : list str :=
  [u "Origin Time"; u "Lat."; u "Long."; u "Depth. (km)"; u "Mag.";
   u "Station Code"; u "Station Lat."; u "Station Long.";
   u "Station Height(m)"; u "Record Time"; u "Sampling Freq(Hz)";
   u "Duration Time(s)"; u "Dir."; u "Scale Factor"; u "Max. Acc. (gal)";
   u "Last Correction"; u "Memo."].

(** [flds = _prep_hdr_line(hdrnames[_i], hdrlines[_i])]. *)
Definition prep_at (hdrlines : list str) (_i : nat) : result (list str) :=
  name ← getitem hdrnames _i;
  line ← getitem hdrlines _i;
  _prep_hdr_line name line.

(** The 9 hours between Japanese standard time and UTC. *)
Definition jst_offset : Z := 9 * 3600.

(** *** The seventeen blocks of [_read_knet_hdr]

    The function is a sequence of seventeen blocks, one per header line
    (lines 109-224 of [knet.py]); each reads [hdrlines[_i]] and extends
    [hdrdict].  The nine blocks that store one float under ['knet'] share
    [hdr_float]. *)

(** [dt = flds[2] + ' ' + flds[3]] and
    [UTCDateTime.strptime(dt, '%Y/%m/%d %H:%M:%S')]. *)
Definition read_time (flds : list str) : result UTCDateTime :=
  date ← getitem flds 2;
  time ← getitem flds 3;
  let dt := date ++ u " " ++ time in
  strptime dt.

(* Event information *)
Definition hdr_evot (hdrlines : list str) (_i : nat) (hdrdict : dict)
  : result dict :=
  flds ← prep_at hdrlines _i;
  dt ← read_time flds;
  (* All times are in Japanese standard time which is 9 hours ahead of UTC *)
  let dt := utc_sub dt jst_offset in
  set_knet "evot" (VTime dt) hdrdict.

(** A line holding one float at token [pos], stored under ['knet']. *)
Definition hdr_float (key : string) (pos : nat)
    (hdrlines : list str) (_i : nat) (hdrdict : dict) : result dict :=
  flds ← prep_at hdrlines _i;
  tok ← getitem flds pos;
  x ← pyfloat tok;
  set_knet key (VFloat x) hdrdict.

Definition hdr_evla := hdr_float "evla" 1.
Definition hdr_evlo := hdr_float "evlo" 1.
Definition hdr_evdp := hdr_float "evdp" 2.
Definition hdr_mag := hdr_float "mag" 1.

(* Station information *)
Definition station_msg : str :=
  u "Station name can't be more than 7 characters long!".

(** The station token split into (station, location). *)
Definition split_station (convert_stnm : bool) (stnm : str) : str * str :=
  let location := [] in
  if convert_stnm && (5 <? length stnm)%nat
  then (slice_but_last 2 stnm, slice_last 2 stnm)
  else (stnm, location).

Definition hdr_station (convert_stnm : bool)
    (hdrlines : list str) (_i : nat) (hdrdict : dict) : result dict :=
  flds ← prep_at hdrlines _i;
  stnm ← getitem flds 2;
  let '(stnm, location) := split_station convert_stnm stnm in
  if (7 <? length stnm)%nat then Raise (KNETException station_msg)
  else
    let hdrdict := set_key "station" (VStr stnm) hdrdict in
    Ok (set_key "location" (VStr location) hdrdict).

Definition hdr_stla := hdr_float "stla" 2.
Definition hdr_stlo := hdr_float "stlo" 2.
Definition hdr_stel := hdr_float "stel" 2.

(* Data information *)
(** The 15 s the data logger adds to the record time. *)
Definition logger_delay : Z := 15.

Definition hdr_starttime (hdrlines : list str) (_i : nat) (hdrdict : dict)
  : result dict :=
  flds ← prep_at hdrlines _i;
  dt ← read_time flds;
  let dt := utc_sub dt logger_delay in
  let dt := utc_sub dt jst_offset in
  Ok (set_key "starttime" (VTime dt) hdrdict).

Definition hdr_sampling_rate (hdrlines : list str) (_i : nat) (hdrdict : dict)
  : result dict :=
  flds ← prep_at hdrlines _i;
  freqstr ← getitem flds 2;
  let m := leading_digits freqstr in
  freq ← int_of_digits m;
  Ok (set_key "sampling_rate" (VInt freq) hdrdict).

Definition hdr_duration := hdr_float "duration" 2.

Definition kiknetcomps : gmap str str :=
  <[u "1" := u "NS1"]> (<[u "2" := u "EW1"]> (<[u "3" := u "UD1"]>
  (<[u "4" := u "NS2"]> (<[u "5" := u "EW2"]> (<[u "6" := u "UD2"]> ∅))))).

(** The channel code of a direction token: hyphens removed, the KiK-net
    directions 1-6 renamed. *)
Definition channel_code (tok : str) : str :=
  let channel := remove_char 45 tok in
  match kiknetcomps !! str_strip channel with
  | Some named => named
  | None => channel
  end.

Definition hdr_channel (hdrlines : list str) (_i : nat) (hdrdict : dict)
  : result dict :=
  flds ← prep_at hdrlines _i;
  tok ← getitem flds 1;
  Ok (set_key "channel" (VStr (channel_code tok)) hdrdict).

(** [num, denom = eqn.split('/')] and the factor from gal to m/s^2. *)
Definition calibration (eqn : str) : result float :=
  match split_on 47 eqn with
  | [num; denom] =>
      num ← pyfloat (leading_digits num);
      denom ← pyfloat denom;
      or_raise ZeroDivisionError
        (float_div (float_mul float_0_01 num) denom)
  | _ => Raise ValueError
  end.

Definition hdr_calib (hdrlines : list str) (_i : nat) (hdrdict : dict)
  : result dict :=
  flds ← prep_at hdrlines _i;
  eqn ← getitem flds 2;
  calib ← calibration eqn;
  Ok (set_key "calib" (VFloat calib) hdrdict).

Definition hdr_accmax := hdr_float "accmax" 3.

Definition hdr_last_correction (hdrlines : list str) (_i : nat)
    (hdrdict : dict) : result dict :=
  flds ← prep_at hdrlines _i;
  dt ← read_time flds;
  let dt := utc_sub dt jst_offset in
  set_knet "last correction" (VTime dt) hdrdict.

(* The comment ('Memo') field is optional *)
Definition hdr_comment (hdrlines : list str) (_i : nat) (hdrdict : dict)
  : result dict :=
  flds ← prep_at hdrlines _i;
  if (1 <? length flds)%nat
  then set_knet "comment" (VStr (str_join (u " ") (drop 1 flds))) hdrdict
  else Ok hdrdict.

Definition count_msg (expected got : nat) : str :=
  u "Expected " ++ format_d expected ++ u " header lines but got "
    ++ format_d got.

Definition _read_knet_hdr (hdrlines : list str) (convert_stnm : bool)
  : result dict :=
  let hdrdict : dict := {["knet"%string := Nested ∅]} in
  let _i := 0%nat in
  hdrdict ← hdr_evot hdrlines _i hdrdict;
  let _i := S _i in
  hdrdict ← hdr_evla hdrlines _i hdrdict;
  let _i := S _i in
  hdrdict ← hdr_evlo hdrlines _i hdrdict;
  let _i := S _i in
  hdrdict ← hdr_evdp hdrlines _i hdrdict;
  let _i := S _i in
  hdrdict ← hdr_mag hdrlines _i hdrdict;
  let _i := S _i in
  hdrdict ← hdr_station convert_stnm hdrlines _i hdrdict;
  let _i := S _i in
  hdrdict ← hdr_stla hdrlines _i hdrdict;
  let _i := S _i in
  hdrdict ← hdr_stlo hdrlines _i hdrdict;
  let _i := S _i in
  hdrdict ← hdr_stel hdrlines _i hdrdict;
  let _i := S _i in
  hdrdict ← hdr_starttime hdrlines _i hdrdict;
  let _i := S _i in
  hdrdict ← hdr_sampling_rate hdrlines _i hdrdict;
  let _i := S _i in
  hdrdict ← hdr_duration hdrlines _i hdrdict;
  let _i := S _i in
  hdrdict ← hdr_channel hdrlines _i hdrdict;
  let _i := S _i in
  hdrdict ← hdr_calib hdrlines _i hdrdict;
  let _i := S _i in
  hdrdict ← hdr_accmax hdrlines _i hdrdict;
  let _i := S _i in
  hdrdict ← hdr_last_correction hdrlines _i hdrdict;
  let _i := S _i in
  hdrdict ← hdr_comment hdrlines _i hdrdict;
  if negb (length hdrlines =? _i + 1)%nat
  then Raise (KNETException (count_msg (_i + 1) (length hdrlines)))
  else Ok hdrdict.

(** The same blocks as a table, in the order [_read_knet_hdr] runs them. *)
Definition blocks (convert_stnm : bool)
  : list (list str -> nat -> dict -> result dict) :=
  [hdr_evot; hdr_evla; hdr_evlo; hdr_evdp; hdr_mag;
   hdr_station convert_stnm; hdr_stla; hdr_stlo; hdr_stel;
   hdr_starttime; hdr_sampling_rate; hdr_duration; hdr_channel;
   hdr_calib; hdr_accmax; hdr_last_correction; hdr_comment].

(** The slots each block writes, in the same order. *)
Definition writes : list (list slot) :=
  [[Knet "evot"]; [Knet "evla"]; [Knet "evlo"]; [Knet "evdp"]; [Knet "mag"];
   [Top "station"; Top "location"]; [Knet "stla"]; [Knet "stlo"];
   [Knet "stel"]; [Top "starttime"]; [Top "sampling_rate"];
   [Knet "duration"]; [Top "channel"]; [Top "calib"]; [Knet "accmax"];
   [Knet "last correction"]; [Knet "comment"]]%string.

(** The dictionary [_read_knet_hdr] starts from. *)
Definition hdr_init : dict := {["knet"%string := Nested ∅]}.

(** Running the blocks [bs] on lines [_i], [_i + 1], ... *)
Fixpoint run_blocks (bs : list (list str -> nat -> dict -> result dict))
    (hdrlines : list str) (_i : nat) (hdrdict : dict) : result dict :=
  match bs with
  | [] => Ok hdrdict
  | blk :: bs' =>
      hdrdict ← blk hdrlines _i hdrdict;
      run_blocks bs' hdrlines (S _i) hdrdict
  end.

(** The dictionary after the first [n] header lines have been read. *)
Definition hdr_prefix (n : nat) (hdrlines : list str) (convert_stnm : bool)
  : result dict :=
  run_blocks (take n (blocks convert_stnm)) hdrlines 0 hdr_init.

(** ** The decoder *)

Definition newline : byte := "010"%byte.

(** [buf.readline()]: the bytes up to and including the next newline, and
    what is left of the stream. *)
Fixpoint readline (s : bytes) : bytes * bytes :=
  match s with
  | [] => ([], [])
  | c :: s' =>
      if Byte.eqb c newline then ([c], s')
      else let '(l, r) := readline s' in (c :: l, r)
  end.

(** The successive results of [readline] until the stream is exhausted
    ([buf.tell() < size] fails).  [cur] is the line being read, most recent
    byte first. *)
Fixpoint readlines_go (s cur : bytes) : list bytes :=
  match s with
  | [] => if is_nil cur then [] else [reverse cur]
  | c :: s' =>
      if Byte.eqb c newline then reverse (c :: cur) :: readlines_go s' []
      else readlines_go s' (c :: cur)
  end.

Definition readlines (s : bytes) : list bytes := readlines_go s [].

(** Modelled from the spec: [Stats], [Trace] and [Stream] live in
    [obspy.core].  The record returned to the caller pairs the header
    dictionary with the samples; a stream is a list of traces. *)
Record Trace : Type := { data : list float; stats : dict }.

(** The first loop: header lines are collected until one starts with
    ['Memo'], which triggers [_read_knet_hdr]; the result is [hdrdict] and
    the lines not yet read.  Without such a line [hdrdict] stays [{}]. *)
Fixpoint read_header (convert_stnm : bool) (lines : list bytes)
    (headerlines : list str) : result (dict * list bytes) :=
  match lines with
  | [] => Ok (∅, [])
  | raw :: rest =>
      line ← bytes_decode raw;
      let headerlines := headerlines ++ [line] in
      if startswith (u "Memo") line then
        hdrdict ← _read_knet_hdr headerlines convert_stnm;
        Ok (hdrdict, rest)
      else read_header convert_stnm rest headerlines
  end.

(** [[float(p) for p in parts]]. *)
Definition floats_of (parts : list bytes) : result (list float) :=
  mapM (fun p => or_raise ValueError (float_of_bytes p)) parts.

(** The second loop: every remaining line contributes its tokens. *)
Fixpoint read_data (lines : list bytes) (data : list float)
  : result (list float) :=
  match lines with
  | [] => Ok data
  | line :: rest =>
      let parts := bytes_split (bytes_strip line) in
      vals ← floats_of parts;
      read_data rest (data ++ vals)
  end.

Definition _internal_read_knet_ascii (buf : bytes) (convert_stnm : bool)
  : result (list Trace) :=
  let data := [] in
  '(hdrdict, rest) ← read_header convert_stnm (readlines buf) [];
  data ← read_data rest data;
  let hdrdict := set_key "npts" (VInt (Z.of_nat (length data))) hdrdict in
  let hdrdict := set_key "network" (VStr (u "BO")) hdrdict in
  Ok [ {| data := data; stats := hdrdict |} ].

Definition _read_knet_ascii (filename_or_buf : bytes) (convert_stnm : bool)
  : result (list Trace) :=
  _internal_read_knet_ascii filename_or_buf convert_stnm.

End Reader.

Abbreviation dict := (gmap string value).

(** ** Vocabulary of the statements *)

Section Vocabulary.
Context `{PyFloat}.

(** [upd d d' w v]: [d'] is [d] with slot [w] set to [v]. *)
Definition upd (d d' : dict) (w : slot) (v : atom) : Prop :=
  forall s, read_slot d' s = if decide (s = w) then Some v else read_slot d s.

(** [frames blk ws]: a successful [blk] leaves every slot outside [ws]
    as it was. *)
Definition frames (blk : list str -> nat -> dict -> result dict)
    (ws : list slot) : Prop :=
  forall hl i d d', blk hl i d = Ok d' ->
    forall s, s ∉ ws -> read_slot d' s = read_slot d s.

(** Every block begins by checking and splitting its line. *)
Definition preps (blk : list str -> nat -> dict -> result dict) : Prop :=
  forall hl i d,
    (forall e, prep_at hl i = Raise e -> blk hl i d = Raise e)
    /\ (forall d', blk hl i d = Ok d' -> exists flds, prep_at hl i = Ok flds).

(** [not_station e]: [e] is not the station-name exception. *)
Definition not_station (e : exn) : Prop := e <> KNETException station_msg.

(** The channel table as the format describes it: codes 1 to 6 name the
    components of the two KiK-net sensors, any other code stands for
    itself. *)
Definition remap_by_table (code : str) : str :=
  if bool_decide (code = u "1") then u "NS1"
  else if bool_decide (code = u "2") then u "EW1"
  else if bool_decide (code = u "3") then u "UD1"
  else if bool_decide (code = u "4") then u "NS2"
  else if bool_decide (code = u "5") then u "EW2"
  else if bool_decide (code = u "6") then u "UD2"
  else code.

(** A line as [readline] returns it before the end of the stream: bytes
    without a newline, then a newline. *)
Definition complete_line (l : bytes) : Prop :=
  exists body, l = body ++ [newline] /\ newline ∉ body.

(** A line the first loop passes over: it decodes and does not start with
    ['Memo']. *)
Definition passed_over (raw : bytes) (line : str) : Prop :=
  utf8_decode raw = Some line /\ startswith (u "Memo") line = false.

Definition is_complete_line (l : bytes) : bool :=
  match reverse l with
  | c :: body => Byte.eqb c newline
                 && forallb (fun x => negb (Byte.eqb x newline)) body
  | [] => false
  end.

Definition is_passed_over (raw : bytes) : bool :=
  match utf8_decode raw with
  | Some line => negb (startswith (u "Memo") line)
  | None => false
  end.

(** [has_knet d]: [d['knet']] is a dictionary. *)
Definition has_knet (d : dict) : Prop :=
  exists knet, d !! "knet"%string = Some (Nested knet).

(** [shape d T K]: the keys of [d] are ['knet'] and those of [T], and
    [d['knet']] is a dictionary whose keys are those of [K]. *)
Definition shape (d : dict) (T K : gset string) : Prop :=
  dom d = {["knet"%string]} ∪ T
  /\ exists knet, d !! "knet"%string = Some (Nested knet) /\ dom knet = K.

(** The nine lines that hold one float: the key under ['knet'], the index
    of the line and the position of the token ([hdrdict['knet'][key] =
    float(flds[pos])] in block [_i]). *)
Definition float_fields : list (string * nat * nat) :=
  [("evla"%string, 1%nat, 1%nat); ("evlo"%string, 2%nat, 1%nat);
   ("evdp"%string, 3%nat, 2%nat); ("mag"%string, 4%nat, 1%nat);
   ("stla"%string, 6%nat, 2%nat); ("stlo"%string, 7%nat, 2%nat);
   ("stel"%string, 8%nat, 2%nat); ("duration"%string, 11%nat, 2%nat);
   ("accmax"%string, 14%nat, 3%nat)].

(** For each header line, the number of tokens its block indexes: the
    highest [flds[k]] it reads, plus one.  The ['Memo.'] block indexes
    none. *)
Definition tokens_read : list nat :=
  [4; 2; 2; 3; 2; 3; 3; 3; 3; 4; 3; 3; 2; 3; 4; 4; 0]%nat.

(** [padded l l']: [l'] is [l] followed by whitespace. *)
Definition padded (l l' : str) : Prop :=
  exists ws, l' = l ++ ws /\ Forall (fun c => isspace c = true) ws.

(** The exceptions of the seventeen blocks on the lines [hl]: an index
    or a value out of range, a division by zero, a station name that is
    too long, or a line that does not start with its label. *)
Definition block_exn (hl : list str) (e : exn) : Prop :=
  e = IndexError \/ e = ValueError \/ e = ZeroDivisionError
  \/ e = KNETException station_msg
  \/ exists i name line,
       hdrnames !! i = Some name /\ hl !! i = Some line
       /\ startswith name line = false
       /\ e = KNETException (u "Expected line to start with " ++ name
                             ++ u " but got " ++ line ++ u " ").

(** The exceptions of [_read_knet_hdr]: those of its blocks, and the
    [KNETException] of the final count of lines. *)
Definition header_exn (hl : list str) (e : exn) : Prop :=
  block_exn hl e \/ e = KNETException (count_msg 17 (length hl)).

(** [same_but_station d e]: [d] and [e] agree on every key but
    ['station'] and ['location']. *)
Definition same_but_station (d e : dict) : Prop :=
  forall k : string,
    k <> "station"%string -> k <> "location"%string -> d !! k = e !! k.

(** The tokens of the lines [lines], as the second loop reads them. *)
Definition sample_tokens (lines : list bytes) : list bytes :=
  concat ((fun l => bytes_split (bytes_strip l)) <$> lines).

End Vocabulary.

(** ** A binary64 instance

    Python's [float] is IEEE 754 binary64.  The instance below parses the
    ASCII grammar of [float()] (sign, digits with single underscores
    between them, fraction, exponent, [inf], [infinity], [nan]) and rounds
    to nearest-even with [SpecFloat].  Decimal digits outside ASCII, which
    [float(str)] also accepts, are not recognised by it. *)

Module Binary64.

Definition prec : Z := 53.
Definition emax : Z := 1024.

Definition is_py_space (c : N) : bool :=
  ((9 <=? c) && (c <=? 13) || (c =? 32))%N.

Definition lower (c : N) : N :=
  if ((65 <=? c) && (c <=? 90))%N then (c + 32)%N else c.

(** Underscores are only allowed between two digits. *)
Fixpoint underscores_ok (prev : N) (s : str) : bool :=
  match s with
  | [] => negb (prev =? 95)%N
  | c :: s' =>
      (if (c =? 95)%N then is_digit prev
       else negb (prev =? 95)%N || is_digit c)
      && underscores_ok c s'
  end.

Definition parse_sign (s : str) : bool * str :=
  match s with
  | 45%N :: r => (true, r)
  | 43%N :: r => (false, r)
  | _ => (false, s)
  end.

(** What follows the mantissa: nothing, or [e], a sign and digits. *)
Definition parse_exponent (s : str) : option Z :=
  match s with
  | [] => Some 0
  | c :: r =>
      if (lower c =? 101)%N then
        let '(neg, ds) := parse_sign r in
        if is_nil ds then None
        else if forallb is_digit ds
             then Some (if neg then - digits_value ds else digits_value ds)
             else None
      else None
  end.

(** [m * 10 ^ e10], rounded to nearest, ties to even. *)
Definition of_decimal (neg : bool) (m e10 : Z) : spec_float :=
  match m with
  | Zpos p =>
      if 0 <=? e10
      then binary_round prec emax neg (p * Z.to_pos (10 ^ e10)) 0
      else SFdiv prec emax (S754_finite neg p 0)
             (S754_finite false (Z.to_pos (10 ^ (- e10))) 0)
  | _ => S754_zero neg
  end.

Definition parse_number (neg : bool) (s : str) : option spec_float :=
  let int_part := take_while is_digit s in
  let rest := drop_while is_digit s in
  let '(frac_part, rest) :=
    match rest with
    | 46%N :: r => (take_while is_digit r, drop_while is_digit r)
    | _ => ([], rest)
    end in
  if is_nil (int_part ++ frac_part) then None
  else
    e ← parse_exponent rest;
    Some (of_decimal neg (digits_value (int_part ++ frac_part))
            (e - Z.of_nat (length frac_part))).

Definition parse_ascii (s : str) : option spec_float :=
  if negb (underscores_ok 0 s) then None
  else
    let s := filter (fun c => c <> 95%N) s in
    let s := strip_ws is_py_space s in
    let '(neg, body) := parse_sign s in
    let word := lower <$> body in
    if bool_decide (word = u "inf") || bool_decide (word = u "infinity")
    then Some (S754_infinity neg)
    else if bool_decide (word = u "nan") then Some S754_nan
    else parse_number neg body.

(** [float(str)]: whitespace outside ASCII counts as a space. *)
Definition of_str (s : str) : option spec_float :=
  s ← mapM (fun c => if (c <? 128)%N then Some c
                     else if isspace c then Some 32%N else None) s;
  parse_ascii s.

Definition of_bytes (s : bytes) : option spec_float :=
  parse_ascii (Byte.to_N <$> s).

Definition is_zero (x : spec_float) : bool :=
  match x with
  | S754_zero _ => true
  | _ => false
  end.

Definition div (x y : spec_float) : option spec_float :=
  if is_zero y then None else Some (SFdiv prec emax x y).

(** The literal [0.01]. *)
Definition lit_0_01 : spec_float :=
  S754_finite false 5764607523034235 (-59).

#[export] Instance binary64 : PyFloat := {
  float := spec_float;
  float_of_str := of_str;
  float_of_bytes := of_bytes;
  float_mul := SFmul prec emax;
  float_div := div;
  float_0_01 := lit_0_01
}.

End Binary64.

(** ** Three codecs for the sniffer *)

Module Codec.

Inductive name : Type := UTF_8 | ASCII | LATIN_1.

Definition decode (c : name) (s : bytes) : option str :=
  match c with
  | UTF_8 => utf8_decode s
  | ASCII =>
      if forallb (fun x => (Byte.to_N x <? 128)%N) s
      then Some (Byte.to_N <$> s) else None
  | LATIN_1 => Some (Byte.to_N <$> s)
  end.

(** A text layer that decodes the whole content before it hands out the
    first characters. *)
#[export] Instance whole_content : TextLayer := {
  encoding := name;
  getpreferredencoding := UTF_8;
  text_read := fun c s n => take n <$> decode c s
}.

End Codec.

(** ** A sample file *)

Module Sample.
Import Binary64.

Definition header : list string :=
  ["Origin Time       2011/03/11 14:46:00";
   "Lat.              38.103";
   "Long.             142.860";
   "Depth. (km)       24";
   "Mag.              9.0";
   "Station Code      AKT012";
   "Station Lat.      39.6956";
   "Station Long.     140.4209";
   "Station Height(m) 5";
   "Record Time       2011/03/11 14:46:45";
   "Sampling Freq(Hz) 100Hz";
   "Duration Time(s)  300";
   "Dir.              N-S";
   "Scale Factor      2000(gal)/8388608";
   "Max. Acc. (gal)   64.045";
   "Last Correction   2011/03/11 14:46:30";
   "Memo.             "]%string.

(** The lines of a file, each closed by a newline. *)
Definition file_lines (ls : list string) : list bytes :=
  (fun l => b l ++ [newline]) <$> ls.

Definition samples : bytes :=
  concat (file_lines ["     4846     4856     4858     4857";
                      "     4860     4862"]%string).

Definition file : bytes := concat (file_lines header) ++ samples.

(** The header lines as [_read_knet_hdr] receives them. *)
Definition hdrlines : list str :=
  (fun l => u l ++ [10%N]) <$> header.

(** The header with the [Lat.] and [Long.] lines swapped. *)
Definition swapped : list str :=
  match hdrlines with
  | l0 :: l1 :: l2 :: rest => l0 :: l2 :: l1 :: rest
  | _ => hdrlines
  end.

(** The header with another station code. *)
Definition with_station (code : string) : list str :=
  <[5%nat := u "Station Code      " ++ u code ++ [10%N]]> hdrlines.

(** The header with another sampling-frequency token. *)
Definition with_freq (tok : string) : list str :=
  <[10%nat := u "Sampling Freq(Hz) " ++ u tok ++ [10%N]]> hdrlines.

(** The header with another scale factor. *)
Definition with_scale (tok : string) : list str :=
  <[13%nat := u "Scale Factor      " ++ u tok ++ [10%N]]> hdrlines.

(** The header with another direction. *)
Definition with_dir (tok : string) : list str :=
  <[12%nat := u "Dir.              " ++ u tok ++ [10%N]]> hdrlines.

(** The swapped header, its origin line lacking the time of day. *)
Definition swapped_short_origin : list str :=
  <[0%nat := u "Origin Time       2011/03/11" ++ [10%N]]> swapped.

(** A file cut off before its [Memo.] line. *)
Definition truncated : bytes := concat (file_lines (take 16 header)).

(** The header with another ['Memo.'] line. *)
Definition with_memo (text : string) : list str :=
  <[16%nat := u "Memo." ++ u text ++ [10%N]]> hdrlines.

(** The header with a [Lat.] line that holds no value. *)
Definition without_latitude : list str :=
  <[1%nat := u "Lat." ++ [10%N]]> hdrlines.

(** The header lines without their newline, and the same lines closed by
    a carriage return and a newline. *)
Definition bare : list str := u <$> header.
Definition crlf : list str := (fun l => u l ++ [13%N; 10%N]) <$> header.

(** The lines of the file before its ['Memo.'] line, that line, and both
    decoded. *)
Definition before_memo : list bytes := take 16 (file_lines header).
Definition memo_line : bytes := b "Memo.             " ++ [newline].
Definition before_memo_decoded : list str := take 16 hdrlines.
Definition memo_line_decoded : str := u "Memo.             " ++ [10%N].

(** The file with a sample that is not a number. *)
Definition bad_samples : bytes :=
  concat (file_lines ["     4846     abc"%string]).
Definition file_bad_samples : bytes :=
  concat (file_lines header) ++ bad_samples.

(** A file whose fourth line starts with ['Memo']. *)
Definition early_memo : bytes :=
  concat (file_lines (take 3 header ++ ["Memo."%string])).

(** A first line with a byte that is not UTF-8. *)
Definition undecodable : bytes := b "Origin Time" ++ [xff; newline].

(** The dictionary of a computation known to succeed. *)
Definition the (r : result dict) : dict :=
  match r with
  | Ok d => d
  | Raise _ => ∅
  end.

(** The parsed header and the parsed samples of [file]. *)
Definition parsed : dict := the (_read_knet_hdr hdrlines false).

Definition values : list float :=
  match floats_of (bytes_split samples) with
  | Ok vals => vals
  | Raise _ => []
  end.

End Sample.

(** * Properties *)

(** ** The error monad *)

Lemma bind_Ok {A B} (m : result A) (f : A -> result B) (y : B) :
  m ≫= f = Ok y <-> exists x, m = Ok x /\ f x = Ok y.
Proof.
  destruct m as [x|e]; simpl; split.
  - intros Hf. exists x. split; [reflexivity | exact Hf].
  - intros (x' & Hx & Hf). injection Hx as ->. exact Hf.
  - discriminate.
  - intros (x' & Hx & _). discriminate.
Qed.

Lemma bind_Raise {A B} (m : result A) (f : A -> result B) (e : exn) :
  m = Raise e -> m ≫= f = Raise e.
Proof. intros ->. reflexivity. Qed.

Lemma bind_step {A B} (m : result A) (f : A -> result B) (x : A) :
  m = Ok x -> m ≫= f = f x.
Proof. intros ->. reflexivity. Qed.

Lemma or_raise_Ok {A} (e : exn) (o : option A) (x : A) :
  or_raise e o = Ok x <-> o = Some x.
Proof. destruct o; simpl; split; congruence. Qed.

Lemma getitem_Ok {A} (l : list A) (i : nat) (x : A) :
  getitem l i = Ok x <-> l !! i = Some x.
Proof. apply or_raise_Ok. Qed.

(** Inverts the successful binds of a hypothesis, one layer at a time. *)
Ltac inv_bind H :=
  let x := fresh "x" in
  let Hx := fresh "Hx" in
  apply bind_Ok in H; destruct H as (x & Hx & H).

(** ** The sniffer *)

Section SnifferProofs.
Context `{TextLayer}.

Lemma sniff_first_chars (buf : stream) (enc : option encoding) :
  _internal_is_knet_ascii buf enc =
  match first_chars buf (chosen enc) 11 with
  | None => Ok false
  | Some s => Ok (bool_decide (s = u "Origin Time"))
  end.
Proof.
  unfold _internal_is_knet_ascii, first_chars.
  destruct buf as [content | e content]; simpl;
    (destruct (text_read _ content 11) as [s|]; simpl; [| reflexivity]);
    destruct (length s =? 11)%nat eqn:Hlen; simpl;
    try (destruct (bool_decide (s = u "Origin Time")); reflexivity);
    rewrite bool_decide_eq_false_2; try reflexivity;
    intros Heq; rewrite Heq in Hlen; discriminate.
Qed.

(** C3. The sniffer answers [True] exactly when the first 11 decoded
    characters of the stream are ['Origin Time'].  A binary stream is
    decoded under the encoding the caller gives, or under the preferred
    encoding of the locale when none is given; a text stream is read under
    its own encoding, whatever the caller gives.  The answer is [False]
    when the characters do not decode, when fewer than 11 are available
    and when they differ; no exception escapes. *)
Theorem sniffer_matches_origin_time (buf : stream) (enc : option encoding) :
  let e := match buf, enc with
           | TextIO own _, _ => own
           | BytesIO _, Some given => given
           | BytesIO _, None => getpreferredencoding
           end in
  let content := match buf with
                 | BytesIO content => content
                 | TextIO _ content => content
                 end in
  (_internal_is_knet_ascii buf enc = Ok true <->
     text_read e content 11 = Some (u "Origin Time"))
  /\ (text_read e content 11 = None ->
      _internal_is_knet_ascii buf enc = Ok false)
  /\ (forall s, text_read e content 11 = Some s ->
        (length s < 11)%nat -> _internal_is_knet_ascii buf enc = Ok false)
  /\ (forall s, text_read e content 11 = Some s ->
        s <> u "Origin Time" ->
        _internal_is_knet_ascii buf enc = Ok false)
  /\ (exists answer, _internal_is_knet_ascii buf enc = Ok answer).
Proof.
  intros e content.
  assert (Hfirst : first_chars buf (chosen enc) 11 = text_read e content 11).
  { subst e content. destruct buf, enc; reflexivity. }
  rewrite sniff_first_chars, Hfirst.
  destruct (text_read e content 11) as [s|] eqn:Hdec.
  - split; [split | split; [| split; [| split]]].
    + intros Hok. injection Hok as Hok. apply bool_decide_eq_true in Hok.
      congruence.
    + intros Hs. injection Hs as ->.
      rewrite bool_decide_eq_true_2; reflexivity.
    + discriminate.
    + intros s' Hs' Hlen. injection Hs' as <-.
      rewrite bool_decide_eq_false_2; [reflexivity |].
      intros ->. change (length (u "Origin Time")) with 11%nat in Hlen. lia.
    + intros s' Hs' Hne. injection Hs' as <-.
      rewrite bool_decide_eq_false_2; [reflexivity | exact Hne].
    + eexists. reflexivity.
  - split; [split | split; [| split; [| split]]].
    + discriminate.
    + discriminate.
    + reflexivity.
    + intros s' Hs'. discriminate.
    + intros s' Hs'. discriminate.
    + eexists. reflexivity.
Qed.

End SnifferProofs.

(** ** The header dictionary *)

Section ReaderProofs.
Context `{PyFloat}.

Lemma read_slot_set_key (k : string) (v : atom) (d : dict) (s : slot) :
  k <> "knet"%string ->
  read_slot (set_key k v d) s
  = if decide (s = Top k) then Some v else read_slot d s.
Proof.
  intros Hk. destruct s as [k'|k']; unfold set_key; simpl.
  - unfold get_key. destruct (decide (Top k' = Top k)) as [[= ->]|Hne].
    + rewrite lookup_insert_eq. reflexivity.
    + rewrite lookup_insert_ne; [reflexivity | congruence].
  - unfold get_knet. rewrite lookup_insert_ne by exact Hk.
    destruct (decide (Knet k' = Top k)); [discriminate | reflexivity].
Qed.

Lemma read_slot_set_knet (k : string) (v : atom) (d d' : dict) (s : slot) :
  set_knet k v d = Ok d' ->
  read_slot d' s = if decide (s = Knet k) then Some v else read_slot d s.
Proof.
  unfold set_knet.
  destruct (d !! "knet"%string) as [[a|knet]|] eqn:Hknet; try discriminate.
  intros [= <-]. destruct s as [k'|k']; simpl.
  - destruct (decide (Top k' = Knet k)); [discriminate |].
    unfold get_key. destruct (decide (k' = "knet"%string)) as [->|Hne].
    + rewrite lookup_insert_eq, Hknet. reflexivity.
    + rewrite lookup_insert_ne by congruence. reflexivity.
  - unfold get_knet. rewrite lookup_insert_eq, Hknet.
    destruct (decide (Knet k' = Knet k)) as [[= ->]|Hne].
    + rewrite lookup_insert_eq. reflexivity.
    + rewrite lookup_insert_ne; [reflexivity | congruence].
Qed.

Lemma upd_set_key (k : string) (v : atom) (d : dict) :
  k <> "knet"%string -> upd d (set_key k v d) (Top k) v.
Proof. intros Hk s. apply read_slot_set_key, Hk. Qed.

Lemma upd_set_knet (k : string) (v : atom) (d d' : dict) :
  set_knet k v d = Ok d' -> upd d d' (Knet k) v.
Proof. intros Hset s. apply read_slot_set_knet, Hset. Qed.

Lemma upd_frame (d d' : dict) (w : slot) (v : atom) (s : slot) :
  upd d d' w v -> s <> w -> read_slot d' s = read_slot d s.
Proof. intros Hupd Hne. rewrite Hupd. apply decide_False, Hne. Qed.

Lemma upd_read (d d' : dict) (w : slot) (v : atom) :
  upd d d' w v -> read_slot d' w = Some v.
Proof. intros Hupd. rewrite Hupd. apply decide_True. reflexivity. Qed.

(** ** What each block does when it succeeds *)

Lemma prep_at_Ok (hl : list str) (i : nat) (flds : list str) :
  prep_at hl i = Ok flds <->
  exists name line,
    hdrnames !! i = Some name /\ hl !! i = Some line
    /\ startswith name line = true /\ flds = str_split line.
Proof.
  unfold prep_at, _prep_hdr_line. split.
  - intros Hp. inv_bind Hp. inv_bind Hp.
    apply getitem_Ok in Hx, Hx0.
    destruct (startswith x x0) eqn:Hsw; simpl in Hp; [| discriminate].
    injection Hp as <-. exists x, x0. auto.
  - intros (name & line & Hn & Hl & Hsw & ->).
    apply getitem_Ok in Hn, Hl. rewrite Hn, Hl. simpl.
    rewrite Hsw. reflexivity.
Qed.

Lemma read_time_Ok (flds : list str) (dt : UTCDateTime) :
  read_time flds = Ok dt <->
  exists date time,
    flds !! 2%nat = Some date /\ flds !! 3%nat = Some time
    /\ strptime (date ++ u " " ++ time) = Ok dt.
Proof.
  unfold read_time. split.
  - intros Hr. inv_bind Hr. inv_bind Hr. apply getitem_Ok in Hx, Hx0.
    exists x, x0. auto.
  - intros (date & time & Hd & Ht & Hs).
    apply getitem_Ok in Hd, Ht. rewrite Hd, Ht. exact Hs.
Qed.

Lemma hdr_evot_Ok (hl : list str) (i : nat) (d d' : dict) :
  hdr_evot hl i d = Ok d' ->
  exists flds dt,
    prep_at hl i = Ok flds /\ read_time flds = Ok dt
    /\ upd d d' (Knet "evot") (VTime (utc_sub dt jst_offset)).
Proof.
  unfold hdr_evot. intros Hb. inv_bind Hb. inv_bind Hb.
  exists x, x0. split; [assumption |]. split; [assumption |].
  apply upd_set_knet, Hb.
Qed.

Lemma hdr_last_correction_Ok (hl : list str) (i : nat) (d d' : dict) :
  hdr_last_correction hl i d = Ok d' ->
  exists flds dt,
    prep_at hl i = Ok flds /\ read_time flds = Ok dt
    /\ upd d d' (Knet "last correction") (VTime (utc_sub dt jst_offset)).
Proof.
  unfold hdr_last_correction. intros Hb. inv_bind Hb. inv_bind Hb.
  exists x, x0. split; [assumption |]. split; [assumption |].
  apply upd_set_knet, Hb.
Qed.

Lemma hdr_starttime_Ok (hl : list str) (i : nat) (d d' : dict) :
  hdr_starttime hl i d = Ok d' ->
  exists flds dt,
    prep_at hl i = Ok flds /\ read_time flds = Ok dt
    /\ upd d d' (Top "starttime")
         (VTime (utc_sub (utc_sub dt logger_delay) jst_offset)).
Proof.
  unfold hdr_starttime. intros Hb. inv_bind Hb. inv_bind Hb.
  injection Hb as <-.
  exists x, x0. split; [assumption |]. split; [assumption |].
  apply upd_set_key. discriminate.
Qed.

Lemma hdr_float_Ok (key : string) (pos : nat) (hl : list str) (i : nat)
    (d d' : dict) :
  hdr_float key pos hl i d = Ok d' ->
  exists flds tok x,
    prep_at hl i = Ok flds /\ flds !! pos = Some tok
    /\ float_of_str tok = Some x /\ upd d d' (Knet key) (VFloat x).
Proof.
  unfold hdr_float, pyfloat. intros Hb. inv_bind Hb. inv_bind Hb. inv_bind Hb.
  apply getitem_Ok in Hx0. apply or_raise_Ok in Hx1.
  exists x, x0, x1. repeat (split; [assumption |]).
  apply upd_set_knet, Hb.
Qed.

Lemma hdr_station_Ok (conv : bool) (hl : list str) (i : nat) (d d' : dict) :
  hdr_station conv hl i d = Ok d' ->
  exists flds tok,
    prep_at hl i = Ok flds /\ flds !! 2%nat = Some tok
    /\ (length (split_station conv tok).1 <= 7)%nat
    /\ read_slot d' (Top "station") = Some (VStr (split_station conv tok).1)
    /\ read_slot d' (Top "location") = Some (VStr (split_station conv tok).2)
    /\ forall s, s <> Top "station" -> s <> Top "location" ->
                 read_slot d' s = read_slot d s.
Proof.
  unfold hdr_station. intros Hb. inv_bind Hb. inv_bind Hb.
  apply getitem_Ok in Hx0.
  destruct (split_station conv x0) as [stnm location] eqn:Hsplit.
  destruct (7 <? length stnm)%nat eqn:Hlen; [discriminate |].
  cbv zeta in Hb. injection Hb as <-. apply Nat.ltb_ge in Hlen.
  exists x, x0. rewrite Hsplit. simpl fst. simpl snd.
  repeat (split; [assumption |]).
  split; [| split].
  - rewrite !read_slot_set_key by discriminate.
    rewrite decide_False by discriminate. apply decide_True. reflexivity.
  - rewrite read_slot_set_key by discriminate. apply decide_True. reflexivity.
  - intros s Hs Hl. rewrite !read_slot_set_key by discriminate.
    rewrite !decide_False by assumption. reflexivity.
Qed.

Lemma hdr_sampling_rate_Ok (hl : list str) (i : nat) (d d' : dict) :
  hdr_sampling_rate hl i d = Ok d' ->
  exists flds freqstr freq,
    prep_at hl i = Ok flds /\ flds !! 2%nat = Some freqstr
    /\ int_of_digits (leading_digits freqstr) = Ok freq
    /\ upd d d' (Top "sampling_rate") (VInt freq).
Proof.
  unfold hdr_sampling_rate. intros Hb. inv_bind Hb. inv_bind Hb. inv_bind Hb.
  apply getitem_Ok in Hx0. injection Hb as <-.
  exists x, x0, x1. repeat (split; [assumption |]).
  apply upd_set_key. discriminate.
Qed.

Lemma hdr_channel_Ok (hl : list str) (i : nat) (d d' : dict) :
  hdr_channel hl i d = Ok d' ->
  exists flds tok,
    prep_at hl i = Ok flds /\ flds !! 1%nat = Some tok
    /\ upd d d' (Top "channel") (VStr (channel_code tok)).
Proof.
  unfold hdr_channel. intros Hb. inv_bind Hb. inv_bind Hb.
  apply getitem_Ok in Hx0. injection Hb as <-.
  exists x, x0. repeat (split; [assumption |]).
  apply upd_set_key. discriminate.
Qed.

Lemma hdr_calib_Ok (hl : list str) (i : nat) (d d' : dict) :
  hdr_calib hl i d = Ok d' ->
  exists flds eqn calib,
    prep_at hl i = Ok flds /\ flds !! 2%nat = Some eqn
    /\ calibration eqn = Ok calib
    /\ upd d d' (Top "calib") (VFloat calib).
Proof.
  unfold hdr_calib. intros Hb. inv_bind Hb. inv_bind Hb. inv_bind Hb.
  apply getitem_Ok in Hx0. injection Hb as <-.
  exists x, x0, x1. repeat (split; [assumption |]).
  apply upd_set_key. discriminate.
Qed.

Lemma hdr_comment_Ok (hl : list str) (i : nat) (d d' : dict) :
  hdr_comment hl i d = Ok d' ->
  exists flds,
    prep_at hl i = Ok flds
    /\ forall s, s <> Knet "comment" -> read_slot d' s = read_slot d s.
Proof.
  unfold hdr_comment. intros Hb. inv_bind Hb. exists x.
  split; [assumption |]. intros s Hs.
  destruct (1 <? length x)%nat.
  - rewrite (read_slot_set_knet _ _ _ _ s Hb). apply decide_False, Hs.
  - injection Hb as <-. reflexivity.
Qed.

(** ** The blocks in sequence *)

Lemma read_knet_hdr_blocks (hl : list str) (conv : bool) :
  _read_knet_hdr hl conv =
  d ← run_blocks (blocks conv) hl 0 hdr_init;
  if negb (length hl =? 17)%nat
  then Raise (KNETException (count_msg 17 (length hl)))
  else Ok d.
Proof.
  unfold _read_knet_hdr, blocks, hdr_init. cbn [run_blocks]. cbv zeta.
  repeat match goal with
         | |- (?m ≫= _) = _ => destruct m; simpl; [| reflexivity]
         end.
  reflexivity.
Qed.

Lemma run_blocks_app (bs1 bs2 : list (list str -> nat -> dict -> result dict))
    (hl : list str) (i : nat) (d : dict) :
  run_blocks (bs1 ++ bs2) hl i d
  = run_blocks bs1 hl i d ≫= run_blocks bs2 hl (i + length bs1).
Proof.
  revert i d. induction bs1 as [|blk bs1 IH]; intros i d; simpl.
  - rewrite Nat.add_0_r. reflexivity.
  - destruct (blk hl i d) as [d'|e]; simpl; [| reflexivity].
    rewrite IH, Nat.add_succ_r. reflexivity.
Qed.

Lemma hdr_prefix_S (n : nat) (hl : list str) (conv : bool)
    (blk : list str -> nat -> dict -> result dict) :
  blocks conv !! n = Some blk ->
  hdr_prefix (S n) hl conv = hdr_prefix n hl conv ≫= blk hl n.
Proof.
  intros Hblk. unfold hdr_prefix.
  rewrite (take_S_r _ _ _ Hblk), run_blocks_app.
  assert (Hn : (n < length (blocks conv))%nat)
    by (apply lookup_lt_is_Some; eauto).
  rewrite length_take, Nat.min_l by lia. simpl.
  destruct (run_blocks (take n (blocks conv)) hl 0 hdr_init) as [d|e];
    simpl; [| reflexivity].
  destruct (blk hl n d); reflexivity.
Qed.

Lemma hdr_prefix_all (hl : list str) (conv : bool) :
  hdr_prefix 17 hl conv = run_blocks (blocks conv) hl 0 hdr_init.
Proof. reflexivity. Qed.

(** A block that fails after a successful prefix fails the whole parse
    with the same exception. *)
Lemma hdr_raise_at (conv : bool) (hl : list str) (n : nat)
    (blk : list str -> nat -> dict -> result dict) (d : dict) (e : exn) :
  hdr_prefix n hl conv = Ok d -> blocks conv !! n = Some blk ->
  blk hl n d = Raise e -> _read_knet_hdr hl conv = Raise e.
Proof.
  intros Hpre Hblk Hraise. rewrite read_knet_hdr_blocks.
  rewrite <- (take_drop_middle _ _ _ Hblk), run_blocks_app.
  unfold hdr_prefix in Hpre. rewrite Hpre. simpl.
  assert (Hn : (n < length (blocks conv))%nat)
    by (apply lookup_lt_is_Some; eauto).
  rewrite length_take, Nat.min_l by lia. rewrite Hraise. reflexivity.
Qed.

Lemma frames_upd (blk : list str -> nat -> dict -> result dict)
    (w : slot) :
  (forall hl i d d', blk hl i d = Ok d' -> exists v, upd d d' w v) ->
  frames blk [w].
Proof.
  intros Hupd hl i d d' Hblk s Hs.
  destruct (Hupd hl i d d' Hblk) as (v & Hv).
  apply (upd_frame _ _ _ _ _ Hv). intros ->. apply Hs. left.
Qed.

Lemma frames_float (key : string) (pos : nat) :
  frames (hdr_float key pos) [Knet key].
Proof.
  apply frames_upd. intros hl i d d' Hblk.
  destruct (hdr_float_Ok _ _ _ _ _ _ Hblk) as (_ & _ & x & _ & _ & _ & Hu).
  eauto.
Qed.

Lemma blocks_frame (conv : bool) : Forall2 frames (blocks conv) writes.
Proof.
  unfold blocks, writes.
  repeat first [apply Forall2_nil_2 | apply Forall2_cons_2];
    try apply frames_float.
  - apply frames_upd. intros hl i d d' Hblk.
    destruct (hdr_evot_Ok _ _ _ _ Hblk) as (_ & dt & _ & _ & Hu). eauto.
  - intros hl i d d' Hblk s Hs.
    destruct (hdr_station_Ok _ _ _ _ _ Hblk)
      as (_ & _ & _ & _ & _ & _ & _ & Hframe).
    apply Hframe; intros ->; apply Hs; set_solver.
  - apply frames_upd. intros hl i d d' Hblk.
    destruct (hdr_starttime_Ok _ _ _ _ Hblk) as (_ & dt & _ & _ & Hu). eauto.
  - apply frames_upd. intros hl i d d' Hblk.
    destruct (hdr_sampling_rate_Ok _ _ _ _ Hblk)
      as (_ & _ & freq & _ & _ & _ & Hu). eauto.
  - apply frames_upd. intros hl i d d' Hblk.
    destruct (hdr_channel_Ok _ _ _ _ Hblk) as (_ & tok & _ & _ & Hu). eauto.
  - apply frames_upd. intros hl i d d' Hblk.
    destruct (hdr_calib_Ok _ _ _ _ Hblk) as (_ & _ & c & _ & _ & _ & Hu).
    eauto.
  - apply frames_upd. intros hl i d d' Hblk.
    destruct (hdr_last_correction_Ok _ _ _ _ Hblk)
      as (_ & dt & _ & _ & Hu). eauto.
  - intros hl i d d' Hblk s Hs.
    destruct (hdr_comment_Ok _ _ _ _ Hblk) as (_ & _ & Hframe).
    apply Hframe. intros ->. apply Hs. left.
Qed.

Lemma run_blocks_frame
    (bs : list (list str -> nat -> dict -> result dict))
    (wss : list (list slot)) (hl : list str) :
  Forall2 frames bs wss ->
  forall i d d', run_blocks bs hl i d = Ok d' ->
    forall s, s ∉ concat wss -> read_slot d' s = read_slot d s.
Proof.
  induction 1 as [|blk ws bs wss Hblk _ IH]; intros i d d' Hrun s Hs.
  - injection Hrun as <-. reflexivity.
  - simpl in Hrun. inv_bind Hrun. simpl in Hs.
    rewrite elem_of_app in Hs.
    rewrite (IH _ _ _ Hrun s) by tauto.
    apply (Hblk _ _ _ _ Hx). tauto.
Qed.

(** A successful parse, seen from block [n]: the prefix succeeded, block
    [n] succeeded on its result, and the later blocks only touched their
    own slots. *)
Lemma hdr_Ok_at (conv : bool) (hl : list str) (h : dict) (n : nat)
    (blk : list str -> nat -> dict -> result dict) :
  _read_knet_hdr hl conv = Ok h -> blocks conv !! n = Some blk ->
  length hl = 17%nat
  /\ exists d d',
       hdr_prefix n hl conv = Ok d /\ blk hl n d = Ok d'
       /\ forall s, s ∉ concat (drop (S n) writes) ->
                    read_slot h s = read_slot d' s.
Proof.
  rewrite read_knet_hdr_blocks. intros Hok Hblk. inv_bind Hok.
  destruct (length hl =? 17)%nat eqn:Hlen; simpl in Hok; [| discriminate].
  injection Hok as ->. apply Nat.eqb_eq in Hlen. split; [exact Hlen |].
  rewrite <- (take_drop_middle _ _ _ Hblk), run_blocks_app in Hx.
  inv_bind Hx. simpl in Hx. inv_bind Hx.
  assert (Hn : (n < length (blocks conv))%nat)
    by (apply lookup_lt_is_Some; eauto).
  rewrite length_take, Nat.min_l in Hx1, Hx by lia.
  exists x, x0. split; [exact Hx0 |]. split; [exact Hx1 |].
  intros s Hs.
  apply (run_blocks_frame (drop (S n) (blocks conv)) (drop (S n) writes) hl
           (Forall2_drop _ _ _ _ (blocks_frame conv)) _ _ _ Hx s Hs).
Qed.

Lemma blocks_prep (conv : bool) : Forall preps (blocks conv).
Proof.
  unfold blocks.
  repeat first [apply Forall_nil_2 | apply Forall_cons_2];
    intros hl i d;
    unfold hdr_evot, hdr_evla, hdr_evlo, hdr_evdp, hdr_mag, hdr_station,
      hdr_stla, hdr_stlo, hdr_stel, hdr_starttime, hdr_sampling_rate,
      hdr_duration, hdr_channel, hdr_calib, hdr_accmax, hdr_last_correction,
      hdr_comment, hdr_float;
    (split;
     [ intros e He; rewrite He; reflexivity
     | intros d' Hb; inv_bind Hb; eauto ]).
Qed.

(** A successful parse has 17 lines and each starts with its label. *)
Lemma hdr_Ok_labels (conv : bool) (hl : list str) (h : dict) :
  _read_knet_hdr hl conv = Ok h ->
  length hl = 17%nat
  /\ forall i name, hdrnames !! i = Some name ->
       exists line, hl !! i = Some line /\ startswith name line = true.
Proof.
  intros Hok. split.
  - rewrite read_knet_hdr_blocks in Hok. inv_bind Hok.
    destruct (length hl =? 17)%nat eqn:Hlen; [| discriminate].
    apply Nat.eqb_eq, Hlen.
  - intros i name Hname.
    assert (Hi : (i < length (blocks conv))%nat).
    { apply lookup_lt_Some in Hname. exact Hname. }
    destruct (lookup_lt_is_Some_2 _ _ Hi) as (blk & Hblk).
    destruct (hdr_Ok_at _ _ _ _ _ Hok Hblk) as (_ & d & d' & _ & Hb & _).
    pose proof (blocks_prep conv) as Hall.
    rewrite Forall_lookup in Hall.
    destruct (Hall _ _ Hblk hl i d) as (_ & Hprep).
    destruct (Hprep _ Hb) as (flds & Hflds).
    apply prep_at_Ok in Hflds.
    destruct Hflds as (name' & line & Hn' & Hl & Hsw & _).
    rewrite Hname in Hn'. injection Hn' as <-. eauto.
Qed.

(** ** Labels and line count *)

Lemma prep_at_mismatch (hl : list str) (i : nat) (name line : str) :
  hdrnames !! i = Some name -> hl !! i = Some line ->
  startswith name line = false ->
  prep_at hl i
  = Raise (KNETException (u "Expected line to start with " ++ name
                          ++ u " but got " ++ line ++ u " ")).
Proof.
  intros Hn Hl Hsw. unfold prep_at, getitem, _prep_hdr_line.
  rewrite Hn, Hl. simpl. rewrite Hsw. reflexivity.
Qed.

(** C4. The header is read in order.  A line that does not start
    with its expected label makes the parse fail; when the lines before it
    were read without error, the failure is the [KNETException] that
    reports the expected label and the line found. *)
Theorem header_label_mismatch (hl : list str) (conv : bool) (i : nat)
    (name line : str) :
  hdrnames !! i = Some name -> hl !! i = Some line ->
  startswith name line = false ->
  (forall h, _read_knet_hdr hl conv <> Ok h)
  /\ (forall d, hdr_prefix i hl conv = Ok d ->
        _read_knet_hdr hl conv
        = Raise (KNETException (u "Expected line to start with " ++ name
                                ++ u " but got " ++ line ++ u " "))).
Proof.
  intros Hn Hl Hsw. split.
  - intros h Hok. destruct (hdr_Ok_labels _ _ _ Hok) as (_ & Hlab).
    destruct (Hlab i name Hn) as (line' & Hl' & Hsw').
    rewrite Hl in Hl'. injection Hl' as <-. congruence.
  - intros d Hpre.
    assert (Hi : (i < length (blocks conv))%nat).
    { apply lookup_lt_Some in Hn. exact Hn. }
    destruct (lookup_lt_is_Some_2 _ _ Hi) as (blk & Hblk).
    apply (hdr_raise_at conv hl i blk d _ Hpre Hblk).
    pose proof (blocks_prep conv) as Hall. rewrite Forall_lookup in Hall.
    destruct (Hall _ _ Hblk hl i d) as (Hraise & _).
    apply Hraise, prep_at_mismatch; assumption.
Qed.

(** A header on which the 17 blocks succeed has at least 17 lines. *)
Lemma hdr_prefix_17_length (hl : list str) (conv : bool) (d : dict) :
  hdr_prefix 17 hl conv = Ok d -> (17 <= length hl)%nat.
Proof.
  intros Hpre.
  assert (Hblk : blocks conv !! 16%nat = Some hdr_comment) by reflexivity.
  rewrite (hdr_prefix_S 16 hl conv _ Hblk) in Hpre. inv_bind Hpre.
  unfold hdr_comment in Hpre. inv_bind Hpre.
  apply prep_at_Ok in Hx0. destruct Hx0 as (name & line & _ & Hl & _).
  apply lookup_lt_Some in Hl. lia.
Qed.

(** C5. The count of header lines is checked after the 17 blocks: a
    parse that returns a header has exactly 17 lines, so a list of any
    other length yields none; and when the 17 blocks succeed on a list of
    another length the parse fails with the [KNETException] that reports
    17 and the length found. *)
Theorem header_line_count (hl : list str) (conv : bool) :
  (forall h, _read_knet_hdr hl conv = Ok h -> length hl = 17%nat)
  /\ (length hl <> 17%nat -> forall h, _read_knet_hdr hl conv <> Ok h)
  /\ (forall d, hdr_prefix 17 hl conv = Ok d -> length hl <> 17%nat ->
        _read_knet_hdr hl conv
        = Raise (KNETException (u "Expected 17 header lines but got "
                                ++ format_d (length hl)))).
Proof.
  split; [| split].
  - intros h Hok. apply (hdr_Ok_labels _ _ _ Hok).
  - intros Hlen h Hok. apply Hlen, (hdr_Ok_labels _ _ _ Hok).
  - intros d Hpre Hlen.
    rewrite read_knet_hdr_blocks, <- hdr_prefix_all, Hpre. simpl.
    apply Nat.eqb_neq in Hlen. rewrite Hlen. reflexivity.
Qed.

(** ** Which exceptions a block can raise *)

Lemma bind_Raise_inv {A B} (m : result A) (f : A -> result B) (e : exn) :
  m ≫= f = Raise e -> m = Raise e \/ exists x, m = Ok x /\ f x = Raise e.
Proof.
  destruct m as [x|e']; simpl; intros Hm.
  - right. exists x. split; [reflexivity | exact Hm].
  - left. injection Hm as ->. reflexivity.
Qed.

Lemma or_raise_not_station {A} (e0 e : exn) (o : option A) :
  not_station e0 -> or_raise e0 o = Raise e -> not_station e.
Proof. destruct o; simpl; [discriminate | congruence]. Qed.

Lemma getitem_not_station {A} (l : list A) (i : nat) (e : exn) :
  getitem l i = Raise e -> not_station e.
Proof. apply or_raise_not_station. discriminate. Qed.

Lemma pyfloat_not_station (s : str) (e : exn) :
  pyfloat s = Raise e -> not_station e.
Proof. apply or_raise_not_station. discriminate. Qed.

Lemma strptime_not_station (s : str) (e : exn) :
  strptime s = Raise e -> not_station e.
Proof. apply or_raise_not_station. discriminate. Qed.

Lemma set_knet_not_station (k : string) (v : atom) (d : dict) (e : exn) :
  set_knet k v d = Raise e -> not_station e.
Proof.
  unfold set_knet. destruct (d !! "knet"%string) as [[a|knet]|];
    intros [= <-]; discriminate.
Qed.

Lemma prep_at_not_station (hl : list str) (i : nat) (e : exn) :
  prep_at hl i = Raise e -> not_station e.
Proof.
  unfold prep_at. intros Hp.
  apply bind_Raise_inv in Hp.
  destruct Hp as [Hp | (name & _ & Hp)]; [eapply getitem_not_station, Hp |].
  apply bind_Raise_inv in Hp.
  destruct Hp as [Hp | (line & _ & Hp)]; [eapply getitem_not_station, Hp |].
  unfold _prep_hdr_line in Hp.
  destruct (startswith name line); simpl in Hp; [discriminate |].
  injection Hp as <-. intros [= Heq].
Qed.

Lemma read_time_not_station (flds : list str) (e : exn) :
  read_time flds = Raise e -> not_station e.
Proof.
  unfold read_time. intros Hr.
  apply bind_Raise_inv in Hr.
  destruct Hr as [Hr | (date & _ & Hr)]; [eapply getitem_not_station, Hr |].
  apply bind_Raise_inv in Hr.
  destruct Hr as [Hr | (time & _ & Hr)]; [eapply getitem_not_station, Hr |].
  eapply strptime_not_station, Hr.
Qed.

Lemma int_of_digits_not_station (ds : str) (e : exn) :
  int_of_digits ds = Raise e -> not_station e.
Proof.
  unfold int_of_digits. destruct (is_nil ds), (forallb is_digit ds);
    intros [= <-]; discriminate.
Qed.

Lemma calibration_not_station (eqn : str) (e : exn) :
  calibration eqn = Raise e -> not_station e.
Proof.
  unfold calibration.
  destruct (split_on 47 eqn) as [|num [|denom [|x l]]];
    try (intros [= <-]; discriminate).
  intros Hc.
  apply bind_Raise_inv in Hc.
  destruct Hc as [Hc | (n & _ & Hc)]; [eapply pyfloat_not_station, Hc |].
  apply bind_Raise_inv in Hc.
  destruct Hc as [Hc | (dn & _ & Hc)]; [eapply pyfloat_not_station, Hc |].
  eapply or_raise_not_station, Hc. discriminate.
Qed.

(** Splits [H : m ≫= f = Raise e] into the failure of [m] and the failure
    of what follows. *)
Ltac split_raise H :=
  lazymatch type of H with
  | (_ ≫= _) = Raise _ =>
      apply bind_Raise_inv in H;
      destruct H as [H | (? & _ & H)]; [| cbv beta in H; split_raise H]
  | _ => idtac
  end.

(** Closes [not_station e] from the failure of one step of a block. *)
Ltac leaf_not_station :=
  eauto using getitem_not_station, pyfloat_not_station,
    set_knet_not_station, prep_at_not_station, read_time_not_station,
    int_of_digits_not_station, calibration_not_station.

(** The blocks after the station line never raise the station-name
    exception. *)
Lemma later_blocks_not_station (conv : bool) :
  Forall (fun blk => forall hl i d e, blk hl i d = Raise e -> not_station e)
    (drop 6 (blocks conv)).
Proof.
  unfold blocks. cbn [drop].
  repeat first [apply Forall_nil_2 | apply Forall_cons_2];
    intros hl i d e Hb;
    unfold hdr_stla, hdr_stlo, hdr_stel, hdr_starttime, hdr_sampling_rate,
      hdr_duration, hdr_channel, hdr_calib, hdr_accmax, hdr_last_correction,
      hdr_comment, hdr_float in Hb;
    split_raise Hb; leaf_not_station; try discriminate.
  destruct (1 <? length _)%nat; [leaf_not_station | discriminate].
Qed.

(** Nor do the blocks before it. *)
Lemma earlier_blocks_not_station (conv : bool) :
  Forall (fun blk => forall hl i d e, blk hl i d = Raise e -> not_station e)
    (take 5 (blocks conv)).
Proof.
  unfold blocks. cbn [take].
  repeat first [apply Forall_nil_2 | apply Forall_cons_2];
    intros hl i d e Hb;
    unfold hdr_evot, hdr_evla, hdr_evlo, hdr_evdp, hdr_mag, hdr_float in Hb;
    split_raise Hb; leaf_not_station.
Qed.

(** The station block raises the station-name exception only for a
    station longer than 7 characters. *)
Lemma hdr_station_raise (conv : bool) (hl : list str) (i : nat) (d : dict) :
  hdr_station conv hl i d = Raise (KNETException station_msg) ->
  exists flds tok,
    prep_at hl i = Ok flds /\ flds !! 2%nat = Some tok
    /\ (7 < length (split_station conv tok).1)%nat.
Proof.
  unfold hdr_station. intros Hb.
  apply bind_Raise_inv in Hb. destruct Hb as [Hb | (flds & Hflds & Hb)].
  { exfalso. apply (prep_at_not_station _ _ _ Hb). reflexivity. }
  apply bind_Raise_inv in Hb. destruct Hb as [Hb | (tok & Htok & Hb)].
  { exfalso. apply (getitem_not_station _ _ _ Hb). reflexivity. }
  apply getitem_Ok in Htok. exists flds, tok.
  destruct (split_station conv tok) as [stnm location]. simpl.
  destruct (7 <? length stnm)%nat eqn:Hlen; [| discriminate].
  apply Nat.ltb_lt in Hlen. auto.
Qed.

Lemma run_blocks_not_station
    (bs : list (list str -> nat -> dict -> result dict)) (hl : list str) :
  Forall (fun blk => forall hl i d e, blk hl i d = Raise e -> not_station e)
    bs ->
  forall i d e, run_blocks bs hl i d = Raise e -> not_station e.
Proof.
  induction 1 as [|blk bs Hblk _ IH]; intros i d e Hrun.
  - discriminate.
  - simpl in Hrun. apply bind_Raise_inv in Hrun.
    destruct Hrun as [Hrun | (d' & _ & Hrun)]; eauto.
Qed.

(** ** Reading the dictionary of a successful parse *)

(** Closes [s ∉ l] for a concrete slot and a concrete list of slots. *)
Ltac solve_notin :=
  cbn [drop concat app writes];
  repeat (apply not_elem_of_cons; split; [discriminate |]);
  apply not_elem_of_nil.

(** C6. The three timestamps of a parsed header are the date and time
    tokens (positions 2 and 3 of the split line) joined by one space and
    parsed, less 9 hours; the record time loses 15 more seconds.  A record
    time of 2011/03/11 14:46:45 gives a start time of 2011/03/11 05:46:30. *)
Theorem header_timestamps :
  (forall (hl : list str) (conv : bool) (h : dict),
     _read_knet_hdr hl conv = Ok h ->
     exists l0 l9 l15 d0 t0 d9 t9 d15 t15 dt0 dt9 dt15,
       hl !! 0%nat = Some l0 /\ hl !! 9%nat = Some l9
       /\ hl !! 15%nat = Some l15
       /\ str_split l0 !! 2%nat = Some d0 /\ str_split l0 !! 3%nat = Some t0
       /\ str_split l9 !! 2%nat = Some d9 /\ str_split l9 !! 3%nat = Some t9
       /\ str_split l15 !! 2%nat = Some d15
       /\ str_split l15 !! 3%nat = Some t15
       /\ strptime (d0 ++ u " " ++ t0) = Ok dt0
       /\ strptime (d9 ++ u " " ++ t9) = Ok dt9
       /\ strptime (d15 ++ u " " ++ t15) = Ok dt15
       /\ get_knet h "evot"
          = Some (VTime {| timestamp := timestamp dt0 - 32400 |})
       /\ get_key h "starttime"
          = Some (VTime {| timestamp := timestamp dt9 - 15 - 32400 |})
       /\ get_knet h "last correction"
          = Some (VTime {| timestamp := timestamp dt15 - 32400 |}))
  /\ (forall (hl : list str) (d : dict) (line : str),
        hl !! 9%nat = Some line ->
        startswith (u "Record Time") line = true ->
        str_split line !! 2%nat = Some (u "2011/03/11") ->
        str_split line !! 3%nat = Some (u "14:46:45") ->
        exists t,
          strptime (u "2011/03/11 05:46:30") = Ok t
          /\ hdr_starttime hl 9 d = Ok (set_key "starttime" (VTime t) d)).
Proof.
  split.
  - intros hl conv h Hok.
    destruct (hdr_Ok_at conv hl h 0 hdr_evot Hok eq_refl)
      as (_ & a0 & a0' & _ & Hb0 & Hf0).
    destruct (hdr_Ok_at conv hl h 9 hdr_starttime Hok eq_refl)
      as (_ & a9 & a9' & _ & Hb9 & Hf9).
    destruct (hdr_Ok_at conv hl h 15 hdr_last_correction Hok eq_refl)
      as (_ & a15 & a15' & _ & Hb15 & Hf15).
    apply hdr_evot_Ok in Hb0. destruct Hb0 as (f0 & dt0 & Hp0 & Hr0 & Hu0).
    apply hdr_starttime_Ok in Hb9.
    destruct Hb9 as (f9 & dt9 & Hp9 & Hr9 & Hu9).
    apply hdr_last_correction_Ok in Hb15.
    destruct Hb15 as (f15 & dt15 & Hp15 & Hr15 & Hu15).
    apply prep_at_Ok in Hp0, Hp9, Hp15.
    destruct Hp0 as (? & l0 & _ & Hl0 & _ & ->).
    destruct Hp9 as (? & l9 & _ & Hl9 & _ & ->).
    destruct Hp15 as (? & l15 & _ & Hl15 & _ & ->).
    apply read_time_Ok in Hr0, Hr9, Hr15.
    destruct Hr0 as (d0 & t0 & ? & ? & ?).
    destruct Hr9 as (d9 & t9 & ? & ? & ?).
    destruct Hr15 as (d15 & t15 & ? & ? & ?).
    exists l0, l9, l15, d0, t0, d9, t9, d15, t15, dt0, dt9, dt15.
    repeat (split; [assumption |]).
    split; [| split].
    + change (get_knet h "evot") with (read_slot h (Knet "evot")).
      rewrite Hf0 by solve_notin. apply (upd_read _ _ _ _ Hu0).
    + change (get_key h "starttime") with (read_slot h (Top "starttime")).
      rewrite Hf9 by solve_notin. apply (upd_read _ _ _ _ Hu9).
    + change (get_knet h "last correction")
        with (read_slot h (Knet "last correction")).
      rewrite Hf15 by solve_notin. apply (upd_read _ _ _ _ Hu15).
  - intros hl d line Hl Hsw Hd Ht. eexists. split; [reflexivity |].
    assert (Hp : prep_at hl 9 = Ok (str_split line)).
    { apply prep_at_Ok. exists (u "Record Time"), line. auto. }
    assert (Hr : read_time (str_split line)
                 = strptime (u "2011/03/11" ++ u " " ++ u "14:46:45")).
    { unfold read_time, getitem. rewrite Hd, Ht. reflexivity. }
    unfold hdr_starttime. rewrite (bind_step _ _ _ Hp), Hr. reflexivity.
Qed.

(** C7. With [convert_stnm] set and a station token longer than 5
    characters the location is the token's last 2 characters and the
    station is what precedes them; otherwise the station is the whole
    token and the location is empty.  The parse fails with the
    station-name exception exactly when that station is longer than 7
    characters: the exception is raised for no other reason, and it is
    raised as soon as the station line is reached with such a token.  An
    8-character token with conversion leaves a station of 6 and a
    location of 2, a 10-character token a station longer than 7. *)
Theorem station_code_split (hl : list str) (conv : bool) :
  (forall h, _read_knet_hdr hl conv = Ok h ->
     exists line tok,
       hl !! 5%nat = Some line /\ str_split line !! 2%nat = Some tok
       /\ get_key h "station"
          = Some (VStr (if conv && (5 <? length tok)%nat
                        then take (length tok - 2) tok else tok))
       /\ get_key h "location"
          = Some (VStr (if conv && (5 <? length tok)%nat
                        then drop (length tok - 2) tok else []))
       /\ (length (if conv && (5 <? length tok)%nat
                   then take (length tok - 2) tok else tok) <= 7)%nat)
  /\ (_read_knet_hdr hl conv
      = Raise (KNETException
                 (u "Station name can't be more than 7 characters long!")) ->
      exists line tok,
        hl !! 5%nat = Some line /\ str_split line !! 2%nat = Some tok
        /\ (7 < length (if conv && (5 <? length tok)%nat
                        then take (length tok - 2) tok else tok))%nat)
  /\ (forall d line tok,
        hdr_prefix 5 hl conv = Ok d -> hl !! 5%nat = Some line ->
        startswith (u "Station Code") line = true ->
        str_split line !! 2%nat = Some tok ->
        (_read_knet_hdr hl conv
         = Raise (KNETException
                    (u "Station name can't be more than 7 characters long!"))
         <-> (7 < length (if conv && (5 <? length tok)%nat
                          then take (length tok - 2) tok else tok))%nat))
  /\ (forall tok : str, length tok = 8%nat ->
        length (take (length tok - 2) tok) = 6%nat
        /\ length (drop (length tok - 2) tok) = 2%nat)
  /\ (forall (tok : str) (c : bool), length tok = 10%nat ->
        (7 < length (if c && (5 <? length tok)%nat
                     then take (length tok - 2) tok else tok))%nat).
Proof.
  assert (Hsplit : forall c (tok : str),
             split_station c tok
             = (if c && (5 <? length tok)%nat
                then take (length tok - 2) tok else tok,
                if c && (5 <? length tok)%nat
                then drop (length tok - 2) tok else [])).
  { intros c tok. unfold split_station, slice_but_last, slice_last.
    destruct (c && (5 <? length tok)%nat); reflexivity. }
  assert (Hcause : _read_knet_hdr hl conv = Raise (KNETException station_msg)
                   -> exists line tok,
                        hl !! 5%nat = Some line
                        /\ str_split line !! 2%nat = Some tok
                        /\ (7 < length (split_station conv tok).1)%nat).
  { rewrite read_knet_hdr_blocks. intros Hraise.
    apply bind_Raise_inv in Hraise.
    destruct Hraise as [Hraise | (d' & _ & Hraise)].
    - change (blocks conv)
        with (take 5 (blocks conv) ++ hdr_station conv :: drop 6 (blocks conv))
        in Hraise.
      rewrite run_blocks_app in Hraise. apply bind_Raise_inv in Hraise.
      destruct Hraise as [Hraise | (d & _ & Hraise)].
      { exfalso.
        apply (run_blocks_not_station _ hl (earlier_blocks_not_station conv)
                 _ _ _ Hraise). reflexivity. }
      simpl in Hraise. apply bind_Raise_inv in Hraise.
      destruct Hraise as [Hraise | (d5 & _ & Hraise)].
      + apply hdr_station_raise in Hraise.
        destruct Hraise as (flds & tok & Hp & Htok & Hlen).
        apply prep_at_Ok in Hp. destruct Hp as (? & line & _ & Hl & _ & ->).
        exists line, tok. auto.
      + exfalso.
        apply (run_blocks_not_station _ hl (later_blocks_not_station conv)
                 _ _ _ Hraise). reflexivity.
    - exfalso. destruct (negb (length hl =? 17)%nat); [| discriminate].
      injection Hraise as Heq. vm_compute in Heq. discriminate. }
  split; [| split; [| split; [| split]]].
  - intros h Hok.
    destruct (hdr_Ok_at conv hl h 5 (hdr_station conv) Hok eq_refl)
      as (_ & d & d' & _ & Hb & Hf).
    apply hdr_station_Ok in Hb.
    destruct Hb as (flds & tok & Hp & Htok & Hlen & Hst & Hloc & _).
    apply prep_at_Ok in Hp. destruct Hp as (? & line & _ & Hl & _ & ->).
    exists line, tok. rewrite Hsplit in Hst, Hloc, Hlen.
    simpl in Hst, Hloc, Hlen.
    repeat (split; [assumption |]). split; [| split; [| exact Hlen]].
    + change (get_key h "station") with (read_slot h (Top "station")).
      rewrite Hf by solve_notin. exact Hst.
    + change (get_key h "location") with (read_slot h (Top "location")).
      rewrite Hf by solve_notin. exact Hloc.
  - intros Hraise. destruct (Hcause Hraise) as (line & tok & Hl & Htok & Hlen).
    rewrite Hsplit in Hlen. exists line, tok. auto.
  - intros d line tok Hpre Hl Hsw Htok.
    change (u "Station name can't be more than 7 characters long!")
      with station_msg.
    split.
    + intros Hraise.
      destruct (Hcause Hraise) as (line' & tok' & Hl' & Htok' & Hlen).
      rewrite Hl in Hl'. injection Hl' as <-.
      rewrite Htok in Htok'. injection Htok' as <-.
      rewrite Hsplit in Hlen. exact Hlen.
    + intros Hlen.
      apply (hdr_raise_at conv hl 5 (hdr_station conv) d _ Hpre eq_refl).
      assert (Hp : prep_at hl 5 = Ok (str_split line)).
      { apply prep_at_Ok. exists (u "Station Code"), line. auto. }
      unfold hdr_station. rewrite (bind_step _ _ _ Hp). unfold getitem.
      rewrite Htok. simpl. rewrite Hsplit.
      apply Nat.ltb_lt in Hlen. rewrite Hlen. reflexivity.
  - intros tok Hlen. rewrite length_take, length_drop. lia.
  - intros tok c Hlen.
    destruct (c && (5 <? length tok)%nat);
      rewrite ?length_take; lia.
Qed.

(** ** Tokens *)

Lemma split_go_no_space {A} (sp : A -> bool) (s cur : list A) :
  Forall (fun c => sp c = false) cur ->
  Forall (Forall (fun c => sp c = false)) (split_go sp s cur).
Proof.
  revert cur. induction s as [|c s IH]; intros cur Hcur; simpl.
  - destruct (is_nil cur); [constructor |].
    constructor; [apply Forall_reverse, Hcur | constructor].
  - destruct (sp c) eqn:Hc.
    + destruct (is_nil cur); [apply IH; constructor |].
      constructor; [apply Forall_reverse, Hcur | apply IH; constructor].
    + apply IH. constructor; assumption.
Qed.

(** The tokens of [s.split()] contain no whitespace. *)
Lemma split_ws_no_space {A} (sp : A -> bool) (s tok : list A) (i : nat) :
  split_ws sp s !! i = Some tok -> Forall (fun c => sp c = false) tok.
Proof.
  intros Htok.
  pose proof (split_go_no_space sp s [] (Forall_nil_2 _)) as Hall.
  rewrite Forall_lookup in Hall. apply (Hall i tok Htok).
Qed.

Lemma drop_while_id {A} (sp : A -> bool) (s : list A) :
  Forall (fun c => sp c = false) s -> drop_while sp s = s.
Proof. destruct 1 as [|c s Hc _]; simpl; [| rewrite Hc]; reflexivity. Qed.

(** [strip] leaves a string without whitespace as it is. *)
Lemma strip_ws_id {A} (sp : A -> bool) (s : list A) :
  Forall (fun c => sp c = false) s -> strip_ws sp s = s.
Proof.
  intros Hs. unfold strip_ws. rewrite (drop_while_id sp s Hs).
  rewrite drop_while_id by (apply Forall_reverse, Hs).
  apply reverse_involutive.
Qed.

(** ** The channel code *)

Lemma kiknetcomps_remap (code : str) :
  match kiknetcomps !! code with
  | Some named => named
  | None => code
  end = remap_by_table code.
Proof.
  unfold remap_by_table, kiknetcomps.
  repeat (case_bool_decide;
          [ subst code; vm_compute; reflexivity
          | rewrite lookup_insert_ne by congruence ]).
  rewrite lookup_empty. reflexivity.
Qed.

Lemma channel_code_table (tok : str) :
  Forall (fun c => isspace c = false) tok ->
  channel_code tok = remap_by_table (filter (fun c => c <> 45%N) tok).
Proof.
  intros Htok. unfold channel_code, str_strip, remove_char.
  rewrite strip_ws_id; [apply kiknetcomps_remap |].
  rewrite Forall_forall in Htok |- *. intros c Hc.
  apply list_elem_of_filter in Hc. apply Htok, Hc.
Qed.

(** C8. The channel of a parsed header is the direction token (token 1
    of the [Dir.] line) without its hyphens, renamed through the table
    when that is one of the codes 1 to 6 and kept verbatim otherwise:
    [3] gives [UD1] and [N-S] gives [NS]. *)
Theorem channel_code_remap :
  (forall (hl : list str) (conv : bool) (h : dict),
     _read_knet_hdr hl conv = Ok h ->
     exists line tok,
       hl !! 12%nat = Some line /\ str_split line !! 1%nat = Some tok
       /\ get_key h "channel"
          = Some (VStr (remap_by_table (filter (fun c => c <> 45%N) tok))))
  /\ channel_code (u "3") = u "UD1"
  /\ channel_code (u "-3-") = u "UD1"
  /\ channel_code (u "N-S") = u "NS".
Proof.
  split; [| repeat split; vm_compute; reflexivity].
  intros hl conv h Hok.
  destruct (hdr_Ok_at conv hl h 12 hdr_channel Hok eq_refl)
    as (_ & d & d' & _ & Hb & Hf).
  apply hdr_channel_Ok in Hb. destruct Hb as (flds & tok & Hp & Htok & Hu).
  apply prep_at_Ok in Hp. destruct Hp as (? & line & _ & Hl & _ & ->).
  exists line, tok. repeat (split; [assumption |]).
  change (get_key h "channel") with (read_slot h (Top "channel")).
  rewrite Hf by solve_notin. rewrite (upd_read _ _ _ _ Hu).
  rewrite channel_code_table; [reflexivity |].
  apply (split_ws_no_space _ _ _ _ Htok).
Qed.

(** ** The calibration factor *)

Lemma calibration_Ok (eqn : str) (c : float) :
  calibration eqn = Ok c <->
  exists num denom n dn,
    split_on 47 eqn = [num; denom]
    /\ float_of_str (take_while is_digit num) = Some n
    /\ float_of_str denom = Some dn
    /\ float_div (float_mul float_0_01 n) dn = Some c.
Proof.
  unfold calibration, pyfloat, leading_digits. split.
  - destruct (split_on 47 eqn) as [|num [|denom [|x l]]]; try discriminate.
    intros Hc. inv_bind Hc. inv_bind Hc.
    apply or_raise_Ok in Hx, Hx0, Hc.
    exists num, denom, x, x0. auto.
  - intros (num & denom & n & dn & -> & Hn & Hd & Hdiv).
    rewrite Hn, Hd. simpl. rewrite Hdiv. reflexivity.
Qed.

(** ** The sampling rate *)

Lemma take_while_forallb {A} (p : A -> bool) (s : list A) :
  forallb p (take_while p s) = true.
Proof.
  induction s as [|c s IH]; simpl; [reflexivity |].
  destruct (p c) eqn:Hc; simpl; [rewrite Hc; exact IH | reflexivity].
Qed.

Lemma digits_value_snoc (ds : str) (c : N) :
  digits_value (ds ++ [c]) = 10 * digits_value ds + (Z.of_N c - 48).
Proof. unfold digits_value. rewrite foldl_app. reflexivity. Qed.

Lemma int_of_digits_leading (s : str) (n : Z) :
  int_of_digits (leading_digits s) = Ok n ->
  exists c, head s = Some c /\ is_digit c = true
            /\ n = digits_value (take_while is_digit s).
Proof.
  unfold int_of_digits, leading_digits.
  rewrite take_while_forallb.
  destruct s as [|c r]; [discriminate |]. simpl.
  destruct (is_digit c) eqn:Hc; [| discriminate].
  simpl. intros [= <-]. exists c. auto.
Qed.

(** C10. A sampling-frequency token (token 2 of the sampling line) that
    does not begin with a digit has an empty leading digit run, [int] of
    which raises: no header is returned, and once the line is reached the
    parse fails with [ValueError]; no rate is recorded.  In a parsed header
    the token begins with a digit and the rate is the decimal value of its
    leading digit run, whatever follows it. *)
Theorem sampling_rate_leading_digits :
  (forall (hl : list str) (conv : bool) (line freqstr : str),
     hl !! 10%nat = Some line ->
     str_split line !! 2%nat = Some freqstr ->
     (forall c, head freqstr = Some c -> is_digit c = false) ->
     leading_digits freqstr = []
     /\ int_of_digits (leading_digits freqstr) = Raise ValueError
     /\ (forall h, _read_knet_hdr hl conv <> Ok h)
     /\ (forall d, hdr_prefix 10 hl conv = Ok d ->
           startswith (u "Sampling Freq(Hz)") line = true ->
           _read_knet_hdr hl conv = Raise ValueError))
  /\ (forall (hl : list str) (conv : bool) (h : dict),
        _read_knet_hdr hl conv = Ok h ->
        exists line freqstr c,
          hl !! 10%nat = Some line
          /\ str_split line !! 2%nat = Some freqstr
          /\ head freqstr = Some c /\ is_digit c = true
          /\ get_key h "sampling_rate"
             = Some (VInt (digits_value (take_while is_digit freqstr))))
  /\ digits_value [] = 0
  /\ (forall (ds : str) (c : N),
        digits_value (ds ++ [c]) = 10 * digits_value ds + (Z.of_N c - 48))
  /\ int_of_digits (leading_digits (u "100Hz")) = Ok 100.
Proof.
  assert (Hparsed : forall (hl : list str) (conv : bool) (h : dict),
             _read_knet_hdr hl conv = Ok h ->
             exists line freqstr c,
               hl !! 10%nat = Some line
               /\ str_split line !! 2%nat = Some freqstr
               /\ head freqstr = Some c /\ is_digit c = true
               /\ get_key h "sampling_rate"
                  = Some (VInt (digits_value (take_while is_digit freqstr)))).
  { intros hl conv h Hok.
    destruct (hdr_Ok_at conv hl h 10 hdr_sampling_rate Hok eq_refl)
      as (_ & d & d' & _ & Hb & Hf).
    apply hdr_sampling_rate_Ok in Hb.
    destruct Hb as (flds & freqstr & freq & Hp & Htok & Hint & Hu).
    apply prep_at_Ok in Hp. destruct Hp as (? & line & _ & Hl & _ & ->).
    apply int_of_digits_leading in Hint.
    destruct Hint as (c & Hhead & Hc & ->).
    exists line, freqstr, c. repeat (split; [assumption |]).
    change (get_key h "sampling_rate")
      with (read_slot h (Top "sampling_rate")).
    rewrite Hf by solve_notin. apply (upd_read _ _ _ _ Hu). }
  split; [| split; [exact Hparsed | split; [reflexivity | split;
                                [exact digits_value_snoc | reflexivity]]]].
  intros hl conv line freqstr Hl Htok Hhead.
  assert (Hlead : leading_digits freqstr = []).
  { unfold leading_digits. destruct freqstr as [|c r]; [reflexivity |].
    simpl. rewrite (Hhead c eq_refl). reflexivity. }
  split; [exact Hlead |]. split; [rewrite Hlead; reflexivity |]. split.
  - intros h Hok.
    destruct (Hparsed hl conv h Hok)
      as (line' & freqstr' & c & Hl' & Htok' & Hc & Hdig & _).
    rewrite Hl in Hl'. injection Hl' as <-.
    rewrite Htok in Htok'. injection Htok' as <-.
    rewrite (Hhead c Hc) in Hdig. discriminate.
  - intros d Hpre Hsw.
    apply (hdr_raise_at conv hl 10 hdr_sampling_rate d _ Hpre eq_refl).
    assert (Hp : prep_at hl 10 = Ok (str_split line)).
    { apply prep_at_Ok. exists (u "Sampling Freq(Hz)"), line. auto. }
    unfold hdr_sampling_rate. rewrite (bind_step _ _ _ Hp). unfold getitem.
    rewrite Htok. simpl. rewrite Hlead. reflexivity.
Qed.

(** ** Lines *)

Lemma readlines_go_line (body s cur : bytes) :
  newline ∉ body ->
  readlines_go (body ++ newline :: s) cur
  = (reverse cur ++ body ++ [newline]) :: readlines_go s [].
Proof.
  revert cur. induction body as [|c body IH]; intros cur Hbody; simpl.
  - rewrite reverse_cons. reflexivity.
  - apply not_elem_of_cons in Hbody. destruct Hbody as (Hc & Hbody).
    destruct (Byte.eqb c newline) eqn:Heq.
    + apply Byte.byte_dec_bl in Heq. congruence.
    + rewrite (IH _ Hbody), reverse_cons, <- app_assoc. reflexivity.
Qed.

Lemma readlines_lines (ls : list bytes) (rest : bytes) :
  Forall complete_line ls ->
  readlines (concat ls ++ rest) = ls ++ readlines rest.
Proof.
  unfold readlines. induction 1 as [|l ls (body & -> & Hbody) _ IH]; simpl.
  - reflexivity.
  - rewrite <- !app_assoc. simpl.
    rewrite (readlines_go_line _ _ _ Hbody), IH. reflexivity.
Qed.

(** [readlines] is [readline] repeated until nothing is left. *)
Lemma readlines_go_readline (s cur : bytes) :
  s <> [] ->
  readlines_go s cur
  = (reverse cur ++ (readline s).1) :: readlines_go (readline s).2 [].
Proof.
  revert cur. induction s as [|c s IH]; intros cur Hs; [congruence |].
  simpl. destruct (Byte.eqb c newline).
  - simpl. rewrite reverse_cons. reflexivity.
  - destruct s as [|c' s'].
    + simpl. rewrite reverse_cons. reflexivity.
    + rewrite IH by discriminate.
      destruct (readline (c' :: s')) as [l r]. simpl.
      rewrite reverse_cons, <- app_assoc. reflexivity.
Qed.

Lemma readlines_readline (s : bytes) :
  s <> [] ->
  readlines s = (readline s).1 :: readlines (readline s).2.
Proof. intros Hs. apply (readlines_go_readline s [] Hs). Qed.

(** ** Tokens across lines *)

Lemma split_go_spaces {A} (sp : A -> bool) (ws cur : list A) :
  Forall (fun c => sp c = true) ws ->
  split_go sp ws cur = if is_nil cur then [] else [reverse cur].
Proof.
  induction 1 as [|c ws Hc _ IH] in cur |- *; simpl; [reflexivity |].
  rewrite Hc, IH. simpl. destruct (is_nil cur); reflexivity.
Qed.

(** Whitespace ends a token: splitting distributes over it. *)
Lemma split_go_cut {A} (sp : A -> bool) (s1 s2 cur : list A) (c : A) :
  sp c = true ->
  split_go sp (s1 ++ c :: s2) cur
  = split_go sp (s1 ++ [c]) cur ++ split_go sp s2 [].
Proof.
  intros Hc. revert cur. induction s1 as [|a s1 IH]; intros cur; simpl.
  - rewrite Hc. destruct (is_nil cur); reflexivity.
  - destruct (sp a); [| apply IH].
    destruct (is_nil cur); [apply IH |]. simpl. rewrite IH. reflexivity.
Qed.

Lemma split_go_trailing {A} (sp : A -> bool) (s ws cur : list A) :
  Forall (fun c => sp c = true) ws ->
  split_go sp (s ++ ws) cur = split_go sp s cur.
Proof.
  intros Hws. revert cur. induction s as [|a s IH]; intros cur; simpl.
  - apply split_go_spaces, Hws.
  - destruct (sp a); [| apply IH].
    destruct (is_nil cur); [apply IH |]. rewrite IH. reflexivity.
Qed.

Lemma split_ws_leading {A} (sp : A -> bool) (s : list A) :
  split_ws sp (drop_while sp s) = split_ws sp s.
Proof.
  unfold split_ws. induction s as [|a s IH]; simpl; [reflexivity |].
  destruct (sp a) eqn:Ha; [exact IH |]. simpl. rewrite Ha. reflexivity.
Qed.

Lemma take_drop_while {A} (p : A -> bool) (s : list A) :
  s = take_while p s ++ drop_while p s
  /\ Forall (fun c => p c = true) (take_while p s).
Proof.
  induction s as [|a s (IH1 & IH2)]; simpl;
    [split; [reflexivity | constructor] |].
  destruct (p a) eqn:Ha; simpl.
  - split; [congruence | constructor; assumption].
  - split; [reflexivity | constructor].
Qed.

(** [line.strip().split()] gives the tokens of [line.split()]. *)
Lemma split_ws_strip {A} (sp : A -> bool) (s : list A) :
  split_ws sp (strip_ws sp s) = split_ws sp s.
Proof.
  unfold strip_ws. rewrite <- (split_ws_leading sp s).
  set (t := drop_while sp s).
  destruct (take_drop_while sp (reverse t)) as (Ht & Hws).
  apply (f_equal reverse) in Ht.
  rewrite reverse_involutive, reverse_app in Ht.
  rewrite Ht at 2. unfold split_ws.
  rewrite split_go_trailing; [reflexivity |].
  apply Forall_reverse, Hws.
Qed.

Lemma newline_isspace : isspace_byte newline = true.
Proof. reflexivity. Qed.

(** The tokens of the lines, in order, are the tokens of the block. *)
Lemma split_lines_go (s p : bytes) :
  concat ((fun l => bytes_split (bytes_strip l))
            <$> readlines_go s (reverse p))
  = bytes_split (p ++ s).
Proof.
  unfold bytes_split, bytes_strip.
  revert p. induction s as [|c s IH]; intros p; simpl.
  - rewrite app_nil_r. destruct p as [|a p]; [reflexivity |].
    rewrite reverse_cons.
    destruct (reverse p ++ [a]) as [|x l] eqn:Hrev.
    + apply app_eq_nil in Hrev. destruct Hrev as (_ & [=]).
    + simpl is_nil. cbv iota. rewrite <- Hrev, <- reverse_cons.
      rewrite reverse_involutive. simpl.
      rewrite split_ws_strip, app_nil_r. reflexivity.
  - destruct (Byte.eqb c newline) eqn:Heq.
    + apply Byte.byte_dec_bl in Heq. subst c.
      rewrite fmap_cons. simpl concat.
      change [] with (reverse (@nil byte)) at 1.
      rewrite IH. simpl. rewrite split_ws_strip.
      rewrite reverse_cons, reverse_involutive.
      unfold split_ws. rewrite (split_go_cut _ p s [] newline newline_isspace).
      reflexivity.
    + rewrite <- reverse_snoc, IH, <- app_assoc. reflexivity.
Qed.

Lemma split_lines (s : bytes) :
  concat ((fun l => bytes_split (bytes_strip l)) <$> readlines s)
  = bytes_split s.
Proof. apply (split_lines_go s []). Qed.

(** ** The two loops of the decoder *)

Lemma floats_of_cons (p : bytes) (parts : list bytes) :
  floats_of (p :: parts)
  = y ← or_raise ValueError (float_of_bytes p);
    k ← floats_of parts;
    Ok (y :: k).
Proof. reflexivity. Qed.

Lemma floats_of_Ok (parts : list bytes) (vals : list float) :
  floats_of parts = Ok vals
  <-> Forall2 (fun p v => float_of_bytes p = Some v) parts vals.
Proof.
  revert vals.
  induction parts as [|p parts IH]; intros vals; split.
  - intros [= <-]. constructor.
  - intros Hall. inversion Hall. reflexivity.
  - rewrite floats_of_cons. intros Hm. inv_bind Hm. inv_bind Hm.
    injection Hm as <-.
    apply or_raise_Ok in Hx. apply IH in Hx0. constructor; assumption.
  - intros Hall. inversion Hall as [|? v ? vs Hp Hrest]; subst.
    apply IH in Hrest. rewrite floats_of_cons, Hp, Hrest. reflexivity.
Qed.

Lemma read_data_Ok (lines : list bytes) (acc vals : list float) :
  Forall2 (fun p v => float_of_bytes p = Some v)
    (concat ((fun l => bytes_split (bytes_strip l)) <$> lines)) vals ->
  read_data lines acc = Ok (acc ++ vals).
Proof.
  revert acc vals. induction lines as [|l lines IH]; intros acc vals Hall.
  - inversion Hall. simpl. rewrite app_nil_r. reflexivity.
  - rewrite fmap_cons in Hall. simpl concat in Hall.
    apply Forall2_app_inv_l in Hall.
    destruct Hall as (v1 & v2 & Hl & Hrest & ->).
    apply floats_of_Ok in Hl. simpl. rewrite Hl. simpl.
    rewrite (IH _ _ Hrest), app_assoc. reflexivity.
Qed.

Lemma read_header_cons (conv : bool) (raw : bytes) (rest : list bytes)
    (acc : list str) :
  read_header conv (raw :: rest) acc
  = line ← bytes_decode raw;
    if startswith (u "Memo") line
    then hdrdict ← _read_knet_hdr (acc ++ [line]) conv; Ok (hdrdict, rest)
    else read_header conv rest (acc ++ [line]).
Proof. reflexivity. Qed.

Lemma bytes_decode_Ok (raw : bytes) (line : str) :
  utf8_decode raw = Some line -> bytes_decode raw = Ok line.
Proof. intros Hdec. unfold bytes_decode. rewrite Hdec. reflexivity. Qed.

Lemma read_header_no_memo (conv : bool) (lines : list bytes)
    (acc : list str) :
  Forall (fun raw => exists line, passed_over raw line) lines ->
  read_header conv lines acc = Ok (∅, []).
Proof.
  intros Hall. revert acc.
  induction Hall as [|raw lines (line & Hdec & Hmemo) _ IH]; intros acc.
  - reflexivity.
  - rewrite read_header_cons, (bind_step _ _ _ (bytes_decode_Ok _ _ Hdec)).
    rewrite Hmemo. apply IH.
Qed.

Lemma read_header_memo (conv : bool) (pre : list bytes) (hpre : list str)
    (last : bytes) (l : str) (rest : list bytes) (acc : list str) :
  Forall2 passed_over pre hpre ->
  utf8_decode last = Some l -> startswith (u "Memo") l = true ->
  read_header conv (pre ++ last :: rest) acc
  = h ← _read_knet_hdr (acc ++ hpre ++ [l]) conv; Ok (h, rest).
Proof.
  intros Hpre Hdec Hmemo. revert acc.
  induction Hpre as [|raw line pre hpre (Hd & Hm) _ IH]; intros acc.
  - simpl app.
    rewrite read_header_cons, (bind_step _ _ _ (bytes_decode_Ok _ _ Hdec)).
    rewrite Hmemo. reflexivity.
  - simpl app.
    rewrite read_header_cons, (bind_step _ _ _ (bytes_decode_Ok _ _ Hd)).
    rewrite Hm, IH, <- app_assoc. reflexivity.
Qed.

Lemma startswith_inv (name line : str) :
  startswith name line = true -> exists rest, line = name ++ rest.
Proof.
  revert line. induction name as [|a name IH]; intros line; simpl.
  - eauto.
  - destruct line as [|c line]; [discriminate |].
    intros Hsw. apply andb_prop in Hsw. destruct Hsw as (Hac & Hsw).
    apply N.eqb_eq in Hac. subst c.
    destruct (IH _ Hsw) as (rest & ->). eauto.
Qed.

(** Only the last label starts with ['Memo']. *)
Lemma label_memo (i : nat) (name line : str) :
  hdrnames !! i = Some name -> startswith name line = true ->
  startswith (u "Memo") line = bool_decide (i = 16%nat).
Proof.
  intros Hname Hsw. destruct (startswith_inv _ _ Hsw) as (rest & ->).
  do 17 (destruct i as [|i]; [injection Hname as <-; reflexivity |]).
  discriminate.
Qed.

(** The first loop on the lines of a well-formed header. *)
Lemma read_header_well_formed (conv : bool) (ls : list bytes)
    (hl : list str) (h : dict) (rest : list bytes) :
  Forall2 (fun raw line => utf8_decode raw = Some line) ls hl ->
  _read_knet_hdr hl conv = Ok h ->
  read_header conv (ls ++ rest) [] = Ok (h, rest).
Proof.
  intros Hdec Hok.
  destruct (hdr_Ok_labels conv hl h Hok) as (Hlen & Hlab).
  assert (Hmemo : forall i line, hl !! i = Some line ->
             startswith (u "Memo") line = bool_decide (i = 16%nat)).
  { intros i line Hl.
    assert (Hi : (i < length hdrnames)%nat).
    { apply lookup_lt_Some in Hl. rewrite Hlen in Hl. exact Hl. }
    destruct (lookup_lt_is_Some_2 _ _ Hi) as (name & Hname).
    destruct (Hlab i name Hname) as (line' & Hl' & Hsw).
    rewrite Hl in Hl'. injection Hl' as <-.
    apply (label_memo i name line Hname Hsw). }
  assert (Hsplit : hl = take 16 hl ++ drop 16 hl)
    by (symmetry; apply take_drop).
  destruct (drop 16 hl) as [|l [|x t]] eqn:Hdrop;
    try (apply (f_equal length) in Hdrop; rewrite length_drop in Hdrop;
         simpl in Hdrop; lia).
  assert (Hl16 : hl !! 16%nat = Some l).
  { rewrite <- (Nat.add_0_r 16), <- lookup_drop, Hdrop. reflexivity. }
  rewrite Hsplit in Hdec. apply Forall2_app_inv_r in Hdec.
  destruct Hdec as (pre & last & Hpre & Hlast & ->).
  inversion Hlast as [|raw ? tl ? Hraw Htl]; subst.
  inversion Htl; subst.
  rewrite <- app_assoc. simpl.
  rewrite (read_header_memo conv pre (take 16 hl) raw l rest []).
  - simpl. rewrite <- Hsplit, Hok. reflexivity.
  - assert (Hnot : Forall (fun line => startswith (u "Memo") line = false)
                      (take 16 hl)).
    { apply Forall_lookup. intros i line Hline.
      apply lookup_take_Some in Hline. destruct Hline as (Hline & Hi).
      rewrite (Hmemo i line Hline). apply bool_decide_eq_false_2. lia. }
    clear - Hpre Hnot. induction Hpre as [|raw line pre hpre Hd _ IH].
    + constructor.
    + inversion Hnot; subst. constructor; [split; assumption | auto].
  - exact Hraw.
  - rewrite (Hmemo 16%nat l Hl16). reflexivity.
Qed.

(** ** The decoder *)

(** C2. A file made of 17 complete header lines that parse, followed by a
    block of whitespace-delimited tokens that are all floats, decodes to
    one trace: its samples are the floats of the tokens of the block in
    their order, and [npts] is the number of tokens. *)
Theorem decode_samples (ls : list bytes) (block : bytes) (conv : bool)
    (hl : list str) (h : dict) (vals : list float) :
  Forall complete_line ls ->
  Forall2 (fun raw line => utf8_decode raw = Some line) ls hl ->
  _read_knet_hdr hl conv = Ok h ->
  Forall2 (fun tok v => float_of_bytes tok = Some v)
    (bytes_split block) vals ->
  length ls = 17%nat
  /\ length vals = length (bytes_split block)
  /\ _internal_read_knet_ascii (concat ls ++ block) conv
     = Ok [ {| data := vals;
               stats := set_key "network" (VStr (u "BO"))
                          (set_key "npts"
                             (VInt (Z.of_nat (length (bytes_split block))))
                             h) |} ].
Proof.
  intros Hlines Hdec Hok Hvals.
  assert (Hn : length vals = length (bytes_split block))
    by (symmetry; apply (Forall2_length _ _ _ Hvals)).
  split; [| split; [exact Hn |]].
  - rewrite (Forall2_length _ _ _ Hdec).
    apply (hdr_Ok_labels conv hl h Hok).
  - unfold _internal_read_knet_ascii.
    rewrite (readlines_lines _ _ Hlines).
    rewrite (read_header_well_formed conv ls hl h _ Hdec Hok). simpl.
    rewrite (read_data_Ok (readlines block) [] vals)
      by (rewrite split_lines; exact Hvals).
    simpl. rewrite Hn. reflexivity.
Qed.

(** C1. When every line of the stream decodes and none starts
    with ['Memo'], the header is never parsed and decoding does not fail:
    it returns one trace with no samples, whose only entries are [npts = 0]
    and the network code. *)
Theorem decode_without_memo (buf : bytes) (conv : bool) :
  Forall (fun raw => exists line,
            utf8_decode raw = Some line
            /\ startswith (u "Memo") line = false) (readlines buf) ->
  _internal_read_knet_ascii buf conv
  = Ok [ {| data := [];
            stats := set_key "network" (VStr (u "BO"))
                       (set_key "npts" (VInt 0) ∅) |} ].
Proof.
  intros Hall. unfold _internal_read_knet_ascii.
  rewrite (read_header_no_memo conv (readlines buf) [] Hall). reflexivity.
Qed.

(** When the header parse raises, so does the decoder. *)
Lemma decode_header_raise (buf : bytes) (conv : bool) (pre : list bytes)
    (last : bytes) (rest : list bytes) (hpre : list str) (l : str)
    (e : exn) :
  readlines buf = pre ++ last :: rest ->
  Forall2 passed_over pre hpre ->
  utf8_decode last = Some l -> startswith (u "Memo") l = true ->
  _read_knet_hdr (hpre ++ [l]) conv = Raise e ->
  _internal_read_knet_ascii buf conv = Raise e.
Proof.
  intros Hbuf Hpre Hdec Hmemo Hraise. unfold _internal_read_knet_ascii.
  rewrite Hbuf, (read_header_memo conv pre hpre last l rest [] Hpre Hdec Hmemo).
  simpl app. rewrite Hraise. reflexivity.
Qed.

(** C9. The calibration factor is [0.01 * num / denom], where the scale
    factor token splits on [/] into exactly two parts, [num] is the float
    of the leading digit run of the first and [denom] the float of the
    second; it is stored under [calib].  When the split does not give two
    parts, or one of the two floats does not parse, [calibration] raises:
    no header is returned, and the parse and the decoder fail once the
    line is reached. *)
Theorem calibration_factor :
  (forall (eqn : str) (c : float),
     calibration eqn = Ok c <->
     exists num denom n dn,
       split_on 47 eqn = [num; denom]
       /\ float_of_str (take_while is_digit num) = Some n
       /\ float_of_str denom = Some dn
       /\ float_div (float_mul float_0_01 n) dn = Some c)
  /\ (forall eqn : str,
        length (split_on 47 eqn) <> 2%nat ->
        calibration eqn = Raise ValueError)
  /\ (forall eqn num denom : str,
        split_on 47 eqn = [num; denom] ->
        float_of_str (take_while is_digit num) = None
        \/ float_of_str denom = None ->
        calibration eqn = Raise ValueError)
  /\ (forall (hl : list str) (conv : bool) (h : dict),
        _read_knet_hdr hl conv = Ok h ->
        exists line eqn c,
          hl !! 13%nat = Some line /\ str_split line !! 2%nat = Some eqn
          /\ calibration eqn = Ok c
          /\ get_key h "calib" = Some (VFloat c))
  /\ (forall (hl : list str) (conv : bool) (line eqn : str) (e : exn),
        hl !! 13%nat = Some line -> str_split line !! 2%nat = Some eqn ->
        calibration eqn = Raise e ->
        forall h, _read_knet_hdr hl conv <> Ok h)
  /\ (forall (hl : list str) (conv : bool) (d : dict) (line eqn : str)
             (e : exn),
        hdr_prefix 13 hl conv = Ok d -> hl !! 13%nat = Some line ->
        startswith (u "Scale Factor") line = true ->
        str_split line !! 2%nat = Some eqn ->
        calibration eqn = Raise e ->
        _read_knet_hdr hl conv = Raise e)
  /\ (forall (buf : bytes) (conv : bool) (pre : list bytes) (last : bytes)
             (rest : list bytes) (hpre : list str) (l : str) (d : dict)
             (line eqn : str) (e : exn),
        readlines buf = pre ++ last :: rest ->
        Forall2 passed_over pre hpre ->
        utf8_decode last = Some l -> startswith (u "Memo") l = true ->
        hdr_prefix 13 (hpre ++ [l]) conv = Ok d ->
        (hpre ++ [l]) !! 13%nat = Some line ->
        startswith (u "Scale Factor") line = true ->
        str_split line !! 2%nat = Some eqn ->
        calibration eqn = Raise e ->
        _internal_read_knet_ascii buf conv = Raise e)
  /\ calibration (u "2000/8388608")
     = (num ← pyfloat (u "2000");
        denom ← pyfloat (u "8388608");
        or_raise ZeroDivisionError
          (float_div (float_mul float_0_01 num) denom)).
Proof.
  assert (Hhdr : forall (hl : list str) (conv : bool) (d : dict)
                         (line eqn : str) (e : exn),
             hdr_prefix 13 hl conv = Ok d -> hl !! 13%nat = Some line ->
             startswith (u "Scale Factor") line = true ->
             str_split line !! 2%nat = Some eqn ->
             calibration eqn = Raise e ->
             _read_knet_hdr hl conv = Raise e).
  { intros hl conv d line eqn e Hpre Hl Hsw Heqn Hc.
    apply (hdr_raise_at conv hl 13 hdr_calib d e Hpre eq_refl).
    assert (Hp : prep_at hl 13 = Ok (str_split line)).
    { apply prep_at_Ok. exists (u "Scale Factor"), line. auto. }
    unfold hdr_calib. rewrite (bind_step _ _ _ Hp). unfold getitem.
    rewrite Heqn. simpl. rewrite Hc. reflexivity. }
  assert (Hparsed : forall (hl : list str) (conv : bool) (h : dict),
             _read_knet_hdr hl conv = Ok h ->
             exists line eqn c,
               hl !! 13%nat = Some line /\ str_split line !! 2%nat = Some eqn
               /\ calibration eqn = Ok c
               /\ get_key h "calib" = Some (VFloat c)).
  { intros hl conv h Hok.
    destruct (hdr_Ok_at conv hl h 13 hdr_calib Hok eq_refl)
      as (_ & d & d' & _ & Hb & Hf).
    apply hdr_calib_Ok in Hb.
    destruct Hb as (flds & eqn & c & Hp & Heqn & Hc & Hu).
    apply prep_at_Ok in Hp. destruct Hp as (? & line & _ & Hl & _ & ->).
    exists line, eqn, c. repeat (split; [assumption |]).
    change (get_key h "calib") with (read_slot h (Top "calib")).
    rewrite Hf by solve_notin. apply (upd_read _ _ _ _ Hu). }
  split; [exact calibration_Ok |].
  split; [| split; [| split; [| split; [| split; [| split]]]]].
  - intros eqn Hlen. unfold calibration.
    destruct (split_on 47 eqn) as [|num [|denom [|x l]]];
      try reflexivity.
    exfalso. apply Hlen. reflexivity.
  - intros eqn num denom Hsplit Hfail. unfold calibration, pyfloat.
    rewrite Hsplit. unfold leading_digits.
    destruct (float_of_str (take_while is_digit num)) as [n|];
      [| reflexivity].
    destruct Hfail as [Hfail | Hfail]; [discriminate |].
    rewrite Hfail. reflexivity.
  - exact Hparsed.
  - intros hl conv line eqn e Hl Heqn Hc h Hok.
    destruct (Hparsed hl conv h Hok)
      as (line' & eqn' & c & Hl' & Heqn' & Hc' & _).
    rewrite Hl in Hl'. injection Hl' as <-.
    rewrite Heqn in Heqn'. injection Heqn' as <-.
    rewrite Hc in Hc'. discriminate.
  - exact Hhdr.
  - intros buf conv pre last rest hpre l d line eqn e Hbuf Hpre Hdec Hmemo
      Hpfx Hl Hsw Heqn Hc.
    apply (decode_header_raise buf conv pre last rest hpre l e
             Hbuf Hpre Hdec Hmemo).
    apply (Hhdr _ conv d line eqn e Hpfx Hl Hsw Heqn Hc).
  - reflexivity.
Qed.

(** ** Boolean checks for concrete files *)

Lemma is_complete_line_sound (ls : list bytes) :
  forallb is_complete_line ls = true -> Forall complete_line ls.
Proof.
  intros Hall. apply Forall_forall. intros l Hl.
  rewrite forallb_forall in Hall.
  apply list_elem_of_In in Hl. specialize (Hall l Hl).
  unfold is_complete_line in Hall.
  destruct (reverse l) as [|c body] eqn:Hrev; [discriminate |].
  apply andb_prop in Hall. destruct Hall as (Hc & Hbody).
  apply Byte.byte_dec_bl in Hc. subst c.
  exists (reverse body). split.
  - rewrite <- (reverse_involutive l), Hrev, reverse_cons. reflexivity.
  - rewrite elem_of_reverse. intros Hin.
    rewrite forallb_forall in Hbody. apply list_elem_of_In in Hin.
    specialize (Hbody _ Hin).
    rewrite (Byte.byte_dec_lb eq_refl) in Hbody. discriminate.
Qed.

Lemma is_passed_over_sound (lines : list bytes) :
  forallb is_passed_over lines = true ->
  Forall (fun raw => exists line,
            utf8_decode raw = Some line
            /\ startswith (u "Memo") line = false) lines.
Proof.
  intros Hall. apply Forall_forall. intros raw Hraw.
  rewrite forallb_forall in Hall.
  apply list_elem_of_In in Hraw. specialize (Hall raw Hraw).
  unfold is_passed_over in Hall.
  destruct (utf8_decode raw) as [line|]; [| discriminate].
  exists line. split; [reflexivity |].
  apply negb_true_iff, Hall.
Qed.

(** ** The keys of a parsed header *)

(** Two unions of the same sets of keys. *)
Ltac same_keys :=
  apply set_eq; intros ?;
  rewrite ?elem_of_union, ?elem_of_singleton, ?elem_of_empty; tauto.

Lemma shape_init : shape hdr_init ∅ ∅.
Proof.
  unfold shape, hdr_init. split.
  - rewrite dom_singleton_L. same_keys.
  - exists ∅. split; [apply lookup_singleton_eq | apply dom_empty_L].
Qed.

Lemma shape_set_knet (k : string) (v : atom) (d d' : dict)
    (T K : gset string) :
  shape d T K -> set_knet k v d = Ok d' -> shape d' T ({[k]} ∪ K).
Proof.
  intros (Hdom & knet & Hknet & HK). unfold set_knet. rewrite Hknet.
  intros [= <-]. split.
  - rewrite dom_insert_L, Hdom. same_keys.
  - exists (<[k := v]> knet). split; [apply lookup_insert_eq |].
    rewrite dom_insert_L, HK. reflexivity.
Qed.

Lemma shape_set_key (k : string) (v : atom) (d : dict) (T K : gset string) :
  k <> "knet"%string -> shape d T K -> shape (set_key k v d) ({[k]} ∪ T) K.
Proof.
  intros Hk (Hdom & knet & Hknet & HK). unfold set_key. split.
  - rewrite dom_insert_L, Hdom. same_keys.
  - exists knet. split; [| exact HK].
    rewrite lookup_insert_ne by congruence. exact Hknet.
Qed.

Lemma shape_has_knet (d : dict) (T K : gset string) :
  shape d T K -> has_knet d.
Proof. intros (_ & knet & Hknet & _). exists knet. exact Hknet. Qed.

Lemma shape_float (key : string) (pos : nat) (hl : list str) (i : nat)
    (d d' : dict) (T K : gset string) :
  hdr_float key pos hl i d = Ok d' -> shape d T K ->
  shape d' T ({[key]} ∪ K).
Proof.
  intros Hb Hs. unfold hdr_float in Hb. inv_bind Hb. inv_bind Hb. inv_bind Hb.
  apply (shape_set_knet _ _ _ _ _ _ Hs Hb).
Qed.

Lemma shape_evot (hl : list str) (i : nat) (d d' : dict)
    (T K : gset string) :
  hdr_evot hl i d = Ok d' -> shape d T K ->
  shape d' T ({["evot"%string]} ∪ K).
Proof.
  intros Hb Hs. unfold hdr_evot in Hb. inv_bind Hb. inv_bind Hb.
  apply (shape_set_knet _ _ _ _ _ _ Hs Hb).
Qed.

Lemma shape_last_correction (hl : list str) (i : nat) (d d' : dict)
    (T K : gset string) :
  hdr_last_correction hl i d = Ok d' -> shape d T K ->
  shape d' T ({["last correction"%string]} ∪ K).
Proof.
  intros Hb Hs. unfold hdr_last_correction in Hb. inv_bind Hb. inv_bind Hb.
  apply (shape_set_knet _ _ _ _ _ _ Hs Hb).
Qed.

Lemma shape_station (conv : bool) (hl : list str) (i : nat) (d d' : dict)
    (T K : gset string) :
  hdr_station conv hl i d = Ok d' -> shape d T K ->
  shape d' ({["location"%string]} ∪ ({["station"%string]} ∪ T)) K.
Proof.
  intros Hb Hs. unfold hdr_station in Hb. inv_bind Hb. inv_bind Hb.
  destruct (split_station conv _) as [stnm location].
  destruct (7 <? length stnm)%nat; [discriminate |].
  cbv zeta in Hb. injection Hb as <-.
  apply shape_set_key; [discriminate |].
  apply shape_set_key; [discriminate | exact Hs].
Qed.

Lemma shape_starttime (hl : list str) (i : nat) (d d' : dict)
    (T K : gset string) :
  hdr_starttime hl i d = Ok d' -> shape d T K ->
  shape d' ({["starttime"%string]} ∪ T) K.
Proof.
  intros Hb Hs. unfold hdr_starttime in Hb. inv_bind Hb. inv_bind Hb.
  injection Hb as <-. apply shape_set_key; [discriminate | exact Hs].
Qed.

Lemma shape_sampling_rate (hl : list str) (i : nat) (d d' : dict)
    (T K : gset string) :
  hdr_sampling_rate hl i d = Ok d' -> shape d T K ->
  shape d' ({["sampling_rate"%string]} ∪ T) K.
Proof.
  intros Hb Hs. unfold hdr_sampling_rate in Hb.
  inv_bind Hb. inv_bind Hb. inv_bind Hb.
  injection Hb as <-. apply shape_set_key; [discriminate | exact Hs].
Qed.

Lemma shape_channel (hl : list str) (i : nat) (d d' : dict)
    (T K : gset string) :
  hdr_channel hl i d = Ok d' -> shape d T K ->
  shape d' ({["channel"%string]} ∪ T) K.
Proof.
  intros Hb Hs. unfold hdr_channel in Hb. inv_bind Hb. inv_bind Hb.
  injection Hb as <-. apply shape_set_key; [discriminate | exact Hs].
Qed.

Lemma shape_calib (hl : list str) (i : nat) (d d' : dict)
    (T K : gset string) :
  hdr_calib hl i d = Ok d' -> shape d T K ->
  shape d' ({["calib"%string]} ∪ T) K.
Proof.
  intros Hb Hs. unfold hdr_calib in Hb.
  inv_bind Hb. inv_bind Hb. inv_bind Hb.
  injection Hb as <-. apply shape_set_key; [discriminate | exact Hs].
Qed.

Lemma shape_comment (hl : list str) (i : nat) (d d' : dict)
    (T K : gset string) :
  hdr_comment hl i d = Ok d' -> shape d T K ->
  exists flds,
    prep_at hl i = Ok flds
    /\ shape d' T ((if (1 <? length flds)%nat
                    then {["comment"%string]} else ∅) ∪ K).
Proof.
  intros Hb Hs. unfold hdr_comment in Hb. inv_bind Hb.
  exists x. split; [assumption |].
  destruct (1 <? length x)%nat.
  - apply (shape_set_knet _ _ _ _ _ _ Hs Hb).
  - injection Hb as <-. destruct Hs as (Hdom & knet & Hknet & HK).
    split; [exact Hdom |]. exists knet. split; [exact Hknet |].
    rewrite HK. same_keys.
Qed.

(** One block of a successful run: its result has the shape [lem] gives. *)
Ltac shape_next Hx S lem :=
  let d := fresh "d" in
  let Hb := fresh "Hb" in
  apply bind_Ok in Hx; destruct Hx as (d & Hb & Hx);
  eapply lem in Hb; [| exact S]; clear S; rename Hb into S.

(** The keys after the seventeen blocks. *)
Lemma hdr_Ok_shape (hl : list str) (conv : bool) (h : dict) :
  _read_knet_hdr hl conv = Ok h ->
  exists line,
    hl !! 16%nat = Some line
    /\ shape h
         {["station"; "location"; "starttime"; "sampling_rate"; "channel";
           "calib"]}%string
         ({["evot"; "evla"; "evlo"; "evdp"; "mag"; "stla"; "stlo"; "stel";
            "duration"; "accmax"; "last correction"]}%string
          ∪ (if (1 <? length (str_split line))%nat
             then {["comment"%string]} else ∅)).
Proof.
  rewrite read_knet_hdr_blocks. intros Hok. inv_bind Hok.
  destruct (negb (length hl =? 17)%nat); [discriminate |].
  injection Hok as ->. unfold blocks in Hx. cbn [run_blocks] in Hx.
  pose proof shape_init as S.
  shape_next Hx S shape_evot.
  do 4 shape_next Hx S shape_float.
  shape_next Hx S shape_station.
  do 3 shape_next Hx S shape_float.
  shape_next Hx S shape_starttime.
  shape_next Hx S shape_sampling_rate.
  shape_next Hx S shape_float.
  shape_next Hx S shape_channel.
  shape_next Hx S shape_calib.
  shape_next Hx S shape_float.
  shape_next Hx S shape_last_correction.
  shape_next Hx S shape_comment.
  injection Hx as <-. destruct S as (flds & Hp & Hdom & knet & Hknet & HK).
  apply prep_at_Ok in Hp. destruct Hp as (name & line & _ & Hl & _ & ->).
  exists line. split; [exact Hl |]. split.
  - rewrite Hdom. same_keys.
  - exists knet. split; [exact Hknet |]. rewrite HK.
    destruct (1 <? length (str_split line))%nat; same_keys.
Qed.

(** X1. A parsed header has exactly seven keys, ['knet'] and the six
    fields of the trace; under ['knet'] it has the eleven fields of the
    event, the station and the record, and ['comment'] exactly when the
    ['Memo.'] line has more than one token. *)
Theorem header_keys (hl : list str) (conv : bool) (h : dict) :
  _read_knet_hdr hl conv = Ok h ->
  exists line knet,
    hl !! 16%nat = Some line
    /\ dom h = {["knet"; "station"; "location"; "starttime"; "sampling_rate";
                 "channel"; "calib"]}%string
    /\ h !! "knet"%string = Some (Nested knet)
    /\ dom knet
       = {["evot"; "evla"; "evlo"; "evdp"; "mag"; "stla"; "stlo"; "stel";
           "duration"; "accmax"; "last correction"]}%string
         ∪ (if (1 <? length (str_split line))%nat
            then {["comment"%string]} else ∅).
Proof.
  intros Hok.
  destruct (hdr_Ok_shape hl conv h Hok) as (line & Hl & Hdom & knet & Hk & HK).
  exists line, knet. split; [exact Hl |]. split; [| split; assumption].
  rewrite Hdom. same_keys.
Qed.

(** ** The float fields *)

(** One entry of [float_fields], read in a parsed header. *)
Ltac float_field Hok n blk :=
  let Hb := fresh "Hb" in
  let Hf := fresh "Hf" in
  destruct (hdr_Ok_at _ _ _ n blk Hok eq_refl) as (_ & ? & ? & _ & Hb & Hf);
  apply hdr_float_Ok in Hb;
  destruct Hb as (? & ?tok & ?v & Hb & ? & ? & ?Hu);
  apply prep_at_Ok in Hb; destruct Hb as (? & ?line & _ & ? & _ & ->);
  do 3 eexists; repeat (split; [eassumption |]);
  lazymatch goal with
  | |- get_knet ?h ?k = _ => change (get_knet h k) with (read_slot h (Knet k))
  end;
  rewrite Hf by solve_notin; eapply upd_read; eassumption.

(** X2. In a parsed header each of the nine float fields under ['knet']
    is [float] of one token of one line: [evla], [evlo], [evdp], [mag]
    from tokens 1, 1, 2, 1 of lines 1 to 4; [stla], [stlo], [stel] from
    token 2 of lines 6 to 8; [duration] from token 2 of line 11 and
    [accmax] from token 3 of line 14. *)
Theorem header_float_fields (hl : list str) (conv : bool) (h : dict) :
  _read_knet_hdr hl conv = Ok h ->
  Forall (fun '(key, i, pos) =>
            exists line tok x,
              hl !! i = Some line /\ str_split line !! pos = Some tok
              /\ float_of_str tok = Some x
              /\ get_knet h key = Some (VFloat x)) float_fields.
Proof.
  intros Hok. unfold float_fields.
  apply Forall_cons_2; [float_field Hok 1%nat hdr_evla |].
  apply Forall_cons_2; [float_field Hok 2%nat hdr_evlo |].
  apply Forall_cons_2; [float_field Hok 3%nat hdr_evdp |].
  apply Forall_cons_2; [float_field Hok 4%nat hdr_mag |].
  apply Forall_cons_2; [float_field Hok 6%nat hdr_stla |].
  apply Forall_cons_2; [float_field Hok 7%nat hdr_stlo |].
  apply Forall_cons_2; [float_field Hok 8%nat hdr_stel |].
  apply Forall_cons_2; [float_field Hok 11%nat hdr_duration |].
  apply Forall_cons_2; [float_field Hok 14%nat hdr_accmax |].
  apply Forall_nil_2.
Qed.

(** ** The comment *)

Lemma reverse_cons_not_nil {A} (a : A) (l : list A) : reverse (a :: l) <> [].
Proof.
  rewrite reverse_cons. intros Heq. apply app_eq_nil in Heq.
  destruct Heq as (_ & [=]).
Qed.

Lemma split_go_not_nil {A} (sp : A -> bool) (s cur : list A) :
  Forall (fun tok => tok <> []) (split_go sp s cur).
Proof.
  revert cur. induction s as [|c s IH]; intros cur; simpl.
  - destruct cur as [|a cur]; simpl; [constructor |].
    constructor; [apply reverse_cons_not_nil | constructor].
  - destruct (sp c); [| apply IH].
    destruct cur as [|a cur]; simpl; [apply IH |].
    constructor; [apply reverse_cons_not_nil | apply IH].
Qed.

(** The tokens of [s.split()] are not empty. *)
Lemma split_ws_not_nil {A} (sp : A -> bool) (s tok : list A) (i : nat) :
  split_ws sp s !! i = Some tok -> tok <> [].
Proof.
  intros Htok. pose proof (split_go_not_nil sp s []) as Hall.
  rewrite Forall_lookup in Hall. apply (Hall i tok Htok).
Qed.

Lemma split_go_token {A} (sp : A -> bool) (tok rest cur : list A) :
  Forall (fun c => sp c = false) tok ->
  split_go sp (tok ++ rest) cur = split_go sp rest (reverse tok ++ cur).
Proof.
  intros Htok. revert cur.
  induction Htok as [|c tok Hc _ IH]; intros cur; simpl; [reflexivity |].
  rewrite Hc, IH, reverse_cons, <- app_assoc. reflexivity.
Qed.

Lemma split_go_space {A} (sp : A -> bool) (c : A) (rest cur : list A) :
  sp c = true -> cur <> [] ->
  split_go sp (c :: rest) cur = reverse cur :: split_go sp rest [].
Proof.
  intros Hc Hcur. simpl. rewrite Hc.
  destruct cur; [congruence | reflexivity].
Qed.

Lemma split_go_end {A} (sp : A -> bool) (cur : list A) :
  cur <> [] -> split_go sp [] cur = [reverse cur].
Proof. intros Hcur. destruct cur; [congruence | reflexivity]. Qed.

Lemma reverse_not_nil {A} (l : list A) : l <> [] -> reverse l <> [].
Proof.
  intros Hl Hrev. apply Hl.
  rewrite <- (reverse_involutive l), Hrev. reflexivity.
Qed.

(** Tokens joined by one space split into the same tokens. *)
Lemma str_split_join (toks : list str) :
  Forall (fun tok => tok <> []) toks ->
  Forall (Forall (fun c => isspace c = false)) toks ->
  str_split (str_join (u " ") toks) = toks.
Proof.
  unfold str_split, split_ws.
  induction toks as [|tok toks IH]; intros Hne Hns; [reflexivity |].
  apply Forall_cons_1 in Hne, Hns.
  destruct Hne as (Hne & Hnes), Hns as (Hns & Hnss).
  destruct toks as [|tok2 toks].
  - simpl str_join. rewrite <- (app_nil_r tok) at 1.
    rewrite (split_go_token _ _ _ _ Hns), app_nil_r.
    rewrite split_go_end by (apply reverse_not_nil, Hne).
    rewrite reverse_involutive. reflexivity.
  - change (str_join (u " ") (tok :: tok2 :: toks))
      with (tok ++ 32%N :: str_join (u " ") (tok2 :: toks)).
    rewrite (split_go_token _ _ _ _ Hns), app_nil_r.
    rewrite split_go_space by (reflexivity || apply reverse_not_nil, Hne).
    rewrite reverse_involutive, (IH Hnes Hnss). reflexivity.
Qed.

Lemma str_join_not_nil (sep tok : str) (toks : list str) :
  tok <> [] -> str_join sep (tok :: toks) <> [].
Proof.
  intros Hne. destruct toks as [|tok2 toks]; simpl; [exact Hne |].
  intros Heq. apply app_eq_nil in Heq. apply Hne, Heq.
Qed.

(** X3. The comment of a parsed header is the tokens of the ['Memo.']
    line after the first, joined by single spaces; the key is absent when
    the line has one token.  A comment is never empty, and splitting it
    gives back those tokens. *)
Theorem header_comment (hl : list str) (conv : bool) (h : dict) :
  _read_knet_hdr hl conv = Ok h ->
  exists line,
    hl !! 16%nat = Some line
    /\ get_knet h "comment"
       = (if (1 <? length (str_split line))%nat
          then Some (VStr (str_join (u " ") (drop 1 (str_split line))))
          else None)
    /\ forall c, get_knet h "comment" = Some (VStr c) ->
         c <> [] /\ str_split c = drop 1 (str_split line).
Proof.
  intros Hok.
  destruct (hdr_Ok_at conv hl h 16 hdr_comment Hok eq_refl)
    as (_ & d & d' & _ & Hb & Hf).
  destruct (hdr_Ok_shape hl conv h Hok) as (line & Hl & _ & knet & Hk & HK).
  unfold hdr_comment in Hb. inv_bind Hb.
  apply prep_at_Ok in Hx. destruct Hx as (name & line' & _ & Hl' & _ & ->).
  rewrite Hl in Hl'. injection Hl' as <-.
  assert (Hget : get_knet h "comment"
                 = (if (1 <? length (str_split line))%nat
                    then Some (VStr (str_join (u " ")
                                       (drop 1 (str_split line))))
                    else None)).
  { destruct (1 <? length (str_split line))%nat.
    - change (get_knet h "comment") with (read_slot h (Knet "comment")).
      rewrite Hf by solve_notin.
      rewrite (read_slot_set_knet _ _ _ _ _ Hb).
      apply decide_True. reflexivity.
    - unfold get_knet. rewrite Hk. apply not_elem_of_dom. rewrite HK.
      rewrite !elem_of_union, !elem_of_singleton, elem_of_empty.
      intuition discriminate. }
  exists line. split; [exact Hl |]. split; [exact Hget |].
  intros c Hc. rewrite Hget in Hc.
  destruct (1 <? length (str_split line))%nat eqn:Hlen; [| discriminate].
  injection Hc as <-. apply Nat.ltb_lt in Hlen.
  assert (Hne : Forall (fun tok : str => tok <> []) (drop 1 (str_split line))).
  { apply Forall_drop, (split_go_not_nil isspace line []). }
  assert (Hns : Forall (Forall (fun c => isspace c = false))
                  (drop 1 (str_split line))).
  { apply Forall_drop, (split_go_no_space isspace line []). constructor. }
  split; [| apply (str_split_join _ Hne Hns)].
  destruct (drop 1 (str_split line)) as [|tok toks] eqn:Hdrop.
  - apply (f_equal length) in Hdrop. rewrite length_drop in Hdrop.
    simpl in Hdrop. lia.
  - apply str_join_not_nil. apply Forall_cons_1 in Hne. apply Hne.
Qed.

(** ** Station and location together *)

(** X4. In a parsed header the station followed by the location is the
    station token as it stands in the file; the station has between 1 and
    7 characters, the location none or 2 (none when [convert_stnm] is
    off), so the token has at most 9 characters. *)
Theorem station_location_rejoin (hl : list str) (conv : bool) (h : dict) :
  _read_knet_hdr hl conv = Ok h ->
  exists line tok st loc,
    hl !! 5%nat = Some line /\ str_split line !! 2%nat = Some tok
    /\ get_key h "station" = Some (VStr st)
    /\ get_key h "location" = Some (VStr loc)
    /\ st ++ loc = tok
    /\ (1 <= length st <= 7)%nat
    /\ (loc = [] \/ length loc = 2%nat)
    /\ (conv = false -> loc = [])
    /\ (length tok <= 9)%nat.
Proof.
  intros Hok.
  destruct (hdr_Ok_at conv hl h 5 (hdr_station conv) Hok eq_refl)
    as (_ & d & d' & _ & Hb & Hf).
  apply hdr_station_Ok in Hb.
  destruct Hb as (flds & tok & Hp & Htok & Hlen & Hst & Hloc & _).
  apply prep_at_Ok in Hp. destruct Hp as (? & line & _ & Hl & _ & ->).
  pose proof (split_ws_not_nil _ _ _ _ Htok) as Hne.
  exists line, tok, (split_station conv tok).1, (split_station conv tok).2.
  split; [exact Hl |]. split; [exact Htok |].
  split; [| split].
  - change (get_key h "station") with (read_slot h (Top "station")).
    rewrite Hf by solve_notin. exact Hst.
  - change (get_key h "location") with (read_slot h (Top "location")).
    rewrite Hf by solve_notin. exact Hloc.
  - assert (Hlen0 : (0 < length tok)%nat)
      by (destruct tok; [congruence | simpl; lia]).
    revert Hlen. unfold split_station, slice_but_last, slice_last.
    destruct (conv && (5 <? length tok)%nat) eqn:Hcase; simpl fst; simpl snd.
    + apply andb_prop in Hcase. destruct Hcase as (-> & H5).
      apply Nat.ltb_lt in H5. rewrite length_take, length_drop.
      intros Hlen.
      split; [apply take_drop |]. split; [lia |].
      split; [right; lia |]. split; [discriminate | lia].
    + intros Hlen.
      split; [apply app_nil_r |]. split; [lia |].
      split; [left; reflexivity |]. split; [reflexivity | lia].
Qed.

(** ** The sign of the sampling rate *)

Lemma is_digit_range (c : N) :
  is_digit c = true -> 0 <= Z.of_N c - 48 <= 9.
Proof.
  unfold is_digit. intros Hc. apply andb_prop in Hc.
  destruct Hc as (Hlo & Hhi).
  apply N.leb_le in Hlo, Hhi. lia.
Qed.

(** A run of digits has a value of 0 or more, and 0 only when every
    digit is [0]. *)
Lemma digits_value_sign (ds : str) :
  forallb is_digit ds = true ->
  0 <= digits_value ds
  /\ (digits_value ds = 0 <-> Forall (fun c => c = 48%N) ds).
Proof.
  induction ds as [|c ds IH] using rev_ind; intros Hds.
  - split; [reflexivity |]. split; [constructor | reflexivity].
  - rewrite forallb_app in Hds. apply andb_prop in Hds.
    destruct Hds as (Hds & Hc). simpl in Hc. rewrite andb_true_r in Hc.
    destruct (IH Hds) as (Hpos & Hzero).
    pose proof (is_digit_range c Hc) as Hrange.
    rewrite digits_value_snoc. split; [lia |].
    rewrite Forall_app, Forall_singleton, <- Hzero. split.
    + intros Hsum. split; [lia |]. apply N2Z.inj. lia.
    + intros (Hv & ->). rewrite Hv. reflexivity.
Qed.

(** X5. The sampling rate of a parsed header is an integer that is not
    negative; it is 0 exactly when the leading digits of the sampling
    token are all [0]. *)
Theorem sampling_rate_sign (hl : list str) (conv : bool) (h : dict) :
  _read_knet_hdr hl conv = Ok h ->
  exists line freqstr n,
    hl !! 10%nat = Some line /\ str_split line !! 2%nat = Some freqstr
    /\ get_key h "sampling_rate" = Some (VInt n)
    /\ 0 <= n
    /\ (n = 0 <-> Forall (fun c => c = 48%N) (leading_digits freqstr)).
Proof.
  intros Hok.
  destruct (hdr_Ok_at conv hl h 10 hdr_sampling_rate Hok eq_refl)
    as (_ & d & d' & _ & Hb & Hf).
  apply hdr_sampling_rate_Ok in Hb.
  destruct Hb as (flds & freqstr & freq & Hp & Htok & Hint & Hu).
  apply prep_at_Ok in Hp. destruct Hp as (? & line & _ & Hl & _ & ->).
  exists line, freqstr, freq. split; [exact Hl |]. split; [exact Htok |].
  split.
  - change (get_key h "sampling_rate")
      with (read_slot h (Top "sampling_rate")).
    rewrite Hf by solve_notin. apply (upd_read _ _ _ _ Hu).
  - unfold int_of_digits in Hint.
    destruct (is_nil (leading_digits freqstr)); [discriminate |].
    destruct (forallb is_digit (leading_digits freqstr)) eqn:Hds;
      [| discriminate].
    injection Hint as <-. apply (digits_value_sign _ Hds).
Qed.

(** ** The characters of the channel code *)

(** X6. The channel of a parsed header contains no hyphen and no
    whitespace. *)
Theorem channel_code_characters (hl : list str) (conv : bool) (h : dict) :
  _read_knet_hdr hl conv = Ok h ->
  exists ch,
    get_key h "channel" = Some (VStr ch)
    /\ Forall (fun c => c <> 45%N /\ isspace c = false) ch.
Proof.
  intros Hok.
  destruct (hdr_Ok_at conv hl h 12 hdr_channel Hok eq_refl)
    as (_ & d & d' & _ & Hb & Hf).
  apply hdr_channel_Ok in Hb. destruct Hb as (flds & tok & Hp & Htok & Hu).
  apply prep_at_Ok in Hp. destruct Hp as (? & line & _ & Hl & _ & ->).
  pose proof (split_ws_no_space _ _ _ _ Htok) as Hns.
  exists (channel_code tok). split.
  - change (get_key h "channel") with (read_slot h (Top "channel")).
    rewrite Hf by solve_notin. apply (upd_read _ _ _ _ Hu).
  - rewrite (channel_code_table tok Hns). unfold remap_by_table.
    repeat (case_bool_decide;
            [repeat constructor; (discriminate || reflexivity) |]).
    apply Forall_forall. intros c Hc. apply list_elem_of_filter in Hc.
    destruct Hc as (Hc & Hin). split; [exact Hc |].
    rewrite Forall_forall in Hns. apply (Hns c Hin).
Qed.

(** ** The exceptions of the header parse *)

Lemma or_raise_exn {A} (e0 e : exn) (o : option A) :
  or_raise e0 o = Raise e -> e = e0.
Proof. destruct o; simpl; congruence. Qed.

Lemma getitem_exn {A} (hl : list str) (l : list A) (i : nat) (e : exn) :
  getitem l i = Raise e -> block_exn hl e.
Proof. intros Hg. apply or_raise_exn in Hg. left. exact Hg. Qed.

Lemma pyfloat_exn (hl : list str) (s : str) (e : exn) :
  pyfloat s = Raise e -> block_exn hl e.
Proof. intros Hf. apply or_raise_exn in Hf. right. left. exact Hf. Qed.

Lemma read_time_exn (hl : list str) (flds : list str) (e : exn) :
  read_time flds = Raise e -> block_exn hl e.
Proof.
  unfold read_time. intros Hr. split_raise Hr.
  - apply (getitem_exn _ _ _ _ Hr).
  - apply (getitem_exn _ _ _ _ Hr).
  - apply or_raise_exn in Hr. right. left. exact Hr.
Qed.

Lemma int_of_digits_exn (hl : list str) (ds : str) (e : exn) :
  int_of_digits ds = Raise e -> block_exn hl e.
Proof.
  unfold int_of_digits. destruct (is_nil ds), (forallb is_digit ds);
    intros [= <-]; right; left; reflexivity.
Qed.

Lemma calibration_exn (hl : list str) (eqn : str) (e : exn) :
  calibration eqn = Raise e -> block_exn hl e.
Proof.
  unfold calibration.
  destruct (split_on 47 eqn) as [|num [|denom [|x l]]];
    try (intros [= <-]; right; left; reflexivity).
  intros Hc. split_raise Hc.
  - apply (pyfloat_exn _ _ _ Hc).
  - apply (pyfloat_exn _ _ _ Hc).
  - apply or_raise_exn in Hc. right. right. left. exact Hc.
Qed.

Lemma prep_at_exn (hl : list str) (i : nat) (e : exn) :
  prep_at hl i = Raise e -> block_exn hl e.
Proof.
  unfold prep_at. intros Hp.
  apply bind_Raise_inv in Hp. destruct Hp as [Hp | (name & Hn & Hp)].
  { apply (getitem_exn _ _ _ _ Hp). }
  apply bind_Raise_inv in Hp. destruct Hp as [Hp | (line & Hl & Hp)].
  { apply (getitem_exn _ _ _ _ Hp). }
  unfold _prep_hdr_line in Hp.
  destruct (startswith name line) eqn:Hsw; simpl in Hp; [discriminate |].
  injection Hp as <-. apply getitem_Ok in Hn, Hl.
  do 4 right. exists i, name, line. auto.
Qed.

Lemma set_knet_exn (hl : list str) (k : string) (v : atom) (d : dict)
    (e : exn) :
  has_knet d -> set_knet k v d = Raise e -> block_exn hl e.
Proof. intros (knet & Hk). unfold set_knet. rewrite Hk. discriminate. Qed.

Lemma set_knet_has_knet (k : string) (v : atom) (d d' : dict) :
  set_knet k v d = Ok d' -> has_knet d'.
Proof.
  unfold set_knet.
  destruct (d !! "knet"%string) as [[a|knet]|]; try discriminate.
  intros [= <-]. eexists. apply lookup_insert_eq.
Qed.

Lemma set_key_has_knet (k : string) (v : atom) (d : dict) :
  k <> "knet"%string -> has_knet d -> has_knet (set_key k v d).
Proof.
  intros Hk (knet & Hknet). exists knet. unfold set_key.
  rewrite lookup_insert_ne by congruence. exact Hknet.
Qed.

(** Closes [block_exn hl e] from the failure of one step of a block. *)
Ltac leaf_exn :=
  eauto using getitem_exn, pyfloat_exn, read_time_exn, int_of_digits_exn,
    calibration_exn, prep_at_exn, set_knet_exn.

(** Closes [has_knet d'] for the result [d'] of a block. *)
Ltac keeps_knet Hb :=
  repeat inv_bind Hb;
  first [ apply (set_knet_has_knet _ _ _ _ Hb)
        | injection Hb as <-;
          repeat (apply set_key_has_knet; [discriminate |]); assumption ].

(** Every block keeps [hdrdict['knet']] a dictionary and raises only the
    exceptions of [block_exn]. *)
Lemma blocks_exn (conv : bool) :
  Forall (fun blk => forall hl i d, has_knet d ->
            (forall d', blk hl i d = Ok d' -> has_knet d')
            /\ (forall e, blk hl i d = Raise e -> block_exn hl e))
    (blocks conv).
Proof.
  unfold blocks.
  repeat first [apply Forall_nil_2 | apply Forall_cons_2];
    intros hl i d Hd;
    unfold hdr_evot, hdr_evla, hdr_evlo, hdr_evdp, hdr_mag, hdr_station,
      hdr_stla, hdr_stlo, hdr_stel, hdr_starttime, hdr_sampling_rate,
      hdr_duration, hdr_channel, hdr_calib, hdr_accmax, hdr_last_correction,
      hdr_comment, hdr_float;
    (split; [intros d' Hb | intros e Hb; split_raise Hb; leaf_exn]);
    try (keeps_knet Hb; fail); try discriminate.
  - inv_bind Hb. inv_bind Hb.
    destruct (split_station conv x0) as [stnm location].
    destruct (7 <? length stnm)%nat; [discriminate |].
    cbv zeta in Hb. keeps_knet Hb.
  - destruct (split_station conv _) as [stnm location].
    destruct (7 <? length stnm)%nat; [| discriminate].
    injection Hb as <-. do 3 right. left. reflexivity.
  - inv_bind Hb. destruct (1 <? length x)%nat; keeps_knet Hb.
  - destruct (1 <? length _)%nat; [leaf_exn | discriminate].
Qed.

Lemma run_blocks_exn (bs : list (list str -> nat -> dict -> result dict))
    (hl : list str) :
  Forall (fun blk => forall hl i d, has_knet d ->
            (forall d', blk hl i d = Ok d' -> has_knet d')
            /\ (forall e, blk hl i d = Raise e -> block_exn hl e)) bs ->
  forall i d e, has_knet d ->
    run_blocks bs hl i d = Raise e -> block_exn hl e.
Proof.
  induction 1 as [|blk bs Hblk _ IH]; intros i d e Hd Hrun.
  - discriminate.
  - simpl in Hrun. destruct (Hblk hl i d Hd) as (Hkeep & Hexn).
    apply bind_Raise_inv in Hrun.
    destruct Hrun as [Hrun | (d' & Hd' & Hrun)]; eauto.
Qed.

(** X7. When [_read_knet_hdr] raises, the exception is an [IndexError],
    a [ValueError], a [ZeroDivisionError] or one of the three
    [KNETException]s of the module (a label that does not match, a station
    name that is too long, a wrong number of lines); it is never a
    [KeyError], a [TypeError] or a [UnicodeDecodeError]. *)
Theorem header_exceptions (hl : list str) (conv : bool) (e : exn) :
  _read_knet_hdr hl conv = Raise e ->
  header_exn hl e
  /\ e <> KeyError /\ e <> TypeError /\ e <> UnicodeDecodeError.
Proof.
  intros Hraise.
  assert (Hexn : header_exn hl e).
  { rewrite read_knet_hdr_blocks in Hraise. apply bind_Raise_inv in Hraise.
    destruct Hraise as [Hraise | (d & _ & Hraise)].
    - left. apply (run_blocks_exn _ hl (blocks_exn conv) _ _ _
                     (shape_has_knet _ _ _ shape_init) Hraise).
    - destruct (negb (length hl =? 17)%nat); [| discriminate].
      injection Hraise as <-. right. reflexivity. }
  split; [exact Hexn |].
  destruct Hexn
    as [[-> | [-> | [-> | [-> | (? & ? & ? & _ & _ & _ & ->)]]]] | ->];
    repeat split; discriminate.
Qed.

(** ** Lines and tokens that are not there *)

(** X8. A list of fewer than 17 lines, all of which are read without
    error, makes the parse fail with [IndexError] when the next line is
    indexed: the count of lines is not what is reported. *)
Theorem header_short_list (hl : list str) (conv : bool) (d : dict) :
  (length hl < 17)%nat -> hdr_prefix (length hl) hl conv = Ok d ->
  _read_knet_hdr hl conv = Raise IndexError.
Proof.
  intros Hlen Hpre.
  assert (Hn : (length hl < length (blocks conv))%nat) by exact Hlen.
  destruct (lookup_lt_is_Some_2 _ _ Hn) as (blk & Hblk).
  apply (hdr_raise_at conv hl (length hl) blk d _ Hpre Hblk).
  pose proof (blocks_prep conv) as Hall. rewrite Forall_lookup in Hall.
  destruct (Hall _ _ Hblk hl (length hl) d) as (Hraise & _).
  apply Hraise. unfold prep_at, getitem.
  assert (Hi : (length hl < length hdrnames)%nat) by exact Hlen.
  destruct (lookup_lt_is_Some_2 _ _ Hi) as (name & ->). simpl.
  rewrite (lookup_ge_None_2 hl (length hl)) by lia. reflexivity.
Qed.

(** X9. A line that starts with its label but has fewer tokens than its
    block indexes makes the parse fail with [IndexError], once the lines
    before it have been read. *)
Theorem header_missing_token (hl : list str) (conv : bool) (i n : nat)
    (d : dict) (name line : str) :
  hdr_prefix i hl conv = Ok d ->
  hdrnames !! i = Some name -> hl !! i = Some line ->
  startswith name line = true ->
  tokens_read !! i = Some n -> (length (str_split line) < n)%nat ->
  _read_knet_hdr hl conv = Raise IndexError.
Proof.
  intros Hpre Hname Hl Hsw Hn Hlen.
  assert (Hp : prep_at hl i = Ok (str_split line)).
  { apply prep_at_Ok. exists name, line. auto. }
  assert (Hi : (i < length (blocks conv))%nat).
  { apply lookup_lt_Some in Hname. exact Hname. }
  destruct (lookup_lt_is_Some_2 _ _ Hi) as (blk & Hblk).
  apply (hdr_raise_at conv hl i blk d _ Hpre Hblk).
  do 17 (destruct i as [|i];
         [ injection Hblk as <-; injection Hn as <-;
           unfold hdr_evot, hdr_evla, hdr_evlo, hdr_evdp, hdr_mag,
             hdr_station, hdr_stla, hdr_stlo, hdr_stel, hdr_starttime,
             hdr_sampling_rate, hdr_duration, hdr_channel, hdr_calib,
             hdr_accmax, hdr_last_correction, hdr_comment, hdr_float,
             read_time;
           rewrite (bind_step _ _ _ Hp);
           destruct (str_split line) as [|t0 [|t1 [|t2 [|t3 ts]]]];
           simpl in Hlen; try lia; reflexivity
         |]).
  simpl in Hi. lia.
Qed.

(** ** Whitespace at the end of a line *)

Lemma startswith_app (name l ws : str) :
  startswith name l = true -> startswith name (l ++ ws) = true.
Proof.
  revert l. induction name as [|a name IH]; intros l; simpl; [reflexivity |].
  destruct l as [|c l]; [discriminate |]. simpl.
  intros Hsw. apply andb_prop in Hsw. destruct Hsw as (-> & Hsw).
  apply IH, Hsw.
Qed.

Lemma prep_at_padded (hl hl' : list str) (i : nat) (flds : list str) :
  Forall2 padded hl hl' ->
  prep_at hl i = Ok flds -> prep_at hl' i = Ok flds.
Proof.
  intros Hpad Hp. apply prep_at_Ok in Hp.
  destruct Hp as (name & line & Hn & Hl & Hsw & ->).
  destruct (Forall2_lookup_l _ _ _ _ _ Hpad Hl)
    as (line' & Hl' & ws & -> & Hws).
  apply prep_at_Ok. exists name, (line ++ ws).
  split; [exact Hn |]. split; [exact Hl' |].
  split; [apply startswith_app, Hsw |].
  unfold str_split, split_ws. symmetry. apply split_go_trailing, Hws.
Qed.

(** A block looks at the lines only through [prep_at]. *)
Lemma blocks_through_prep (conv : bool) :
  Forall (fun blk => forall hl hl' i d d',
            (forall flds, prep_at hl i = Ok flds -> prep_at hl' i = Ok flds) ->
            blk hl i d = Ok d' -> blk hl' i d = Ok d')
    (blocks conv).
Proof.
  unfold blocks.
  repeat first [apply Forall_nil_2 | apply Forall_cons_2];
    intros hl hl' i d d' Hprep Hb;
    unfold hdr_evot, hdr_evla, hdr_evlo, hdr_evdp, hdr_mag, hdr_station,
      hdr_stla, hdr_stlo, hdr_stel, hdr_starttime, hdr_sampling_rate,
      hdr_duration, hdr_channel, hdr_calib, hdr_accmax, hdr_last_correction,
      hdr_comment, hdr_float in Hb |- *;
    inv_bind Hb; rewrite (bind_step _ _ _ (Hprep _ Hx)); exact Hb.
Qed.

Lemma run_blocks_through_prep
    (bs : list (list str -> nat -> dict -> result dict))
    (hl hl' : list str) :
  Forall (fun blk => forall hl hl' i d d',
            (forall flds, prep_at hl i = Ok flds -> prep_at hl' i = Ok flds) ->
            blk hl i d = Ok d' -> blk hl' i d = Ok d') bs ->
  (forall i flds, prep_at hl i = Ok flds -> prep_at hl' i = Ok flds) ->
  forall i d d', run_blocks bs hl i d = Ok d' -> run_blocks bs hl' i d = Ok d'.
Proof.
  intros Hall Hprep.
  induction Hall as [|blk bs Hblk _ IH]; intros i d d' Hrun; [exact Hrun |].
  simpl in Hrun |- *. inv_bind Hrun.
  rewrite (bind_step _ _ _ (Hblk hl hl' i d x (Hprep i) Hx)).
  apply IH, Hrun.
Qed.

(** X10. Whitespace added at the end of header lines (a carriage return
    before the newline, blanks, no newline at all) does not change the
    header that is parsed. *)
Theorem header_trailing_whitespace (hl hl' : list str) (conv : bool)
    (h : dict) :
  Forall2 padded hl hl' ->
  _read_knet_hdr hl conv = Ok h -> _read_knet_hdr hl' conv = Ok h.
Proof.
  intros Hpad. rewrite !read_knet_hdr_blocks. intros Hok. inv_bind Hok.
  rewrite (bind_step _ _ _
             (run_blocks_through_prep _ hl hl' (blocks_through_prep conv)
                (fun i flds => prep_at_padded hl hl' i flds Hpad) _ _ _ Hx)).
  rewrite <- (Forall2_length _ _ _ Hpad). exact Hok.
Qed.

(** ** The decoder, line by line *)

Lemma read_header_Ok (conv : bool) (lines : list bytes) (acc : list str)
    (h : dict) (rest : list bytes) :
  read_header conv lines acc = Ok (h, rest) ->
  (Forall (fun raw => exists line, passed_over raw line) lines
   /\ h = ∅ /\ rest = [])
  \/ exists pre hpre last l,
       lines = pre ++ last :: rest /\ Forall2 passed_over pre hpre
       /\ utf8_decode last = Some l /\ startswith (u "Memo") l = true
       /\ _read_knet_hdr (acc ++ hpre ++ [l]) conv = Ok h.
Proof.
  revert acc. induction lines as [|raw lines IH]; intros acc.
  - simpl. intros [= <- <-]. left. auto.
  - rewrite read_header_cons. intros Hr. inv_bind Hr.
    apply or_raise_Ok in Hx.
    destruct (startswith (u "Memo") x) eqn:Hmemo.
    + inv_bind Hr. injection Hr as <- <-. right.
      exists [], [], raw, x. repeat (split; [auto; constructor |]). exact Hx0.
    + destruct (IH _ Hr)
        as [(Hall & -> & ->)
           | (pre & hpre & last & l & -> & Hpre & Hdec & Hm & Hok)].
      * left. split; [| auto]. constructor; [| exact Hall].
        exists x. split; assumption.
      * right. exists (raw :: pre), (x :: hpre), last, l.
        rewrite <- app_assoc in Hok.
        split; [reflexivity |].
        split; [constructor; [split; assumption | exact Hpre] |].
        auto.
Qed.

Lemma floats_of_app (p1 p2 : list bytes) :
  floats_of (p1 ++ p2)
  = v1 ← floats_of p1; v2 ← floats_of p2; Ok (v1 ++ v2).
Proof.
  induction p1 as [|p p1 IH].
  - simpl app. change (floats_of []) with (@Ok (list float) []). simpl.
    destruct (floats_of p2); reflexivity.
  - simpl app. rewrite !floats_of_cons, IH.
    destruct (or_raise ValueError (float_of_bytes p)); simpl; [| reflexivity].
    destruct (floats_of p1); simpl; [| reflexivity].
    destruct (floats_of p2); reflexivity.
Qed.

(** The second loop gives the floats of all the tokens, or fails as the
    first bad token does. *)
Lemma read_data_tokens (lines : list bytes) (acc : list float) :
  read_data lines acc
  = vals ← floats_of (sample_tokens lines); Ok (acc ++ vals).
Proof.
  unfold sample_tokens. revert acc.
  induction lines as [|l lines IH]; intros acc.
  - simpl. rewrite app_nil_r. reflexivity.
  - rewrite fmap_cons. simpl concat. rewrite floats_of_app. simpl read_data.
    destruct (floats_of (bytes_split (bytes_strip l))) as [v1|e]; simpl;
      [| reflexivity].
    rewrite IH.
    destruct (floats_of (concat _)) as [v2|e]; simpl; [| reflexivity].
    rewrite app_assoc. reflexivity.
Qed.

Lemma floats_of_raise (parts : list bytes) (e : exn) :
  floats_of parts = Raise e -> e = ValueError.
Proof.
  induction parts as [|p parts IH]; [discriminate |].
  rewrite floats_of_cons. intros Hf. split_raise Hf.
  - apply (or_raise_exn _ _ _ Hf).
  - apply IH, Hf.
  - discriminate.
Qed.

Lemma floats_of_bad (parts : list bytes) :
  Exists (fun tok => float_of_bytes tok = None) parts ->
  floats_of parts = Raise ValueError.
Proof.
  intros Hbad. destruct (floats_of parts) as [vals|e] eqn:Hf.
  - exfalso. apply floats_of_Ok in Hf.
    induction Hf as [|p v parts vals Hp _ IH]; inversion Hbad; subst; auto.
    congruence.
  - f_equal. apply (floats_of_raise _ _ Hf).
Qed.

(** X11. The first line that starts with ['Memo'] ends the header: the
    decoder is the header parse of the decoded lines up to and including
    it, followed by [float] of every token of the lines after it; an
    exception of either is the exception of the decoder. *)
Theorem decode_at_first_memo (buf : bytes) (conv : bool) (pre : list bytes)
    (hpre : list str) (last : bytes) (l : str) (rest : list bytes) :
  readlines buf = pre ++ last :: rest ->
  Forall2 passed_over pre hpre ->
  utf8_decode last = Some l -> startswith (u "Memo") l = true ->
  _internal_read_knet_ascii buf conv
  = hdrdict ← _read_knet_hdr (hpre ++ [l]) conv;
    data ← floats_of (sample_tokens rest);
    Ok [ {| data := data;
            stats := set_key "network" (VStr (u "BO"))
                       (set_key "npts" (VInt (Z.of_nat (length data)))
                          hdrdict) |} ].
Proof.
  intros Hbuf Hpre Hdec Hmemo. unfold _internal_read_knet_ascii.
  rewrite Hbuf, (read_header_memo conv pre hpre last l rest [] Hpre Hdec Hmemo).
  simpl app. destruct (_read_knet_hdr (hpre ++ [l]) conv) as [h|e]; simpl;
    [| reflexivity].
  rewrite read_data_tokens.
  destruct (floats_of (sample_tokens rest)); reflexivity.
Qed.

(** X12. A decoding that succeeds returns one trace, with [npts] the
    number of its samples and the network ['BO'], in one of two ways:
    no line starts with ['Memo'], and the trace has no other field and no
    sample; or the first such line is the 17th line of the stream and
    starts with ['Memo.'], the other fields are the header parsed from the
    first 17 lines, and the samples are the floats of all the tokens of
    the lines after them, in order. *)
Theorem decode_success (buf : bytes) (conv : bool) (st : list Trace) :
  _internal_read_knet_ascii buf conv = Ok st ->
  exists hdr vals,
    st = [ {| data := vals;
              stats := set_key "network" (VStr (u "BO"))
                         (set_key "npts" (VInt (Z.of_nat (length vals)))
                            hdr) |} ]
    /\ ((hdr = ∅ /\ vals = []
         /\ Forall (fun raw => exists line, passed_over raw line)
              (readlines buf))
        \/ exists pre hpre last l rest,
             readlines buf = pre ++ last :: rest
             /\ length pre = 16%nat
             /\ Forall2 passed_over pre hpre
             /\ utf8_decode last = Some l
             /\ startswith (u "Memo.") l = true
             /\ _read_knet_hdr (hpre ++ [l]) conv = Ok hdr
             /\ Forall2 (fun tok v => float_of_bytes tok = Some v)
                  (sample_tokens rest) vals).
Proof.
  unfold _internal_read_knet_ascii. intros Hok. inv_bind Hok.
  destruct x as [hdr rest]. inv_bind Hok. injection Hok as <-.
  rewrite read_data_tokens in Hx0. inv_bind Hx0. injection Hx0 as <-.
  simpl app. exists hdr, x0. split; [reflexivity |].
  destruct (read_header_Ok _ _ _ _ _ Hx)
    as [(Hall & -> & ->)
       | (pre & hpre & last & l & Hbuf & Hpre & Hdec & Hmemo & Hhdr)].
  - left. split; [reflexivity |]. split; [| exact Hall].
    inversion Hx1. reflexivity.
  - right. simpl app in Hhdr. exists pre, hpre, last, l, rest.
    destruct (hdr_Ok_labels conv _ _ Hhdr) as (Hlen & Hlab).
    rewrite length_app in Hlen. simpl in Hlen.
    pose proof (Forall2_length _ _ _ Hpre) as Hlen'.
    destruct (Hlab 16%nat (u "Memo.") eq_refl) as (line & Hline & Hsw).
    rewrite lookup_app_r in Hline by lia.
    replace (16 - length hpre)%nat with 0%nat in Hline by lia.
    injection Hline as <-.
    split; [exact Hbuf |]. split; [lia |].
    repeat (split; [assumption |]).
    apply floats_of_Ok, Hx1.
Qed.

(** X13. When the header is parsed and a token after it is not a float,
    decoding fails with [ValueError]; no trace is returned. *)
Theorem decode_bad_sample (buf : bytes) (conv : bool) (pre : list bytes)
    (hpre : list str) (last : bytes) (l : str) (rest : list bytes)
    (h : dict) :
  readlines buf = pre ++ last :: rest ->
  Forall2 passed_over pre hpre ->
  utf8_decode last = Some l -> startswith (u "Memo") l = true ->
  _read_knet_hdr (hpre ++ [l]) conv = Ok h ->
  Exists (fun tok => float_of_bytes tok = None) (sample_tokens rest) ->
  _internal_read_knet_ascii buf conv = Raise ValueError.
Proof.
  intros Hbuf Hpre Hdec Hmemo Hok Hbad. unfold _internal_read_knet_ascii.
  rewrite Hbuf, (read_header_memo conv pre hpre last l rest [] Hpre Hdec Hmemo).
  simpl app. rewrite Hok. simpl.
  rewrite read_data_tokens, (floats_of_bad _ Hbad). reflexivity.
Qed.

Lemma read_header_undecodable (conv : bool) (pre : list bytes)
    (hpre : list str) (bad : bytes) (rest : list bytes) (acc : list str) :
  Forall2 passed_over pre hpre -> utf8_decode bad = None ->
  read_header conv (pre ++ bad :: rest) acc = Raise UnicodeDecodeError.
Proof.
  intros Hpre Hbad. revert acc.
  induction Hpre as [|raw line pre hpre (Hd & Hm) _ IH]; intros acc.
  - simpl app. rewrite read_header_cons. unfold bytes_decode.
    rewrite Hbad. reflexivity.
  - simpl app.
    rewrite read_header_cons, (bind_step _ _ _ (bytes_decode_Ok _ _ Hd)).
    rewrite Hm. apply IH.
Qed.

(** X14. A line that is not UTF-8 and comes before any line starting
    with ['Memo'] makes decoding fail with [UnicodeDecodeError]. *)
Theorem decode_undecodable_line (buf : bytes) (conv : bool)
    (pre : list bytes) (hpre : list str) (bad : bytes) (rest : list bytes) :
  readlines buf = pre ++ bad :: rest ->
  Forall2 passed_over pre hpre -> utf8_decode bad = None ->
  _internal_read_knet_ascii buf conv = Raise UnicodeDecodeError.
Proof.
  intros Hbuf Hpre Hbad. unfold _internal_read_knet_ascii.
  rewrite Hbuf, (read_header_undecodable conv pre hpre bad rest [] Hpre Hbad).
  reflexivity.
Qed.

(** ** With and without [convert_stnm] *)

Lemma set_knet_sim (k : string) (v : atom) (d e d' : dict) :
  same_but_station d e -> set_knet k v d = Ok d' ->
  exists e', set_knet k v e = Ok e' /\ same_but_station d' e'.
Proof.
  intros R. unfold set_knet. rewrite <- (R "knet"%string) by discriminate.
  destruct (d !! "knet"%string) as [[a|knet]|]; try discriminate.
  intros [= <-]. eexists. split; [reflexivity |].
  intros k' Hs Hl. destruct (decide (k' = "knet"%string)) as [->|Hne].
  - rewrite !lookup_insert_eq. reflexivity.
  - rewrite !lookup_insert_ne by congruence. apply R; assumption.
Qed.

Lemma set_key_sim (k : string) (v : atom) (d e : dict) :
  same_but_station d e -> same_but_station (set_key k v d) (set_key k v e).
Proof.
  intros R k' Hs Hl. unfold set_key.
  destruct (decide (k' = k)) as [->|Hne].
  - rewrite !lookup_insert_eq. reflexivity.
  - rewrite !lookup_insert_ne by congruence. apply R; assumption.
Qed.

(** Replays on the goal the successful steps found in the hypotheses. *)
Ltac replay :=
  repeat match goal with
         | H : ?m = Ok ?x |- context [?m ≫= _] =>
             rewrite (bind_step _ _ _ H); cbv beta
         end.

(** Closes a block that ends in [set_knet]. *)
Ltac sim_set_knet R Hb :=
  let e' := fresh "e'" in
  let He := fresh "He" in
  let R' := fresh "R'" in
  destruct (set_knet_sim _ _ _ _ _ R Hb) as (e' & He & R');
  exists e'; split; [replay; exact He | exact R'].

(** Closes a block that ends in [set_key]. *)
Ltac sim_set_key R Hb :=
  injection Hb as <-; eexists; split; [replay; reflexivity |];
  repeat apply set_key_sim; exact R.

(** A block other than the station block does the same to two
    dictionaries that agree but for the station. *)
Lemma blocks_sim (conv : bool) :
  Forall (fun blk => forall hl i d e d',
            same_but_station d e -> blk hl i d = Ok d' ->
            exists e', blk hl i e = Ok e' /\ same_but_station d' e')
    (take 5 (blocks conv) ++ drop 6 (blocks conv)).
Proof.
  unfold blocks. cbn [take drop app].
  repeat first [apply Forall_nil_2 | apply Forall_cons_2];
    intros hl i d e d' R Hb;
    unfold hdr_evot, hdr_evla, hdr_evlo, hdr_evdp, hdr_mag,
      hdr_stla, hdr_stlo, hdr_stel, hdr_starttime, hdr_sampling_rate,
      hdr_duration, hdr_channel, hdr_calib, hdr_accmax, hdr_last_correction,
      hdr_comment, hdr_float in Hb |- *;
    repeat inv_bind Hb;
    first [ sim_set_knet R Hb | sim_set_key R Hb | idtac ].
  destruct (1 <? length x)%nat eqn:Hlen.
  - destruct (set_knet_sim _ _ _ _ _ R Hb) as (e' & He & R').
    exists e'. split; [replay; rewrite Hlen; exact He | exact R'].
  - injection Hb as <-. exists e. split; [replay; rewrite Hlen |]; auto.
Qed.

Lemma run_blocks_sim (bs : list (list str -> nat -> dict -> result dict))
    (hl : list str) :
  Forall (fun blk => forall hl i d e d',
            same_but_station d e -> blk hl i d = Ok d' ->
            exists e', blk hl i e = Ok e' /\ same_but_station d' e') bs ->
  forall i d e d', same_but_station d e -> run_blocks bs hl i d = Ok d' ->
    exists e', run_blocks bs hl i e = Ok e' /\ same_but_station d' e'.
Proof.
  induction 1 as [|blk bs Hblk _ IH]; intros i d e d' R Hrun.
  - injection Hrun as <-. exists e. auto.
  - simpl in Hrun |- *. inv_bind Hrun.
    destruct (Hblk hl i d e x R Hx) as (e1 & He1 & R1).
    rewrite He1. simpl. apply (IH _ _ _ _ R1 Hrun).
Qed.

(** A station that fits without conversion fits with it. *)
Lemma hdr_station_sim (hl : list str) (i : nat) (d d' : dict) :
  hdr_station false hl i d = Ok d' ->
  exists e', hdr_station true hl i d = Ok e' /\ same_but_station d' e'.
Proof.
  unfold hdr_station. intros Hb. inv_bind Hb. inv_bind Hb.
  unfold split_station in Hb |- *. simpl andb in Hb. cbv iota zeta in Hb.
  destruct (7 <? length x0)%nat eqn:Hlen; [discriminate |].
  injection Hb as <-.
  replay. simpl andb.
  destruct (5 <? length x0)%nat; cbv iota zeta.
  - unfold slice_but_last. rewrite length_take.
    apply Nat.ltb_ge in Hlen.
    destruct (7 <? _)%nat eqn:Hlen'; [apply Nat.ltb_lt in Hlen'; lia |].
    eexists. split; [reflexivity |].
    intros k Hs Hl. unfold set_key.
    rewrite !lookup_insert_ne by congruence. reflexivity.
  - rewrite Hlen.
    eexists. split; [reflexivity |]. intros k _ _. reflexivity.
Qed.

(** X15. A header that is parsed without [convert_stnm] is parsed with
    it as well; the two results agree on every key but ['station'] and
    ['location'], and the station without conversion is the station with
    conversion followed by the location. *)
Theorem convert_stnm_accepts_more (hl : list str) (h : dict) :
  _read_knet_hdr hl false = Ok h ->
  exists h' st loc,
    _read_knet_hdr hl true = Ok h'
    /\ same_but_station h h'
    /\ get_key h' "station" = Some (VStr st)
    /\ get_key h' "location" = Some (VStr loc)
    /\ get_key h "station" = Some (VStr (st ++ loc))
    /\ get_key h "location" = Some (VStr []).
Proof.
  intros Hok.
  assert (Hsim : exists h', _read_knet_hdr hl true = Ok h'
                            /\ same_but_station h h').
  { revert Hok. rewrite !read_knet_hdr_blocks. intros Hok. inv_bind Hok.
    destruct (negb (length hl =? 17)%nat); [discriminate |].
    injection Hok as ->.
    change (blocks false)
      with (take 5 (blocks false) ++ hdr_station false :: drop 6 (blocks false))
      in Hx.
    rewrite run_blocks_app in Hx. inv_bind Hx.
    change (hdr_station false hl 5 x
              ≫= run_blocks (drop 6 (blocks false)) hl 6 = Ok h) in Hx.
    inv_bind Hx.
    destruct (hdr_station_sim _ _ _ _ Hx1) as (e1 & He1 & R1).
    pose proof (blocks_sim false) as Hall. apply Forall_app in Hall.
    destruct (run_blocks_sim _ hl (proj2 Hall) _ _ _ _ R1 Hx)
      as (h' & Hh' & R').
    exists h'. split; [| exact R'].
    change (blocks true)
      with (take 5 (blocks false) ++ hdr_station true :: drop 6 (blocks false)).
    rewrite run_blocks_app, Hx0.
    change ((hdr_station true hl 5 x
               ≫= run_blocks (drop 6 (blocks false)) hl 6)
              ≫= (fun d => Ok d) = Ok h').
    rewrite He1.
    change (run_blocks (drop 6 (blocks false)) hl 6 e1 ≫= (fun d => Ok d)
            = Ok h').
    rewrite Hh'. reflexivity. }
  destruct Hsim as (h' & Hok' & R).
  destruct (hdr_Ok_at false hl h 5 (hdr_station false) Hok eq_refl)
    as (_ & d & d1 & _ & Hb & Hf).
  destruct (hdr_Ok_at true hl h' 5 (hdr_station true) Hok' eq_refl)
    as (_ & d' & d1' & _ & Hb' & Hf').
  apply hdr_station_Ok in Hb, Hb'.
  destruct Hb as (flds & tok & Hp & Htok & _ & Hst & Hloc & _).
  destruct Hb' as (flds' & tok' & Hp' & Htok' & _ & Hst' & Hloc' & _).
  rewrite Hp in Hp'. injection Hp' as <-.
  rewrite Htok in Htok'. injection Htok' as <-.
  exists h', (split_station true tok).1, (split_station true tok).2.
  split; [exact Hok' |]. split; [exact R |].
  change (get_key h' "station") with (read_slot h' (Top "station")).
  change (get_key h' "location") with (read_slot h' (Top "location")).
  change (get_key h "station") with (read_slot h (Top "station")).
  change (get_key h "location") with (read_slot h (Top "location")).
  rewrite !Hf, !Hf' by solve_notin.
  split; [exact Hst' |]. split; [exact Hloc' |].
  split; [| exact Hloc].
  rewrite Hst. do 2 f_equal. unfold split_station, slice_but_last, slice_last.
  simpl andb. destruct (5 <? length tok)%nat; simpl.
  - symmetry. apply take_drop.
  - symmetry. apply app_nil_r.
Qed.

(** ** The first line that fails *)

Lemma prep_at_same_line (hl hl' : list str) (i : nat) :
  hl' !! i = hl !! i -> prep_at hl' i = prep_at hl i.
Proof. intros Heq. unfold prep_at, getitem. rewrite Heq. reflexivity. Qed.

(** A block reads the lines only through [prep_at], also when it fails. *)
Lemma blocks_prep_eq (conv : bool) :
  Forall (fun blk => forall hl hl' i d,
            prep_at hl' i = prep_at hl i -> blk hl' i d = blk hl i d)
    (blocks conv).
Proof.
  unfold blocks.
  repeat first [apply Forall_nil_2 | apply Forall_cons_2];
    intros hl hl' i d Heq;
    unfold hdr_evot, hdr_evla, hdr_evlo, hdr_evdp, hdr_mag, hdr_station,
      hdr_stla, hdr_stlo, hdr_stel, hdr_starttime, hdr_sampling_rate,
      hdr_duration, hdr_channel, hdr_calib, hdr_accmax, hdr_last_correction,
      hdr_comment, hdr_float;
    rewrite Heq; reflexivity.
Qed.

Lemma run_blocks_same_lines
    (bs : list (list str -> nat -> dict -> result dict))
    (hl hl' : list str) :
  Forall (fun blk => forall hl hl' i d,
            prep_at hl' i = prep_at hl i -> blk hl' i d = blk hl i d) bs ->
  forall i d,
    (forall j, (i <= j < i + length bs)%nat -> hl' !! j = hl !! j) ->
    run_blocks bs hl' i d = run_blocks bs hl i d.
Proof.
  induction 1 as [|blk bs Hblk _ IH]; intros i d Hsame; [reflexivity |].
  simpl in Hsame |- *.
  rewrite (Hblk hl hl' i d)
    by (apply prep_at_same_line, Hsame; lia).
  destruct (blk hl i d) as [d'|e]; simpl; [| reflexivity].
  apply IH. intros j Hj. apply Hsame. lia.
Qed.

(** X16. The first line whose block fails decides the exception of the
    parse: when the first [n] lines are read and line [n] fails with [e],
    every list of lines with the same first [n + 1] lines fails with [e],
    whatever follows them. *)
Theorem header_first_failure (hl hl' : list str) (conv : bool) (n : nat)
    (d : dict) (e : exn) :
  hdr_prefix n hl conv = Ok d -> hdr_prefix (S n) hl conv = Raise e ->
  take (S n) hl' = take (S n) hl ->
  _read_knet_hdr hl' conv = Raise e.
Proof.
  intros Hpre Hfail Htake.
  destruct (blocks conv !! n) as [blk|] eqn:Hblk.
  2:{ exfalso. apply lookup_ge_None in Hblk. unfold hdr_prefix in Hpre, Hfail.
      rewrite take_ge in Hpre, Hfail by lia. congruence. }
  rewrite (hdr_prefix_S n hl conv blk Hblk), Hpre in Hfail. simpl in Hfail.
  assert (Hsame : forall j, (j <= n)%nat -> hl' !! j = hl !! j).
  { intros j Hj.
    rewrite <- (lookup_take_lt hl' (S n) j), <- (lookup_take_lt hl (S n) j)
      by lia.
    rewrite Htake. reflexivity. }
  pose proof (blocks_prep_eq conv) as Hall.
  apply (hdr_raise_at conv hl' n blk d e).
  - rewrite <- Hpre. unfold hdr_prefix.
    apply run_blocks_same_lines; [apply Forall_take, Hall |].
    intros j Hj. rewrite length_take in Hj. apply Hsame. lia.
  - exact Hblk.
  - rewrite Forall_lookup in Hall.
    rewrite (Hall _ _ Hblk hl hl' n d); [exact Hfail |].
    apply prep_at_same_line, Hsame. lia.
Qed.

(** ** A ['Memo'] line out of place *)

(** The lines on which the seventeen blocks succeed start with their
    labels. *)
Lemma hdr_prefix_labels (hl : list str) (conv : bool) (d : dict) :
  hdr_prefix 17 hl conv = Ok d ->
  forall i name, hdrnames !! i = Some name ->
    exists line, hl !! i = Some line /\ startswith name line = true.
Proof.
  intros Hpre i name Hname.
  assert (Hi : (i < length (blocks conv))%nat).
  { apply lookup_lt_Some in Hname. exact Hname. }
  destruct (lookup_lt_is_Some_2 _ _ Hi) as (blk & Hblk).
  rewrite hdr_prefix_all in Hpre.
  rewrite <- (take_drop_middle _ _ _ Hblk), run_blocks_app in Hpre.
  inv_bind Hpre. simpl in Hpre. inv_bind Hpre.
  rewrite length_take, Nat.min_l in Hx0 by lia.
  pose proof (blocks_prep conv) as Hall. rewrite Forall_lookup in Hall.
  destruct (Hall _ _ Hblk hl i x) as (_ & Hprep).
  destruct (Hprep _ Hx0) as (flds & Hflds).
  apply prep_at_Ok in Hflds.
  destruct Hflds as (name' & line & Hn' & Hl & Hsw & _).
  rewrite Hname in Hn'. injection Hn' as <-. eauto.
Qed.

(** Header lines that end at the first line starting with ['Memo'] are
    seventeen when the seventeen blocks succeed on them. *)
Lemma first_memo_17 (hpre : list str) (l : str) (conv : bool) (d : dict) :
  Forall (fun line => startswith (u "Memo") line = false) hpre ->
  startswith (u "Memo") l = true ->
  hdr_prefix 17 (hpre ++ [l]) conv = Ok d ->
  length (hpre ++ [l]) = 17%nat.
Proof.
  intros Hnot Hmemo Hpre.
  destruct (hdr_prefix_labels _ _ _ Hpre 16%nat (u "Memo.") eq_refl)
    as (line & Hline & Hsw).
  pose proof (label_memo 16 (u "Memo.") line eq_refl Hsw) as Hm.
  rewrite bool_decide_eq_true_2 in Hm by reflexivity.
  rewrite length_app. simpl.
  destruct (decide (16 < length hpre)%nat) as [Hlt|Hge].
  - rewrite lookup_app_l in Hline by lia.
    rewrite Forall_lookup in Hnot. rewrite (Hnot _ _ Hline) in Hm.
    discriminate.
  - apply lookup_lt_Some in Hline. rewrite length_app in Hline.
    simpl in Hline. lia.
Qed.

Lemma read_header_raise (conv : bool) (lines : list bytes) (acc : list str)
    (e : exn) :
  read_header conv lines acc = Raise e ->
  e = UnicodeDecodeError
  \/ exists pre hpre last l rest,
       lines = pre ++ last :: rest /\ Forall2 passed_over pre hpre
       /\ utf8_decode last = Some l /\ startswith (u "Memo") l = true
       /\ _read_knet_hdr (acc ++ hpre ++ [l]) conv = Raise e.
Proof.
  revert acc. induction lines as [|raw lines IH]; intros acc; [discriminate |].
  rewrite read_header_cons. intros Hr.
  apply bind_Raise_inv in Hr. destruct Hr as [Hr | (x & Hx & Hr)].
  { left. apply (or_raise_exn _ _ _ Hr). }
  apply or_raise_Ok in Hx.
  destruct (startswith (u "Memo") x) eqn:Hmemo.
  - apply bind_Raise_inv in Hr. destruct Hr as [Hr | (h & _ & Hr)];
      [| discriminate].
    right. exists [], [], raw, x, lines.
    split; [reflexivity |]. split; [constructor |]. auto.
  - destruct (IH _ Hr)
      as [-> | (pre & hpre & last & l & rest & -> & Hpre & Hdec & Hm & Hraise)];
      [left; reflexivity |].
    right. exists (raw :: pre), (x :: hpre), last, l, rest.
    rewrite <- app_assoc in Hraise.
    split; [reflexivity |].
    split; [constructor; [split; assumption | exact Hpre] |]. auto.
Qed.

Lemma passed_over_not_memo (pre : list bytes) (hpre : list str) :
  Forall2 passed_over pre hpre ->
  Forall2 (fun raw line => utf8_decode raw = Some line) pre hpre
  /\ Forall (fun line => startswith (u "Memo") line = false) hpre.
Proof.
  induction 1 as [|raw line pre hpre (Hd & Hm) _ (IH1 & IH2)];
    split; constructor; assumption.
Qed.

(** The exceptions of the blocks are not the one of the count of lines. *)
Lemma block_exn_not_count (hl : list str) (e : exn) (n : nat) :
  block_exn hl e -> e <> KNETException (count_msg 17 n).
Proof.
  intros [-> | [-> | [-> | [-> | (i & name & line & _ & _ & _ & ->)]]]];
    try discriminate;
    intros [= Heq]; vm_compute in Heq; discriminate.
Qed.

(** X17. When the decoder raises, the exception is a [UnicodeDecodeError]
    or one of the exceptions of the header blocks on decoded lines from the
    start of the stream (which include the [ValueError] of a sample that is
    not a float).  It is never the [KNETException] that reports the number
    of header lines: [_read_knet_hdr] is given the lines up to the first
    one that starts with ['Memo'], and on such lines the seventeen blocks
    succeed only when there are seventeen of them. *)
Theorem decode_exceptions (buf : bytes) (conv : bool) (e : exn) :
  _internal_read_knet_ascii buf conv = Raise e ->
  (e = UnicodeDecodeError
   \/ exists raws hl,
        raws `prefix_of` readlines buf
        /\ Forall2 (fun raw line => utf8_decode raw = Some line) raws hl
        /\ block_exn hl e)
  /\ (forall n, e <> KNETException (count_msg 17 n))
  /\ e <> KeyError /\ e <> TypeError.
Proof.
  intros Hraise.
  assert (Hexn : e = UnicodeDecodeError
                 \/ exists raws hl,
                      raws `prefix_of` readlines buf
                      /\ Forall2 (fun raw line => utf8_decode raw = Some line)
                           raws hl
                      /\ block_exn hl e).
  { unfold _internal_read_knet_ascii in Hraise.
    apply bind_Raise_inv in Hraise.
    destruct Hraise as [Hraise | ((hdr & rest) & _ & Hraise)].
    - apply read_header_raise in Hraise.
      destruct Hraise
        as [Heq | (pre & hpre & last & l & rest & Hbuf & Hpre & Hdec & Hmemo
                   & Hraise)]; [left; exact Heq |].
      right. exists (pre ++ [last]), (hpre ++ [l]).
      destruct (passed_over_not_memo _ _ Hpre) as (Hdecs & Hnot).
      split; [exists rest; rewrite Hbuf, <- app_assoc; reflexivity |].
      split; [apply Forall2_app; [exact Hdecs | constructor; auto] |].
      simpl app in Hraise. rewrite read_knet_hdr_blocks in Hraise.
      apply bind_Raise_inv in Hraise.
      destruct Hraise as [Hraise | (d & Hd & Hraise)].
      + apply (run_blocks_exn _ _ (blocks_exn conv) _ _ _
                 (shape_has_knet _ _ _ shape_init) Hraise).
      + exfalso.
        destruct (length (hpre ++ [l]) =? 17)%nat eqn:Hlen; simpl in Hraise;
          [discriminate |].
        apply Nat.eqb_neq in Hlen.
        apply Hlen, (first_memo_17 hpre l conv d Hnot Hmemo).
        rewrite hdr_prefix_all. exact Hd.
    - simpl in Hraise. rewrite read_data_tokens in Hraise.
      apply bind_Raise_inv in Hraise.
      destruct Hraise as [Hraise | (data & _ & Hraise)]; [| discriminate].
      apply bind_Raise_inv in Hraise.
      destruct Hraise as [Hraise | (vals & _ & Hraise)]; [| discriminate].
      apply floats_of_raise in Hraise. subst e.
      right. exists [], []. split; [apply prefix_nil |].
      split; [constructor |]. right. left. reflexivity. }
  split; [exact Hexn |].
  destruct Hexn as [-> | (raws & hl & _ & _ & Hblk)].
  - repeat split; discriminate.
  - split; [intros n; apply (block_exn_not_count hl e n Hblk) |].
    destruct Hblk
      as [-> | [-> | [-> | [-> | (? & ? & ? & _ & _ & _ & ->)]]]];
      split; discriminate.
Qed.

(** X18. When the first line that starts with ['Memo'] is not the 17th
    line of the stream, and the lines before the place where the header
    goes wrong are read without error, decoding fails with the label
    mismatch of that place: an early ['Memo'] line is reported against
    the label expected at its position, and a late one leaves the 17th
    line to be reported against ['Memo.']. *)
Theorem decode_misplaced_memo (buf : bytes) (conv : bool) (pre : list bytes)
    (hpre : list str) (last : bytes) (l : str) (rest : list bytes)
    (name line : str) (d : dict) :
  readlines buf = pre ++ last :: rest ->
  Forall2 passed_over pre hpre ->
  utf8_decode last = Some l -> startswith (u "Memo") l = true ->
  length pre <> 16%nat ->
  hdrnames !! (length pre `min` 16)%nat = Some name ->
  (hpre ++ [l]) !! (length pre `min` 16)%nat = Some line ->
  hdr_prefix (length pre `min` 16) (hpre ++ [l]) conv = Ok d ->
  _internal_read_knet_ascii buf conv
  = Raise (KNETException (u "Expected line to start with " ++ name
                          ++ u " but got " ++ line ++ u " ")).
Proof.
  intros Hbuf Hpre Hdec Hmemo Hlen Hname Hline Hpfx.
  pose proof (Forall2_length _ _ _ Hpre) as Hlen'.
  assert (Hsw : startswith name line = false).
  { destruct (startswith name line) eqn:Hsw; [| reflexivity]. exfalso.
    pose proof (label_memo _ name line Hname Hsw) as Hm.
    destruct (decide (length pre < 16)%nat) as [Hlt|Hge].
    - rewrite Nat.min_l in Hline, Hm by lia.
      rewrite lookup_app_r in Hline by lia.
      replace (length pre - length hpre)%nat with 0%nat in Hline by lia.
      injection Hline as <-.
      rewrite bool_decide_eq_false_2 in Hm by lia. congruence.
    - rewrite Nat.min_r in Hline, Hm by lia.
      rewrite lookup_app_l in Hline by lia.
      destruct (Forall2_lookup_r _ _ _ _ _ Hpre Hline) as (raw & _ & _ & Hno).
      rewrite bool_decide_eq_true_2 in Hm by reflexivity. congruence. }
  apply (decode_header_raise buf conv pre last rest hpre l _
           Hbuf Hpre Hdec Hmemo).
  assert (Hi : (length pre `min` 16 < length (blocks conv))%nat).
  { apply lookup_lt_Some in Hname. exact Hname. }
  destruct (lookup_lt_is_Some_2 _ _ Hi) as (blk & Hblk).
  apply (hdr_raise_at conv _ _ blk d _ Hpfx Hblk).
  pose proof (blocks_prep conv) as Hall. rewrite Forall_lookup in Hall.
  destruct (Hall _ _ Hblk (hpre ++ [l]) (length pre `min` 16)%nat d)
    as (Hraise & _).
  apply Hraise, prep_at_mismatch; assumption.
Qed.

End ReaderProofs.

(** * Worked examples on the sample file *)

Import Binary64 Codec.

(** C1, counterexample: a file cut off before its [Memo.] line has no line
    starting with ['Memo'], and decoding it returns a trace. *)
Lemma truncated_file_returns_trace :
  Forall (fun raw => exists line,
            utf8_decode raw = Some line
            /\ startswith (u "Memo") line = false)
    (readlines Sample.truncated)
  /\ _internal_read_knet_ascii Sample.truncated false
     = Ok [ {| data := [];
               stats := set_key "network" (VStr (u "BO"))
                          (set_key "npts" (VInt 0) ∅) |} ].
Proof.
  split.
  - apply is_passed_over_sound. vm_compute. reflexivity.
  - reflexivity.
Qed.

(** C1 on the file cut off before its [Memo.] line. *)
Lemma decode_without_memo_witness :
  _internal_read_knet_ascii Sample.truncated true
  = Ok [ {| data := [];
            stats := set_key "network" (VStr (u "BO"))
                       (set_key "npts" (VInt 0) ∅) |} ].
Proof.
  apply decode_without_memo.
  apply is_passed_over_sound. vm_compute. reflexivity.
Defined.

(** C2 on the sample file: six tokens, six samples. *)
Lemma decode_samples_witness :
  length (bytes_split Sample.samples) = 6%nat
  /\ _internal_read_knet_ascii Sample.file false
     = Ok [ {| data := Sample.values;
               stats := set_key "network" (VStr (u "BO"))
                          (set_key "npts" (VInt 6) Sample.parsed) |} ].
Proof.
  split; [reflexivity |].
  apply (decode_samples (Sample.file_lines Sample.header) Sample.samples
           false Sample.hdrlines Sample.parsed Sample.values).
  - apply is_complete_line_sound. vm_compute. reflexivity.
  - apply mapM_Some. vm_compute. reflexivity.
  - reflexivity.
  - apply floats_of_Ok. reflexivity.
Defined.

(** C3 on the sample file, on a stream of 10 characters, and on bytes
    that are Latin-1 but not UTF-8: as a binary stream with UTF-8 given,
    with no encoding given, with Latin-1 given, and as a Latin-1 text
    stream with UTF-8 given. *)
Lemma sniffer_witness :
  _internal_is_knet_ascii (H := whole_content) (BytesIO Sample.file) None
  = Ok true
  /\ _internal_is_knet_ascii (H := whole_content)
       (BytesIO (b "Origin Tim")) (Some UTF_8) = Ok false
  /\ _internal_is_knet_ascii (H := whole_content)
       (BytesIO (b "Origin Time" ++ [xff])) (Some UTF_8) = Ok false
  /\ _internal_is_knet_ascii (H := whole_content)
       (BytesIO (b "Origin Time" ++ [xff])) None = Ok false
  /\ _internal_is_knet_ascii (H := whole_content)
       (BytesIO (b "Origin Time" ++ [xff])) (Some LATIN_1) = Ok true
  /\ _internal_is_knet_ascii (H := whole_content)
       (@TextIO whole_content LATIN_1 (b "Origin Time" ++ [xff]))
       (Some UTF_8) = Ok true.
Proof.
  split; [| split; [| split; [| split; [| split]]]].
  - apply (sniffer_matches_origin_time (H := whole_content)
             (BytesIO Sample.file) None).
    reflexivity.
  - apply (proj1 (proj2 (proj2 (sniffer_matches_origin_time
                                  (H := whole_content)
                                  (BytesIO (b "Origin Tim")) (Some UTF_8))))
             (u "Origin Tim")); [reflexivity | vm_compute; lia].
  - apply (proj1 (proj2 (sniffer_matches_origin_time (H := whole_content)
                           (BytesIO (b "Origin Time" ++ [xff]))
                           (Some UTF_8)))).
    reflexivity.
  - apply (proj1 (proj2 (sniffer_matches_origin_time (H := whole_content)
                           (BytesIO (b "Origin Time" ++ [xff])) None))).
    reflexivity.
  - apply (sniffer_matches_origin_time (H := whole_content)
             (BytesIO (b "Origin Time" ++ [xff])) (Some LATIN_1)).
    reflexivity.
  - apply (sniffer_matches_origin_time (H := whole_content)
             (@TextIO whole_content LATIN_1 (b "Origin Time" ++ [xff]))
             (Some UTF_8)).
    reflexivity.
Defined.

(** C4, counterexample: the second line does not start with [Lat.], yet
    the parse fails on the first line, which lacks its time token, with an
    [IndexError] and no header-mismatch exception. *)
Lemma label_mismatch_preempted :
  hdrnames !! 1%nat = Some (u "Lat.")
  /\ Sample.swapped_short_origin !! 1%nat
     = Some (u "Long.             142.860" ++ [10%N])
  /\ startswith (u "Lat.") (u "Long.             142.860" ++ [10%N]) = false
  /\ _read_knet_hdr Sample.swapped_short_origin false = Raise IndexError
  /\ forall msg, _read_knet_hdr Sample.swapped_short_origin false
                 <> Raise (KNETException msg).
Proof.
  assert (Hraise : _read_knet_hdr Sample.swapped_short_origin false
                   = Raise IndexError) by reflexivity.
  repeat split; try reflexivity.
  intros msg. rewrite Hraise. discriminate.
Qed.

(** C4 on the sample header with its [Lat.] and [Long.] lines swapped. *)
Lemma header_label_mismatch_witness :
  _read_knet_hdr Sample.swapped false
  = Raise (KNETException
             (u "Expected line to start with " ++ u "Lat."
              ++ u " but got " ++ (u "Long.             142.860" ++ [10%N])
              ++ u " ")).
Proof.
  apply (proj2 (header_label_mismatch Sample.swapped false 1 (u "Lat.")
                  (u "Long.             142.860" ++ [10%N])
                  eq_refl eq_refl eq_refl)
           (Sample.the (hdr_prefix 1 Sample.swapped false))).
  reflexivity.
Defined.

(** C5, counterexample: a header of 16 lines fails with [IndexError], and
    a header of 18 lines whose second line has the wrong label fails with
    the header-mismatch exception; neither reports the line count. *)
Lemma line_count_not_reported :
  length (take 16 Sample.hdrlines) = 16%nat
  /\ _read_knet_hdr (take 16 Sample.hdrlines) false = Raise IndexError
  /\ length (Sample.swapped ++ [u "extra"]) = 18%nat
  /\ _read_knet_hdr (Sample.swapped ++ [u "extra"]) false
     = Raise (KNETException
                (u "Expected line to start with " ++ u "Lat."
                 ++ u " but got "
                 ++ (u "Long.             142.860" ++ [10%N]) ++ u " "))
  /\ _read_knet_hdr (Sample.swapped ++ [u "extra"]) false
     <> Raise (KNETException (u "Expected 17 header lines but got 18")).
Proof.
  assert (Hraise : _read_knet_hdr (Sample.swapped ++ [u "extra"]) false
                   = Raise (KNETException
                              (u "Expected line to start with " ++ u "Lat."
                               ++ u " but got "
                               ++ (u "Long.             142.860" ++ [10%N])
                               ++ u " "))) by reflexivity.
  repeat split; try reflexivity.
  rewrite Hraise. intros [= Heq].
Qed.

(** C5 on the sample header followed by one more line. *)
Lemma header_line_count_witness :
  length (Sample.hdrlines ++ [u "extra"]) = 18%nat
  /\ _read_knet_hdr (Sample.hdrlines ++ [u "extra"]) false
     = Raise (KNETException (u "Expected 17 header lines but got "
                             ++ format_d 18)).
Proof.
  split; [reflexivity |].
  apply (proj2 (proj2 (header_line_count (Sample.hdrlines ++ [u "extra"])
                         false))
           (Sample.the (hdr_prefix 17 (Sample.hdrlines ++ [u "extra"])
                          false))).
  - reflexivity.
  - discriminate.
Defined.

(** Replaces a variable bound by a hypothesis over text by its value. *)
Ltac concrete H := vm_compute in H; injection H as <-.

(** C6 on the sample header, whose record time is 2011/03/11 14:46:45. *)
Lemma header_timestamps_witness :
  _read_knet_hdr Sample.hdrlines false = Ok Sample.parsed
  /\ strptime (u "2011/03/11 05:46:30") = Ok {| timestamp := 1299822390 |}
  /\ get_key Sample.parsed "starttime"
     = Some (VTime {| timestamp := 1299822390 |})
  /\ get_knet Sample.parsed "evot"
     = Some (VTime {| timestamp := 1299822360 |})
  /\ get_knet Sample.parsed "last correction"
     = Some (VTime {| timestamp := 1299822390 |}).
Proof.
  assert (Hok : _read_knet_hdr Sample.hdrlines false = Ok Sample.parsed)
    by reflexivity.
  destruct (proj1 header_timestamps _ _ _ Hok)
    as (l0 & l9 & l15 & d0 & t0 & d9 & t9 & d15 & t15 & dt0 & dt9 & dt15
        & Hl0 & Hl9 & Hl15 & Hd0 & Ht0 & Hd9 & Ht9 & Hd15 & Ht15
        & Hs0 & Hs9 & Hs15 & Hevot & Hstart & Hlast).
  concrete Hl0. concrete Hl9. concrete Hl15.
  concrete Hd0. concrete Ht0. concrete Hd9. concrete Ht9.
  concrete Hd15. concrete Ht15.
  concrete Hs0. concrete Hs9. concrete Hs15.
  split; [exact Hok |]. split; [reflexivity |].
  split; [exact Hstart |]. split; [exact Hevot | exact Hlast].
Defined.

(** C7 on station codes of 8 and of 10 characters, with conversion. *)
Lemma station_code_split_witness :
  get_key (Sample.the (_read_knet_hdr (Sample.with_station "ABCDEFGH") true))
    "station" = Some (VStr (u "ABCDEF"))
  /\ get_key
       (Sample.the (_read_knet_hdr (Sample.with_station "ABCDEFGH") true))
       "location" = Some (VStr (u "GH"))
  /\ _read_knet_hdr (Sample.with_station "ABCDEFGHIJ") true
     = Raise (KNETException
                (u "Station name can't be more than 7 characters long!")).
Proof.
  assert (Hok : _read_knet_hdr (Sample.with_station "ABCDEFGH") true
                = Ok (Sample.the (_read_knet_hdr
                                    (Sample.with_station "ABCDEFGH") true)))
    by reflexivity.
  destruct (proj1 (station_code_split _ _) _ Hok)
    as (line & tok & Hl & Htok & Hst & Hloc & _).
  concrete Hl. concrete Htok.
  split; [exact Hst |]. split; [exact Hloc |].
  apply (proj2 (proj1 (proj2 (proj2 (station_code_split
                                (Sample.with_station "ABCDEFGHIJ") true)))
                  (Sample.the (hdr_prefix 5
                                 (Sample.with_station "ABCDEFGHIJ") true))
                  (u "Station Code      ABCDEFGHIJ" ++ [10%N])
                  (u "ABCDEFGHIJ")
                  eq_refl eq_refl eq_refl eq_refl)).
  vm_compute. lia.
Defined.

(** C8 on the directions [N-S] and [3]. *)
Lemma channel_code_remap_witness :
  get_key Sample.parsed "channel" = Some (VStr (u "NS"))
  /\ get_key (Sample.the (_read_knet_hdr (Sample.with_dir "3") false))
       "channel" = Some (VStr (u "UD1")).
Proof.
  split.
  - assert (Hok : _read_knet_hdr Sample.hdrlines false = Ok Sample.parsed)
      by reflexivity.
    destruct (proj1 channel_code_remap _ _ _ Hok)
      as (line & tok & Hl & Htok & Hch).
    concrete Hl. concrete Htok. exact Hch.
  - assert (Hok : _read_knet_hdr (Sample.with_dir "3") false
                  = Ok (Sample.the (_read_knet_hdr (Sample.with_dir "3")
                                      false)))
      by reflexivity.
    destruct (proj1 channel_code_remap _ _ _ Hok)
      as (line & tok & Hl & Htok & Hch).
    concrete Hl. concrete Htok. exact Hch.
Defined.

(** C9 on the scale factors [2000(gal)/8388608] and [2000(gal)]. *)
Lemma calibration_factor_witness :
  calibration (u "2000(gal)/8388608")
  = Ok (S754_finite false 5629499534213120 (-71))
  /\ get_key Sample.parsed "calib"
     = Some (VFloat (S754_finite false 5629499534213120 (-71)))
  /\ _internal_read_knet_ascii
       (concat (Sample.file_lines
                  (<[13%nat := "Scale Factor      2000(gal)"%string]>
                     Sample.header))
        ++ Sample.samples) false
     = Raise ValueError.
Proof.
  assert (Hcal : calibration (u "2000(gal)/8388608")
                 = Ok (S754_finite false 5629499534213120 (-71))).
  { apply (proj2 (proj1 (calibration_factor (H := binary64))
                    (u "2000(gal)/8388608")
                    (S754_finite false 5629499534213120 (-71)))).
    exists (u "2000(gal)"), (u "8388608").
    eexists. eexists. repeat split; reflexivity. }
  split; [exact Hcal |]. split.
  - assert (Hok : _read_knet_hdr Sample.hdrlines false = Ok Sample.parsed)
      by reflexivity.
    destruct (proj1 (proj2 (proj2 (proj2 calibration_factor))) _ _ _ Hok)
      as (line & eqn & c & Hl & Heqn & Hc & Hcalib).
    concrete Hl. concrete Heqn.
    change (calibration (u "2000(gal)/8388608") = Ok c) in Hc.
    rewrite Hcal in Hc. injection Hc as <-. exact Hcalib.
  - pose (hl := Sample.with_scale "2000(gal)").
    apply (proj1 (proj2 (proj2 (proj2 (proj2 (proj2 (proj2
                                                       calibration_factor))))))
             _ false
             (take 16 (Sample.file_lines
                         (<[13%nat := "Scale Factor      2000(gal)"%string]>
                            Sample.header)))
             (b "Memo.             " ++ [newline])
             (readlines Sample.samples)
             (take 16 hl) (u "Memo.             " ++ [10%N])
             (Sample.the (hdr_prefix 13 hl false))
             (u "Scale Factor      2000(gal)" ++ [10%N]) (u "2000(gal)")).
    + vm_compute. reflexivity.
    + apply Forall2_same_length_lookup_2; [reflexivity |].
      intros i raw line Hraw Hline.
      do 16 (destruct i as [|i];
             [ injection Hraw as <-; injection Hline as <-;
               split; vm_compute; reflexivity |]).
      discriminate.
    + vm_compute. reflexivity.
    + reflexivity.
    + reflexivity.
    + reflexivity.
    + reflexivity.
    + reflexivity.
    + reflexivity.
Defined.

(** C10 on the sampling tokens [Hz] and [100Hz]. *)
Lemma sampling_rate_leading_digits_witness :
  _read_knet_hdr (Sample.with_freq "Hz") false = Raise ValueError
  /\ get_key Sample.parsed "sampling_rate" = Some (VInt 100).
Proof.
  split.
  - assert (Hhead : forall c, head (u "Hz") = Some c -> is_digit c = false).
    { intros c Hc. concrete Hc. reflexivity. }
    apply (proj2 (proj2 (proj2 (proj1 sampling_rate_leading_digits
                                  (Sample.with_freq "Hz") false
                                  (u "Sampling Freq(Hz) Hz" ++ [10%N])
                                  (u "Hz") eq_refl eq_refl Hhead)))
             (Sample.the (hdr_prefix 10 (Sample.with_freq "Hz") false))
             eq_refl eq_refl).
  - assert (Hok : _read_knet_hdr Sample.hdrlines false = Ok Sample.parsed)
      by reflexivity.
    destruct (proj1 (proj2 sampling_rate_leading_digits) _ _ _ Hok)
      as (line & freqstr & c & Hl & Htok & _ & _ & Hrate).
    concrete Hl. concrete Htok. exact Hrate.
Defined.

(** * Worked examples for the rest of the module *)

(** Checks [Forall2 passed_over] on the sixteen lines before ['Memo.']. *)
Ltac passed_over_16 :=
  apply Forall2_same_length_lookup_2; [reflexivity |];
  let i := fresh "i" in
  let Hraw := fresh "Hraw" in
  let Hline := fresh "Hline" in
  intros i ? ? Hraw Hline;
  do 16 (destruct i as [|i];
         [ injection Hraw as <-; injection Hline as <-;
           split; vm_compute; reflexivity |]);
  discriminate.

(** X1 on the sample header: its seven keys. *)
Lemma header_keys_witness :
  dom Sample.parsed
  = {["knet"; "station"; "location"; "starttime"; "sampling_rate";
      "channel"; "calib"]}%string.
Proof.
  destruct (header_keys Sample.hdrlines false Sample.parsed eq_refl)
    as (line & knet & _ & Hdom & _).
  exact Hdom.
Defined.

(** X2 on the sample header. *)
Lemma header_float_fields_witness :
  Forall (fun '(key, i, pos) =>
            exists line tok x,
              Sample.hdrlines !! i = Some line
              /\ str_split line !! pos = Some tok
              /\ float_of_str tok = Some x
              /\ get_knet Sample.parsed key = Some (VFloat x))
    float_fields.
Proof.
  apply (header_float_fields Sample.hdrlines false Sample.parsed).
  reflexivity.
Defined.

(** X3 on the sample header with a comment of two words. *)
Lemma header_comment_witness :
  get_knet (Sample.the (_read_knet_hdr
                          (Sample.with_memo "   first   record ") false))
    "comment" = Some (VStr (u "first record")).
Proof.
  destruct (header_comment (Sample.with_memo "   first   record ") false
              (Sample.the (_read_knet_hdr
                             (Sample.with_memo "   first   record ") false))
              eq_refl) as (line & Hl & Hget & _).
  concrete Hl. rewrite Hget. reflexivity.
Defined.

(** X4 on the sample header, parsed with conversion. *)
Lemma station_location_rejoin_witness :
  exists line tok st loc,
    Sample.hdrlines !! 5%nat = Some line
    /\ str_split line !! 2%nat = Some tok
    /\ get_key (Sample.the (_read_knet_hdr Sample.hdrlines true)) "station"
       = Some (VStr st)
    /\ get_key (Sample.the (_read_knet_hdr Sample.hdrlines true)) "location"
       = Some (VStr loc)
    /\ st ++ loc = tok
    /\ (1 <= length st <= 7)%nat
    /\ (loc = [] \/ length loc = 2%nat)
    /\ (true = false -> loc = [])
    /\ (length tok <= 9)%nat.
Proof.
  apply (station_location_rejoin Sample.hdrlines true). reflexivity.
Defined.

(** X5 on a sampling token of [0Hz]: the rate is 0. *)
Lemma sampling_rate_sign_witness :
  get_key (Sample.the (_read_knet_hdr (Sample.with_freq "0Hz") false))
    "sampling_rate" = Some (VInt 0).
Proof.
  destruct (sampling_rate_sign (Sample.with_freq "0Hz") false
              (Sample.the (_read_knet_hdr (Sample.with_freq "0Hz") false))
              eq_refl)
    as (line & freqstr & n & Hl & Htok & Hget & _ & Hzero).
  concrete Hl. concrete Htok. rewrite Hget. do 2 f_equal.
  apply Hzero. repeat constructor.
Defined.

(** X6 on the sample header. *)
Lemma channel_code_characters_witness :
  exists ch,
    get_key Sample.parsed "channel" = Some (VStr ch)
    /\ Forall (fun c => c <> 45%N /\ isspace c = false) ch.
Proof.
  apply (channel_code_characters Sample.hdrlines false). reflexivity.
Defined.

(** X7 on the header with its [Lat.] and [Long.] lines swapped. *)
Lemma header_exceptions_witness :
  header_exn Sample.swapped
    (KNETException
       (u "Expected line to start with " ++ u "Lat."
        ++ u " but got " ++ (u "Long.             142.860" ++ [10%N])
        ++ u " "))
  /\ KNETException
       (u "Expected line to start with " ++ u "Lat."
        ++ u " but got " ++ (u "Long.             142.860" ++ [10%N])
        ++ u " ") <> KeyError
  /\ KNETException
       (u "Expected line to start with " ++ u "Lat."
        ++ u " but got " ++ (u "Long.             142.860" ++ [10%N])
        ++ u " ") <> TypeError
  /\ KNETException
       (u "Expected line to start with " ++ u "Lat."
        ++ u " but got " ++ (u "Long.             142.860" ++ [10%N])
        ++ u " ") <> UnicodeDecodeError.
Proof.
  apply (header_exceptions (H := binary64) Sample.swapped false).
  reflexivity.
Defined.

(** X8 on the first 16 lines of the sample header. *)
Lemma header_short_list_witness :
  _read_knet_hdr (take 16 Sample.hdrlines) false = Raise IndexError.
Proof.
  apply (header_short_list (take 16 Sample.hdrlines) false
           (Sample.the (hdr_prefix 16 (take 16 Sample.hdrlines) false))).
  - vm_compute. lia.
  - reflexivity.
Defined.

(** X9 on the header whose [Lat.] line holds no value. *)
Lemma header_missing_token_witness :
  _read_knet_hdr Sample.without_latitude false = Raise IndexError.
Proof.
  apply (header_missing_token Sample.without_latitude false 1 2
           (Sample.the (hdr_prefix 1 Sample.without_latitude false))
           (u "Lat.") (u "Lat." ++ [10%N])).
  - reflexivity.
  - reflexivity.
  - reflexivity.
  - reflexivity.
  - reflexivity.
  - vm_compute. lia.
Defined.

(** X10 on the sample header: lines without a newline against lines
    closed by a carriage return and a newline. *)
Lemma header_trailing_whitespace_witness :
  _read_knet_hdr Sample.crlf false = Ok Sample.parsed.
Proof.
  apply (header_trailing_whitespace Sample.bare Sample.crlf false).
  - apply Forall2_fmap, Forall_Forall2_diag, Forall_forall.
    intros l _. exists [13%N; 10%N]. split; [reflexivity |].
    repeat constructor.
  - reflexivity.
Defined.

(** X11 on the sample file. *)
Lemma decode_at_first_memo_witness :
  _internal_read_knet_ascii Sample.file false
  = hdrdict ← _read_knet_hdr
                (Sample.before_memo_decoded ++ [Sample.memo_line_decoded])
                false;
    data ← floats_of (sample_tokens (readlines Sample.samples));
    Ok [ {| data := data;
            stats := set_key "network" (VStr (u "BO"))
                       (set_key "npts" (VInt (Z.of_nat (length data)))
                          hdrdict) |} ].
Proof.
  apply (decode_at_first_memo Sample.file false Sample.before_memo
           Sample.before_memo_decoded Sample.memo_line
           Sample.memo_line_decoded (readlines Sample.samples)).
  - vm_compute. reflexivity.
  - passed_over_16.
  - vm_compute. reflexivity.
  - reflexivity.
Defined.

(** X12 on the sample file. *)
Lemma decode_success_witness :
  exists hdr vals,
    [ {| data := Sample.values;
         stats := set_key "network" (VStr (u "BO"))
                    (set_key "npts" (VInt 6) Sample.parsed) |} ]
    = [ {| data := vals;
           stats := set_key "network" (VStr (u "BO"))
                      (set_key "npts" (VInt (Z.of_nat (length vals)))
                         hdr) |} ]
    /\ ((hdr = ∅ /\ vals = []
         /\ Forall (fun raw => exists line, passed_over raw line)
              (readlines Sample.file))
        \/ exists pre hpre last l rest,
             readlines Sample.file = pre ++ last :: rest
             /\ length pre = 16%nat
             /\ Forall2 passed_over pre hpre
             /\ utf8_decode last = Some l
             /\ startswith (u "Memo.") l = true
             /\ _read_knet_hdr (hpre ++ [l]) false = Ok hdr
             /\ Forall2 (fun tok v => float_of_bytes tok = Some v)
                  (sample_tokens rest) vals).
Proof.
  apply (decode_success Sample.file false). reflexivity.
Defined.

(** X13 on the sample file with the sample [abc]. *)
Lemma decode_bad_sample_witness :
  _internal_read_knet_ascii Sample.file_bad_samples false = Raise ValueError.
Proof.
  apply (decode_bad_sample Sample.file_bad_samples false Sample.before_memo
           Sample.before_memo_decoded Sample.memo_line
           Sample.memo_line_decoded (readlines Sample.bad_samples)
           Sample.parsed).
  - vm_compute. reflexivity.
  - passed_over_16.
  - vm_compute. reflexivity.
  - reflexivity.
  - reflexivity.
  - apply Exists_exists. exists (b "abc"). split; [| reflexivity].
    vm_compute. repeat constructor.
Defined.

(** X14 on a first line with the byte [0xff]. *)
Lemma decode_undecodable_line_witness :
  _internal_read_knet_ascii Sample.undecodable false
  = Raise UnicodeDecodeError.
Proof.
  apply (decode_undecodable_line (H := binary64) Sample.undecodable false
           [] [] Sample.undecodable []).
  - vm_compute. reflexivity.
  - constructor.
  - reflexivity.
Defined.

(** X15 on the sample header. *)
Lemma convert_stnm_accepts_more_witness :
  exists h' st loc,
    _read_knet_hdr Sample.hdrlines true = Ok h'
    /\ same_but_station Sample.parsed h'
    /\ get_key h' "station" = Some (VStr st)
    /\ get_key h' "location" = Some (VStr loc)
    /\ get_key Sample.parsed "station" = Some (VStr (st ++ loc))
    /\ get_key Sample.parsed "location" = Some (VStr []).
Proof.
  apply (convert_stnm_accepts_more Sample.hdrlines). reflexivity.
Defined.

(** X16 on the swapped header and on its first two lines alone. *)
Lemma header_first_failure_witness :
  _read_knet_hdr (take 2 Sample.swapped) false
  = Raise (KNETException
             (u "Expected line to start with " ++ u "Lat."
              ++ u " but got " ++ (u "Long.             142.860" ++ [10%N])
              ++ u " ")).
Proof.
  apply (header_first_failure Sample.swapped (take 2 Sample.swapped) false 1
           (Sample.the (hdr_prefix 1 Sample.swapped false))).
  - reflexivity.
  - reflexivity.
  - reflexivity.
Defined.

(** X17 on a file whose fourth line starts with ['Memo']. *)
Lemma decode_exceptions_witness :
  (KNETException
     (u "Expected line to start with " ++ u "Depth. (km)"
      ++ u " but got " ++ (u "Memo." ++ [10%N]) ++ u " ")
   = UnicodeDecodeError
   \/ exists raws hl,
        raws `prefix_of` readlines Sample.early_memo
        /\ Forall2 (fun raw line => utf8_decode raw = Some line) raws hl
        /\ block_exn hl
             (KNETException
                (u "Expected line to start with " ++ u "Depth. (km)"
                 ++ u " but got " ++ (u "Memo." ++ [10%N]) ++ u " ")))
  /\ (forall n,
        KNETException
          (u "Expected line to start with " ++ u "Depth. (km)"
           ++ u " but got " ++ (u "Memo." ++ [10%N]) ++ u " ")
        <> KNETException (count_msg 17 n))
  /\ KNETException
       (u "Expected line to start with " ++ u "Depth. (km)"
        ++ u " but got " ++ (u "Memo." ++ [10%N]) ++ u " ") <> KeyError
  /\ KNETException
       (u "Expected line to start with " ++ u "Depth. (km)"
        ++ u " but got " ++ (u "Memo." ++ [10%N]) ++ u " ") <> TypeError.
Proof.
  apply (decode_exceptions (H := binary64) Sample.early_memo false).
  reflexivity.
Defined.

(** X18 on a file whose fourth line starts with ['Memo']. *)
Lemma decode_misplaced_memo_witness :
  _internal_read_knet_ascii Sample.early_memo false
  = Raise (KNETException
             (u "Expected line to start with " ++ u "Depth. (km)"
              ++ u " but got " ++ (u "Memo." ++ [10%N]) ++ u " ")).
Proof.
  apply (decode_misplaced_memo Sample.early_memo false
           (take 3 (Sample.file_lines Sample.header))
           (take 3 Sample.hdrlines) (b "Memo." ++ [newline])
           (u "Memo." ++ [10%N]) [] (u "Depth. (km)") (u "Memo." ++ [10%N])
           (Sample.the (hdr_prefix 3 (take 3 Sample.hdrlines
                                        ++ [u "Memo." ++ [10%N]]) false))).
  - vm_compute. reflexivity.
  - repeat constructor.
  - vm_compute. reflexivity.
  - reflexivity.
  - vm_compute. lia.
  - reflexivity.
  - reflexivity.
  - reflexivity.
Defined.
